(** * convert_mediawikixml_to_markdown.py: a shallow embedding

    The converter reads a MediaWiki XML dump, repairs the wikitext of every
    page with a chain of string rewrites, hands the result to pandoc and
    writes one Markdown file per page.  This development embeds the pure
    parts of the script (classes [CleanLink], [PandocFix], [Convert]) as
    Rocq functions over [string], threads the mutable attributes of the
    [Convert] object and the outside world (files written, lines printed)
    through explicit records, and proves the properties of the specification
    against these definitions.

    Characters are 8-bit code points ([ascii]); Python's [str] methods are
    modelled on that range. *)

From Stdlib Require Import String Ascii List Bool Arith Lia DecimalString.
Import ListNotations.
Open Scope list_scope.
Open Scope string_scope.

(* ================================================================== *)
(** * Python string primitives *)
(* ================================================================== *)

Module PyStr.

(** [s.startswith(p)] *)
Fixpoint startswith (s p : string) : bool :=
  match p with
  | EmptyString => true
  | String a p' =>
      match s with
      | EmptyString => false
      | String b s' => Ascii.eqb a b && startswith s' p'
      end
  end.

(** [p in s] for strings *)
Fixpoint contains (s p : string) : bool :=
  startswith s p ||
  match s with
  | EmptyString => false
  | String _ s' => contains s' p
  end.

(** [c in s] for a single character *)
Fixpoint mem (c : ascii) (s : string) : bool :=
  match s with
  | EmptyString => false
  | String a s' => Ascii.eqb c a || mem c s'
  end.

(** [s.replace(old, new)] with a non-empty [old]: a left-to-right scan that
    replaces every non-overlapping occurrence.  [skip] counts the characters
    of the occurrence just replaced that are still to be passed over. *)
Fixpoint replace_from (skip : nat) (old new s : string) : string :=
  match s with
  | EmptyString => EmptyString
  | String c s' =>
      match skip with
      | S k => replace_from k old new s'
      | O =>
          if startswith s old
          then new ++ replace_from (String.length old - 1) old new s'
          else String c (replace_from 0 old new s')
      end
  end.

(** With an empty [old] Python inserts [new] before every character and at
    the end. *)
Fixpoint intersperse_all (new s : string) : string :=
  match s with
  | EmptyString => new
  | String c s' => new ++ String c (intersperse_all new s')
  end.

Definition replace (s old new : string) : string :=
  match old with
  | EmptyString => intersperse_all new s
  | String _ _ => replace_from 0 old new s
  end.

(** [s.split(sep)] with a non-empty [sep]; the head of the result is the
    segment being read. *)
Fixpoint split_from (skip : nat) (sep s : string) : list string :=
  match s with
  | EmptyString => [EmptyString]
  | String c s' =>
      match skip with
      | S k => split_from k sep s'
      | O =>
          if startswith s sep
          then EmptyString :: split_from (String.length sep - 1) sep s'
          else match split_from 0 sep s' with
               | seg :: rest => String c seg :: rest
               | [] => [String c EmptyString]
               end
      end
  end.

Definition split (s sep : string) : list string := split_from 0 sep s.

(** [s.split(sep, 1)]: [None] stands for the one-element list [[s]] returned
    when [sep] does not occur, [Some (a, b)] for the list [[a, b]]. *)
Fixpoint split_once (s sep : string) : option (string * string) :=
  match s with
  | EmptyString => None
  | String c s' =>
      if startswith s sep
      then Some (EmptyString, substring (String.length sep) (String.length s) s)
      else match split_once s' sep with
           | Some (a, b) => Some (String c a, b)
           | None => None
           end
  end.

(** [sep.join(l)] *)
Definition join (sep : string) (l : list string) : string := String.concat sep l.

(** [c.isspace()] on code points below 256 *)
Definition isspace (c : ascii) : bool :=
  let n := nat_of_ascii c in
  (Nat.leb 9 n && Nat.leb n 13) || (Nat.leb 28 n && Nat.leb n 32)
  || Nat.eqb n 133 || Nat.eqb n 160.

Fixpoint lstrip (s : string) : string :=
  match s with
  | EmptyString => EmptyString
  | String c s' => if isspace c then lstrip s' else s
  end.

Fixpoint rstrip (s : string) : string :=
  match s with
  | EmptyString => EmptyString
  | String c s' =>
      match rstrip s' with
      | EmptyString => if isspace c then EmptyString else String c EmptyString
      | r => String c r
      end
  end.

(** [s.strip()] *)
Definition strip (s : string) : string := rstrip (lstrip s).

(** [s.strip(chars)] *)
Fixpoint lstrip_chars (chars s : string) : string :=
  match s with
  | EmptyString => EmptyString
  | String c s' => if mem c chars then lstrip_chars chars s' else s
  end.

Fixpoint rstrip_chars (chars s : string) : string :=
  match s with
  | EmptyString => EmptyString
  | String c s' =>
      match rstrip_chars chars s' with
      | EmptyString => if mem c chars then EmptyString else String c EmptyString
      | r => String c r
      end
  end.

Definition strip_chars (s chars : string) : string :=
  rstrip_chars chars (lstrip_chars chars s).

(** [a <= b]: lexicographic order on code points *)
Definition le (a b : string) : bool := String.leb a b.

(** The line boundaries of [s.splitlines()] below code point 256. *)
Definition is_linebreak (c : ascii) : bool :=
  let n := nat_of_ascii c in
  (Nat.leb 10 n && Nat.leb n 13) || (Nat.leb 28 n && Nat.leb n 30) || Nat.eqb n 133.

(** [s.splitlines()[0]] for a non-empty [s] *)
Fixpoint first_line (s : string) : string :=
  match s with
  | EmptyString => EmptyString
  | String c s' => if is_linebreak c then EmptyString else String c (first_line s')
  end.

End PyStr.

(** The line feed and the other characters the script names by escapes. *)
Definition LF : string := String (ascii_of_nat 10) EmptyString.
Definition BACKSLASH : string := String (ascii_of_nat 92) EmptyString.
Definition DQUOTE : string := String (ascii_of_nat 34) EmptyString.

(* ================================================================== *)
(** * os.path.join on a POSIX host *)
(* ================================================================== *)

Module PosixPath.

(** [os.path.join(a, b)]: an absolute [b] replaces [a]; otherwise [b] is
    appended, after a separator unless [a] is empty or already ends in one. *)
Definition endswith_sep (a : string) : bool :=
  match String.length a with
  | O => false
  | S n => String.eqb (substring n 1 a) "/"
  end.

Definition join (a b : string) : string :=
  if PyStr.startswith b "/" then b
  else if (String.eqb a "" || endswith_sep a) then a ++ b
  else a ++ "/" ++ b.

End PosixPath.

(* ================================================================== *)
(** * The fragment of Python's [re] the script uses *)
(* ================================================================== *)

Module Re.

(** Patterns.  Every pattern of the script has at most one capture group,
    so [Group] always denotes group 1. *)
Inductive regex : Type :=
| Eps
| Chr (p : ascii -> bool)
| Seq (r1 r2 : regex)
| Alt (r1 r2 : regex)
| Star (greedy : bool) (r : regex)
| Group (r : regex)
| Bol
| Eol
| NotBehind (p : ascii -> bool)
| NotAhead (p : ascii -> bool).

(** A successful match: the text left after it and the text of group 1. *)
Definition result : Type := string * option string.

(** The text consumed between two suffixes of the same string. *)
Definition consumed (s s' : string) : string :=
  substring 0 (String.length s - String.length s') s.

Definition orelse (a b : option result) : option result :=
  match a with Some _ => a | None => b end.

(** Continuations of the backtracking matcher: [prev] is the character
    before the cursor ([None] at the start of the text), [s] the text from
    the cursor on, [g] the text of group 1 so far. *)
Definition cont : Type := option ascii -> string -> option string -> option result.

(** The iterations of a starred pattern whose body is matched by [body].
    An iteration must consume a character, so a bound [n] no smaller than
    the length of the text never cuts the iteration short.  The greedy star
    tries one more iteration before the rest of the pattern, the lazy star
    the rest of the pattern first. *)
Section StarLoop.

Variable body : option ascii -> string -> option string -> cont -> option result.
Variable greedy : bool.
Variable k : cont.

Fixpoint star_loop (n : nat) (prev : option ascii) (s : string) (g : option string)
    {struct n} : option result :=
  let more :=
    match n with
    | O => None
    | S n' =>
        body prev s g
          (fun prev' s' g' =>
             if Nat.ltb (String.length s') (String.length s)
             then star_loop n' prev' s' g' else None)
    end in
  if greedy then orelse more (k prev s g) else orelse (k prev s g) more.

End StarLoop.

(** Backtracking matcher in continuation-passing style.  [Bol] and [Eol]
    are the MULTILINE anchors. *)
Fixpoint run (r : regex) (prev : option ascii) (s : string) (g : option string)
    (k : cont) {struct r} : option result :=
  match r with
  | Eps => k prev s g
  | Chr p =>
      match s with
      | String c s' => if p c then k (Some c) s' g else None
      | EmptyString => None
      end
  | Seq r1 r2 =>
      run r1 prev s g (fun prev' s' g' => run r2 prev' s' g' k)
  | Alt r1 r2 => orelse (run r1 prev s g k) (run r2 prev s g k)
  | Star greedy r' => star_loop (run r') greedy k (String.length s) prev s g
  | Group r' =>
      run r' prev s g (fun prev' s' _ => k prev' s' (Some (consumed s s')))
  | Bol =>
      match prev with
      | None => k prev s g
      | Some c => if Ascii.eqb c (ascii_of_nat 10) then k prev s g else None
      end
  | Eol =>
      match s with
      | EmptyString => k prev s g
      | String c _ => if Ascii.eqb c (ascii_of_nat 10) then k prev s g else None
      end
  | NotBehind p =>
      match prev with
      | Some c => if p c then None else k prev s g
      | None => k prev s g
      end
  | NotAhead p =>
      match s with
      | String c _ => if p c then None else k prev s g
      | EmptyString => k prev s g
      end
  end.

(** A match attempt at the cursor. *)
Definition match_at (r : regex) (prev : option ascii) (s : string) : option result :=
  run r prev s None (fun _ s' g => Some (s', g)).

(** A match handed to a replacement function: [group(0)] and [group(1)];
    a group that took no part in the match reads as the empty string. *)
Record matched : Type := { group0 : string; group1 : string }.

Definition mk_matched (s : string) (res : result) : matched :=
  {| group0 := consumed s (fst res);
     group1 := match snd res with Some g => g | None => EmptyString end |}.

(** [re.sub(r, repl, text)]: leftmost matches, left to right, not
    overlapping; an empty match leaves the character at the cursor in
    place.  [skip] counts the characters of the last match still to pass. *)
Fixpoint sub_from (skip : nat) (r : regex) (repl : matched -> string)
    (prev : option ascii) (s : string) : string :=
  match skip with
  | S k =>
      match s with
      | EmptyString => EmptyString
      | String c s' => sub_from k r repl (Some c) s'
      end
  | O =>
      match match_at r prev s with
      | Some res =>
          let m := mk_matched s res in
          repl m ++
          match s with
          | EmptyString => EmptyString
          | String c s' =>
              match String.length (group0 m) with
              | O => String c (sub_from 0 r repl (Some c) s')
              | S n => sub_from n r repl (Some c) s'
              end
          end
      | None =>
          match s with
          | EmptyString => EmptyString
          | String c s' => String c (sub_from 0 r repl (Some c) s')
          end
      end
  end.

Definition sub (r : regex) (repl : matched -> string) (text : string) : string :=
  sub_from 0 r repl None text.

(** [re.findall(r, text)] for a pattern without groups. *)
Fixpoint findall_from (skip : nat) (r : regex) (prev : option ascii)
    (s : string) : list string :=
  match skip with
  | S k =>
      match s with
      | EmptyString => []
      | String c s' => findall_from k r (Some c) s'
      end
  | O =>
      match match_at r prev s with
      | Some res =>
          let m := mk_matched s res in
          group0 m ::
          match s with
          | EmptyString => []
          | String c s' =>
              findall_from (String.length (group0 m) - 1) r (Some c) s'
          end
      | None =>
          match s with
          | EmptyString => []
          | String c s' => findall_from 0 r (Some c) s'
          end
      end
  end.

Definition findall (r : regex) (text : string) : list string :=
  findall_from 0 r None text.

(** Pattern syntax. *)
Definition oneof (c : string) : ascii -> bool := fun a => PyStr.mem a c.
Definition noneof (c : string) : ascii -> bool := fun a => negb (PyStr.mem a c).
Definition any : ascii -> bool := fun _ => true.
Definition dot : ascii -> bool := fun a => negb (Ascii.eqb a (ascii_of_nat 10)).

Fixpoint lit (s : string) : regex :=
  match s with
  | EmptyString => Eps
  | String c EmptyString => Chr (Ascii.eqb c)
  | String c s' => Seq (Chr (Ascii.eqb c)) (lit s')
  end.

Definition star (r : regex) : regex := Star true r.
Definition plus (r : regex) : regex := Seq r (Star true r).
Definition opt (r : regex) : regex := Alt r Eps.
Definition lazy_star (r : regex) : regex := Star false r.
Definition lazy_plus (r : regex) : regex := Seq r (Star false r).
Definition ws : regex := Chr PyStr.isspace.

Fixpoint seq (l : list regex) : regex :=
  match l with
  | [] => Eps
  | [r] => r
  | r :: l' => Seq r (seq l')
  end.

End Re.

(* ================================================================== *)
(** * The page metadata dictionary *)
(* ================================================================== *)

(** The dict returned by [Convert.retrieve_file_info]. *)
Module Meta.
Record t : Type := { directory : string; filename : string; title : string; url : string }.
End Meta.

(* ================================================================== *)
(** * class CleanLink *)
(* ================================================================== *)

Module CleanLink.

(** The loop body of [normalize_path]. *)
Definition normalize_step (parts : list string) (segment : string) : list string :=
  if String.eqb segment "." then parts
  else if String.eqb segment ".." then removelast parts
  else (parts ++ [segment])%list.

Definition normalize_path (path : string) : string :=
  let path := PyStr.replace path BACKSLASH "/" in
  let path := Re.sub (Re.plus (Re.lit "/")) (fun _ => "/") path in
  let segments := PyStr.split path "/" in
  PyStr.join "/" (fold_left normalize_step segments []).

(** [re.match(r"^https?://", s)] and [re.match(r'^\.*?/', s)] *)
Definition re_http : Re.regex :=
  Re.seq [Re.Bol; Re.lit "http"; Re.opt (Re.lit "s"); Re.lit "://"].
Definition re_relative : Re.regex :=
  Re.seq [Re.Bol; Re.lazy_star (Re.lit "."); Re.lit "/"].

Definition re_match (r : Re.regex) (s : string) : bool :=
  match Re.match_at r None s with Some _ => true | None => false end.

(** [clean_link], applied to [match.group(1)]. *)
Definition clean_link (flatten : bool) (meta : Meta.t) (link_to_clean : string) : string :=
  if re_match re_http link_to_clean then "[" ++ link_to_clean ++ "]"
  else
    let link_to_clean :=
      if re_match re_relative link_to_clean
      then Meta.url meta ++ "/" ++ link_to_clean
      else link_to_clean in
    let '(link, link_text) :=
      match PyStr.split_once link_to_clean "|" with
      | None => (link_to_clean, link_to_clean)
      | Some (a, b) => (a, b)
      end in
    let link := normalize_path (PyStr.strip link) in
    let link := if flatten then PyStr.replace link "/" "_" else link in
    let link := PyStr.replace link " " "_" in
    let link_text := PyStr.strip link_text in
    "[[" ++ link ++ "|" ++ link_text ++ "]]".

End CleanLink.

(* ================================================================== *)
(** * class PandocFix *)
(* ================================================================== *)

Module PandocFix.

Definition url_fix (url : string) : string :=
  PyStr.replace (PyStr.replace (PyStr.replace url "=&" "=%20&") "= " "=%20 ")
                ".&" ".%20&".

End PandocFix.

(* ================================================================== *)
(** * class Convert *)
(* ================================================================== *)

Module Convert.

(** A [<page>] element as [convert_data] reads it: the text of its
    [mw:title] child and of its [mw:revision/mw:text] descendant, [None]
    where the element or its text is missing. *)
Record Page : Type := { page_title : option string; page_text : option string }.

(** The attributes of the [Convert] object ([page_list] and
    [pandoc_installed] are set by the constructor and never read). *)
Record t : Type := {
  filename : string;
  output : string;
  flatten : bool;
  addmeta : bool;
  indexes : bool;
  skiperrors : bool;
  format : string;
  counter : nat;
  directory_list : list string;
  data_to_convert : list Page;
  pandoc_version : string
}.

Definition set_counter (self : t) (n : nat) : t :=
  {| filename := filename self; output := output self; flatten := flatten self;
     addmeta := addmeta self; indexes := indexes self;
     skiperrors := skiperrors self; format := format self;
     counter := n; directory_list := directory_list self;
     data_to_convert := data_to_convert self;
     pandoc_version := pandoc_version self |}.

Definition set_directory_list (self : t) (l : list string) : t :=
  {| filename := filename self; output := output self; flatten := flatten self;
     addmeta := addmeta self; indexes := indexes self;
     skiperrors := skiperrors self; format := format self;
     counter := counter self; directory_list := l;
     data_to_convert := data_to_convert self;
     pandoc_version := pandoc_version self |}.

Definition set_data_to_convert (self : t) (l : list Page) : t :=
  {| filename := filename self; output := output self; flatten := flatten self;
     addmeta := addmeta self; indexes := indexes self;
     skiperrors := skiperrors self; format := format self;
     counter := counter self; directory_list := directory_list self;
     data_to_convert := l;
     pandoc_version := pandoc_version self |}.

(** Lines 98-100: the first line of what [pandoc --version] prints;
    [None] stands for the IndexError on an empty output. *)
Definition get_pandoc_version (version_output : string) : option string :=
  match version_output with
  | EmptyString => None
  | _ => Some (PyStr.first_line version_output)
  end.

(** [Convert(options)] once pandoc has answered [--version]: [version] is
    what [get_pandoc_version] returned. *)
Definition init (filename output : string) (flatten addmeta indexes skiperrors : bool)
    (format version : string) : t :=
  {| filename := filename; output := output; flatten := flatten;
     addmeta := addmeta; indexes := indexes; skiperrors := skiperrors;
     format := format; counter := 0; directory_list := [];
     data_to_convert := []; pandoc_version := version |}.

(** The world outside the object: the lines printed, the directories made
    and the files written (latest first, path and content). *)
Record World : Type := {
  stdout : list string;
  dirs : list string;
  files : list (string * string)
}.

Definition print (line : string) (w : World) : World :=
  {| stdout := (stdout w ++ [line])%list; dirs := dirs w; files := files w |}.

Definition path_exists (path : string) (w : World) : bool :=
  existsb (String.eqb path) (dirs w) || existsb (fun f => String.eqb path (fst f)) (files w).

Definition makedirs (path : string) (w : World) : World :=
  {| stdout := stdout w; dirs := path :: dirs w; files := files w |}.

Definition write_file (path text : string) (w : World) : World :=
  {| stdout := stdout w; dirs := dirs w;
     files := (path, text) :: filter (fun f => negb (String.eqb path (fst f))) (files w) |}.

Definition read_file (path : string) (w : World) : option string :=
  match find (fun f => String.eqb path (fst f)) (files w) with
  | Some f => Some (snd f)
  | None => None
  end.

Definition rename (src dst : string) (w : World) : World :=
  match read_file src w with
  | Some text =>
      write_file dst text
        {| stdout := stdout w; dirs := dirs w;
           files := filter (fun f => negb (String.eqb src (fst f))) (files w) |}
  | None => w
  end.

(** Python exceptions, by message: the ones the script raises itself and
    the [OSError] of a refused file-system call.  Both are caught by
    [except Exception]. *)
Inductive exn : Type := Exception (msg : string) | OSError (msg : string).

Definition exn_msg (e : exn) : string :=
  match e with Exception m => m | OSError m => m end.

(** What the host answers to the calls that can be refused, by the message
    of the error: [os.makedirs(path)] and [open(path, 'w')] raise an
    [OSError] (a name too long, a missing permission, a file in the way),
    and writing a text that has no UTF-8 encoding raises a
    [UnicodeEncodeError].  [None] means that the call goes through.  The
    answers are taken to be the same all through a run. *)
Record Host : Type := {
  makedirs_error : string -> option string;
  open_error : string -> option string;
  encode_error : string -> option string
}.

(* ------------------------------------------------------------------ *)
(** ** Path resolution *)

Definition invalid_chars : list (string * string) :=
  [(":", "_"); ("/", "_"); ("*", "_"); ("?", "_"); ("<", "_"); (">", "_");
   ("|", "_"); (BACKSLASH, "_"); (DQUOTE, "_")].

(** The loop over [invalid_chars.items()]. *)
Definition sanitize (title : string) : string :=
  fold_left (fun t cr => PyStr.replace t (fst cr) (snd cr)) invalid_chars title.

(** The relative directory and the file name derived from [url]. *)
Definition locate (url : string) : string * string :=
  if PyStr.contains url "/"
  then let parts := PyStr.split url "/" in
       (PyStr.join "/" (removelast parts), last parts EmptyString)
  else (EmptyString, url).

Definition retrieve_file_info (self : t) (title : string) : Meta.t * t :=
  let title := sanitize title in
  let url := PyStr.replace title " " "_" in
  let '(directory, filename) := locate url in
  let self :=
    if PyStr.contains url "/"
    then set_directory_list self (directory_list self ++ [directory])%list
    else self in
  ({| Meta.directory := PosixPath.join (output self) directory;
      Meta.filename := filename;
      Meta.title := title;
      Meta.url := url |}, self).

(** Lines 426-428.  [Some e] means that [os.makedirs] raised [e]. *)
Definition create_directory (host : Host) (directory : string) (w : World)
    : World * option exn :=
  if negb (String.eqb directory "") && negb (path_exists directory w)
  then match makedirs_error host directory with
       | Some msg => (w, Some (OSError msg))
       | None => (makedirs directory w, None)
       end
  else (w, None).

Definition get_metadata (self : t) (file_meta : Meta.t) : string :=
  if addmeta self
  then "---" ++ LF ++ "title: " ++ Meta.title file_meta ++ LF ++
       "permalink: /" ++ Meta.url file_meta ++ "/" ++ LF ++ "---" ++ LF ++ LF
  else EmptyString.

(** The path [save_file] writes to. *)
Definition file_path (file_meta : Meta.t) : string :=
  PosixPath.join (Meta.directory file_meta) (Meta.filename file_meta ++ ".md").

(** Lines 379-390.  An [OSError] of [os.makedirs] or of [open] leaves the
    function as it is; a [UnicodeEncodeError] of [file.write] comes when the
    file is already open, so the file is left empty, and is raised again as
    an [Exception] that names the page. *)
Definition save_file (host : Host) (file_meta : Meta.t) (text : string) (w : World)
    : World * option exn :=
  match create_directory host (Meta.directory file_meta) w with
  | (w, Some e) => (w, Some e)
  | (w, None) =>
      match open_error host (file_path file_meta) with
      | Some msg => (w, Some (OSError msg))
      | None =>
          match encode_error host text with
          | Some msg =>
              (write_file (file_path file_meta) "" w,
               Some (Exception ("Error saving file " ++ Meta.title file_meta
                                ++ ": " ++ msg)))
          | None =>
              let w := write_file (file_path file_meta) text w in
              (print ("Converted: " ++ file_path file_meta) w, None)
          end
      end
  end.

(* ------------------------------------------------------------------ *)
(** ** Markup normalisation: [clean_text] *)

Import Re.

Definition const (s : string) : matched -> string := fun _ => s.

(** Lines 140-141: decode the escaped angle brackets. *)
Definition decode_entities (text : string) : string :=
  let text := sub (lit "&lt;") (const "<") text in
  sub (lit "&gt;") (const ">") text.

(** Lines 144-146: the template heuristic, on the decoded text. *)
Definition detect_template (text : string) : bool :=
  PyStr.contains text "<noinclude>" && PyStr.contains text "{{"
  && PyStr.contains text "}}".

(** Lines 151-159: the template branch. *)
Definition clean_template (text : string) : string :=
  let text := sub (seq [lit "<"; opt (lit "/"); lit "noinclude>"]) (const "") text in
  let text := sub (seq [lit "<"; opt (lit "/"); lit "includeonly>"]) (const "") text in
  let text := sub (lit "{{{") (const "{") text in
  let text := sub (lit "}}}") (const "}") text in
  sub (Alt (seq [NotBehind (oneof "{"); lit "{"; NotAhead (oneof "{")])
           (seq [NotBehind (oneof "}"); lit "}"; NotAhead (oneof "}")]))
      (const "") text.

(** Lines 163-172: the nested function [clean_table_start]. *)
Definition clean_table_start (m : matched) : string :=
  let attrs := group1 m in
  let cleaned_attrs :=
    findall (seq [lit "class="; lit DQUOTE; star (Chr (noneof DQUOTE)); lit DQUOTE])
            attrs in
  match cleaned_attrs with
  | [] => "{|"
  | _ => "{| " ++ PyStr.join " " cleaned_attrs
  end.

(** The pattern of lines 175-181: a pipe, white space, the attribute name,
    an equals sign and a non-empty quoted value. *)
Definition table_attribute (name : string) : regex :=
  seq [lit "|"; star ws; lit name; lit "="; lit DQUOTE;
       plus (Chr (noneof DQUOTE)); lit DQUOTE].

(** Lines 172-186: table-start tags, table attributes, curly braces. *)
Definition clean_tables_and_braces (text : string) : string :=
  let text := sub (seq [lit "{|"; Group (lazy_star (Chr dot)); lit LF])
                  clean_table_start text in
  let text := sub (table_attribute "cellspacing") (const "") text in
  let text := sub (table_attribute "cellpadding") (const "") text in
  let text := sub (table_attribute "border") (const "") text in
  let text := sub (table_attribute "style") (const "") text in
  let text := sub (table_attribute "width") (const "") text in
  let text := sub (table_attribute "align") (const "") text in
  let text := sub (table_attribute "summary") (const "") text in
  let text := sub (seq [lit "{{{"; Group (plus (Chr (noneof "}"))); lit "}";
                        plus (lit "}")]) group1 text in
  let text := sub (seq [lit "{{"; Group (plus (Chr (noneof "}"))); lit "}}"])
                  group1 text in
  sub (seq [lit "{"; Group (plus (Chr (noneof "|{}"))); lit "}"]) group1 text.

(** Lines 189-209: the table-balancing pass.  The loop state is
    [(open_tables, cleaned_lines)]. *)
Definition balance_step (st : nat * list string) (line : string) : nat * list string :=
  let '(open_tables, cleaned_lines) := st in
  if PyStr.startswith (PyStr.strip line) "{|"
  then (open_tables + 1, (cleaned_lines ++ ["{|"])%list)
  else if PyStr.startswith (PyStr.strip line) "|}"
  then if Nat.ltb 0 open_tables
       then (open_tables - 1, (cleaned_lines ++ ["|}"])%list)
       else (open_tables, cleaned_lines)
  else if PyStr.startswith (PyStr.strip line) "{|}"
  then (open_tables, cleaned_lines)
  else (open_tables, (cleaned_lines ++ [line])%list).

Definition balance_lines (lines : list string) : list string :=
  let '(open_tables, cleaned_lines) := fold_left balance_step lines (0, []) in
  (cleaned_lines ++ repeat "|}" open_tables)%list.

Definition balance_tables (text : string) : string :=
  PyStr.join LF (balance_lines (PyStr.split text LF)).

(** Lines 253-275: [convert_tables_to_markdown] and its nested
    [convert_table]; the loop state is [(i, markdown_rows)]. *)
Definition convert_row (st : nat * list string) (row : string) : nat * list string :=
  let '(i, markdown_rows) := st in
  let cells := PyStr.split row "|" in
  let cleaned_cells :=
    map PyStr.strip
        (filter (fun cell => negb (String.eqb (PyStr.strip cell) "")) cells) in
  match cleaned_cells with
  | [] => (S i, markdown_rows)
  | _ =>
      let markdown_row := "| " ++ PyStr.join " | " cleaned_cells ++ " |" in
      let markdown_rows := (markdown_rows ++ [markdown_row])%list in
      if Nat.eqb i 0
      then let separator :=
             "|" ++ PyStr.join "|" (map (fun _ => "---") cleaned_cells) ++ "|" in
           (S i, (markdown_rows ++ [separator])%list)
      else (S i, markdown_rows)
  end.

Definition convert_table (m : matched) : string :=
  let table_content := group1 m in
  let rows := PyStr.split table_content "|-" in
  PyStr.join LF (snd (fold_left convert_row rows (0, []))).

Definition convert_tables_to_markdown (text : string) : string :=
  sub (seq [lit "{|"; Group (lazy_star (Chr any)); lit "|}"]) convert_table text.

(** Lines 212-238: the table syntax clean-up after balancing. *)
Definition clean_table_syntax (text : string) : string :=
  let text := sub (seq [lit "|}"; star ws; plus (lit "}")]) (const "|}") text in
  let text := sub (seq [Bol; Chr (oneof "-!"); star (Chr dot);
                        lit "scope="; lit DQUOTE; lit "row"; lit DQUOTE;
                        star (Chr dot); Eol]) (const "") text in
  let text := sub (seq [Bol; Chr (oneof "-!")]) (const "|") text in
  let text := sub (seq [lit "|"; star ws; lit LF]) (const ("|" ++ LF)) text in
  let text := sub (seq [lit "|"; plus (lit "-")]) (const "|-") text in
  let text := sub (seq [lit "|-"; star ws; lit "|"]) (const "|-") text in
  let text := sub (seq [lit "|-"; plus ws]) (const "|-") text in
  let text := sub (seq [lit "<br"; star ws; opt (lit "/"); lit ">"]) (const "") text in
  let text := sub (seq [lit "|"; Group (plus (Chr (noneof (LF ++ "|")))); lit "|"])
                  (fun m => "|" ++ LF ++ group1 m ++ LF ++ "|") text in
  let text := sub (seq [lit "|-"; star ws; lit "|-"]) (const "|-") text in
  let text := sub (seq [NotBehind (oneof "{"); lit "|"; star ws; Eol]) (const "") text in
  let text := sub (seq [Bol; lit "|"; star ws; NotAhead (oneof "}")]) (const "") text in
  convert_tables_to_markdown text.

(** Lines 240-242: the workaround for old pandoc versions, on every
    bracketed text that starts with http. *)
Definition re_bracket_url : regex :=
  seq [lit "["; Group (seq [lit "http"; lazy_plus (Chr dot)]); lit "]"].

Definition fix_urls (self : t) (text : string) : string :=
  if PyStr.le (pandoc_version self) "2.0.2"
  then sub re_bracket_url (fun m => PandocFix.url_fix (group0 m)) text
  else text.

(** Line 245: every double-bracket link goes through the link cleaner. *)
Definition re_wiki_link : regex :=
  seq [lit "[["; Group (lazy_plus (Chr dot)); lit "]]"].

Definition clean_links (self : t) (file_meta : Meta.t) (text : string) : string :=
  sub re_wiki_link
      (fun m => CleanLink.clean_link (flatten self) file_meta (group1 m)) text.

Definition clean_text (self : t) (text : string) (file_meta : Meta.t) : string * bool :=
  let text := decode_entities text in
  let is_template := detect_template text in
  let text :=
    if is_template then clean_template text
    else clean_table_syntax (balance_tables (clean_tables_and_braces text)) in
  let text := fix_urls self text in
  let text := clean_links self file_meta text in
  (text, is_template).

(* ------------------------------------------------------------------ *)
(** ** Rendering *)

(** Lines 329-368: the loop state of [convert_template_to_markdown]. *)
Record TemplateState : Type := {
  markdown_lines : list string;
  in_pre : bool;
  in_template : bool;
  template_params : list string
}.

Definition template_step (st : TemplateState) (line : string) : TemplateState :=
  let stripped_line := PyStr.strip line in
  let emit l pre tmpl params :=
    {| markdown_lines := (markdown_lines st ++ l)%list; in_pre := pre;
       in_template := tmpl; template_params := params |} in
  if PyStr.startswith stripped_line "This is the"
  then emit ["## " ++ stripped_line ++ LF] (in_pre st) (in_template st) (template_params st)
  else if PyStr.startswith stripped_line "<pre>"
  then emit ["## Template Usage" ++ LF ++ "```"] true (in_template st) (template_params st)
  else if PyStr.startswith stripped_line "</pre>"
  then emit ["```" ++ LF] false (in_template st) (template_params st)
  else if PyStr.startswith stripped_line "{{"
  then emit [stripped_line] (in_pre st) true (template_params st)
  else if PyStr.startswith stripped_line "}}"
  then emit [stripped_line] (in_pre st) false (template_params st)
  else if in_template st && PyStr.contains stripped_line "="
  then let param :=
         match PyStr.split_once stripped_line "=" with
         | Some (param, _) => param
         | None => stripped_line
         end in
       emit [stripped_line] (in_pre st) (in_template st)
            (template_params st ++ [PyStr.strip_chars param "| "])%list
  else if negb (String.eqb stripped_line "")
  then emit [stripped_line] (in_pre st) (in_template st) (template_params st)
  else st.

Definition convert_template_to_markdown (text : string) (w : World) : string * World :=
  let lines := PyStr.split text LF in
  let st := fold_left template_step lines
              {| markdown_lines := ["# Template Documentation" ++ LF];
                 in_pre := false; in_template := false; template_params := [] |} in
  let markdown_lines :=
    match template_params st with
    | [] => markdown_lines st
    | params =>
        (markdown_lines st ++ [(LF ++ "## Template Parameters")%string]
           ++ map (fun param => ("- `" ++ param ++ "`")%string) params)%list
    end in
  let w := print "Template conversion result (first 200 chars):" w in
  let w := print (substring 0 200 (PyStr.join LF markdown_lines)) w in
  (PyStr.join LF markdown_lines, w).

Section Collaborators.

(** The pandoc executable, called with the target format and the text on
    its standard input: exit status, standard output, standard error. *)
Variable pandoc : string -> string -> nat * string * string.

(** [traceback.format_exc()] for the exception being handled. *)
Variable format_exc : exn -> string.

(** The host the script runs on. *)
Variable host : Host.

(** Lines 370-377. *)
Definition run_pandoc (self : t) (text : string) (w : World) : (string + exn) * World :=
  let '(returncode, out, err) := pandoc (format self) text in
  if negb (Nat.eqb returncode 0)
  then let w := print "Pandoc error output:" w in
       let w := print err w in
       (inr (Exception err), w)
  else (inl out, w).

(** Lines 280-326: one iteration of the loop of [convert_data] (the second
    definition in the class body, which is the one bound to the name).
    [attempt] is the body of the [try]: it ends with the exception of
    [run_pandoc] or of [save_file], if any.  [Some e] as the result of
    [convert_page] means the exception [e] leaves the loop. *)
Definition convert_page (page : Page) (st : t * World) : (t * World) * option exn :=
  let '(self, w) := st in
  match page_title page with
  | None => ((self, print "Warning: No title found for a page. Skipping page." w), None)
  | Some title =>
      match page_text page with
      | None =>
          ((self, print ("Warning: No text content for page '" ++ title
                         ++ "'. Skipping cleaning.") w), None)
      | Some text =>
          let '(file_meta, self) := retrieve_file_info self title in
          let '(cleaned_text, is_template) := clean_text self text file_meta in
          let '(converted, w) :=
            if is_template
            then let '(converted_text, w) := convert_template_to_markdown cleaned_text w in
                 (inl converted_text, w)
            else run_pandoc self cleaned_text w in
          let attempt :=
            match converted with
            | inl converted_text =>
                let output := get_metadata self file_meta ++ converted_text in
                save_file host file_meta output w
            | inr e => (w, Some e)
            end in
          match attempt with
          | (w, None) => ((set_counter self (counter self + 1), w), None)
          | (w, Some e) =>
              let w := print ("Error converting " ++ Meta.title file_meta ++ ":") w in
              let w := print (format_exc e) w in
              if negb (skiperrors self)
              then ((self, w), Some e)
              else ((self, print ("Skipping " ++ Meta.title file_meta
                                  ++ " due to error") w), None)
          end
      end
  end.

Fixpoint convert_pages (pages : list Page) (st : t * World) : (t * World) * option exn :=
  match pages with
  | [] => (st, None)
  | page :: pages' =>
      match convert_page page st with
      | (st', None) => convert_pages pages' st'
      | (st', Some e) => (st', Some e)
      end
  end.

Definition convert_data (st : t * World) : (t * World) * option exn :=
  convert_pages (data_to_convert (fst st)) st.

(** Lines 463-468. *)
Definition rename_step (self : t) (w : World) (directory : string) : World :=
  let file_path := PosixPath.join (output self) (directory ++ ".md") in
  if path_exists file_path w
  then rename file_path
         (PosixPath.join (PosixPath.join (output self) directory) "index.md") w
  else w.

Definition rename_files (st : t * World) : t * World :=
  let '(self, w) := st in
  if negb (flatten self) && indexes self
  then (self, fold_left (rename_step self) (directory_list self) w)
  else (self, w).

(** Lines 84-89 and 443-461: [run], from what [load_data] finds in the
    parsed dump: the page elements and the printed list of all element tags
    (reading and parsing the XML file is the XML library's business).  An
    error of the first [create_directory] leaves [run] before the dump is
    read. *)
Definition run (pages : list Page) (all_elements : string) (st : t * World)
    : (t * World) * option exn :=
  let '(self, w) := st in
  match create_directory host (output self) w with
  | (w, Some e) => ((self, w), Some e)
  | (w, None) =>
      let self := set_data_to_convert self pages in
      match pages with
      | [] =>
          ((self, print ("Available elements in the XML: " ++ all_elements) w),
           Some (Exception "No pages found in XML data."))
      | _ =>
          let w := print ("Found "
                          ++ NilEmpty.string_of_uint (Nat.to_uint (List.length pages))
                          ++ " <page> elements.") w in
          match convert_data (self, w) with
          | (st', Some e) => (st', Some e)
          | (st', None) =>
              let '(self, w) := rename_files st' in
              ((self, print (NilEmpty.string_of_uint (Nat.to_uint (counter self))
                             ++ " files converted") w), None)
          end
      end
  end.

End Collaborators.

End Convert.

(* ================================================================== *)
(** * Sample inputs and the vocabulary of the statements *)
(* ================================================================== *)

Definition slash : ascii := ascii_of_nat 47.

(** A converter writing below [./output/], nested layout, no front matter,
    as [Convert(options)] builds it when pandoc reports version 3.1.2. *)
Definition sample_converter : Convert.t :=
  Convert.init "dump.xml" "./output/" false false false false "gfm" "pandoc 3.1.2".

(** The same converter with [--addmeta]. *)
Definition sample_converter_meta : Convert.t :=
  Convert.init "dump.xml" "./output/" false true false false "gfm" "pandoc 3.1.2".

(** The same converter with [--skiperrors]. *)
Definition sample_converter_skip : Convert.t :=
  Convert.init "dump.xml" "./output/" false false false true "gfm" "pandoc 3.1.2".

Definition sample_pages : list Convert.Page :=
  [{| Convert.page_title := Some "A/B"; Convert.page_text := Some "Some text" |};
   {| Convert.page_title := Some "C"; Convert.page_text := Some "more" |}].

Definition empty_world : Convert.World :=
  {| Convert.stdout := []; Convert.dirs := []; Convert.files := [] |}.

(** Auxiliary functions in which the lemmas below describe what the
    patterns match. *)
Fixpoint after_prefix (p s : string) : string :=
  match p with
  | EmptyString => s
  | String _ p' =>
      match s with
      | EmptyString => EmptyString
      | String _ s' => after_prefix p' s'
      end
  end.

Fixpoint last_of (p : string) (prev : option ascii) : option ascii :=
  match p with
  | EmptyString => prev
  | String c p' => last_of p' (Some c)
  end.

Fixpoint take_while (f : ascii -> bool) (s : string) : string :=
  match s with
  | EmptyString => EmptyString
  | String c s' => if f c then String c (take_while f s') else EmptyString
  end.

Fixpoint drop_while (f : ascii -> bool) (s : string) : string :=
  match s with
  | EmptyString => EmptyString
  | String c s' => if f c then drop_while f s' else s
  end.

(** Runs of slashes squeezed to one slash, by structural recursion: a
    slash followed by a slash is left out. *)
Definition is_slash (c : ascii) : bool := Ascii.eqb "/"%char c.

Definition starts_slash (s : string) : bool :=
  match s with
  | EmptyString => false
  | String c _ => is_slash c
  end.

Fixpoint collapse_slashes (s : string) : string :=
  match s with
  | EmptyString => EmptyString
  | String c s' =>
      if is_slash c && starts_slash s' then collapse_slashes s'
      else String c (collapse_slashes s')
  end.

Fixpoint no_double_slash (s : string) : bool :=
  match s with
  | EmptyString => true
  | String c s' => negb (is_slash c && starts_slash s') && no_double_slash s'
  end.

(** Path segments: free of slashes and backslashes, and not a dot
    segment. *)
Definition clean_segment (x : string) : Prop :=
  PyStr.mem "/"%char x = false /\ PyStr.mem (ascii_of_nat 92) x = false.

Definition not_dots (x : string) : Prop := x <> "." /\ x <> "..".

Definition nonempty (x : string) : Prop := x <> "".

(** Lines that are neither an opening nor a closing table marker. *)
Definition plain_line (line : string) : Prop :=
  PyStr.startswith (PyStr.strip line) "{|" = false /\
  PyStr.startswith (PyStr.strip line) "|}" = false.

(** The metadata of a page titled Main under [./output/]. *)
Definition sample_meta : Meta.t :=
  {| Meta.directory := "./output/"; Meta.filename := "Main";
     Meta.title := "Main"; Meta.url := "Main" |}.

(** A pandoc that fails on every input, and a traceback that shows the
    message of the exception. *)
Definition failing_pandoc (format text : string) : nat * string * string :=
  (1, "", "pandoc: parse error").

Definition echo_pandoc (format text : string) : nat * string * string :=
  (0, text, "").

Definition plain_traceback (e : Convert.exn) : string := Convert.exn_msg e.

(** A host that refuses nothing, and one on which no file name may be
    longer than 255 characters. *)
Definition sample_host : Convert.Host :=
  {| Convert.makedirs_error := fun _ => None;
     Convert.open_error := fun _ => None;
     Convert.encode_error := fun _ => None |}.

Definition long_title : string := String.concat "" (repeat "a" 300).

Definition short_names_host : Convert.Host :=
  {| Convert.makedirs_error := fun _ => None;
     Convert.open_error := fun path =>
       if Nat.ltb 255 (String.length (last (PyStr.split path "/") ""))
       then Some "[Errno 36] File name too long" else None;
     Convert.encode_error := fun _ => None |}.

(** The character maps that sanitization amounts to. *)
Fixpoint map_chars (f : ascii -> ascii) (s : string) : string :=
  match s with
  | EmptyString => EmptyString
  | String c s' => String (f c) (map_chars f s')
  end.

Definition invalid_set : string := ":/*?<>|" ++ BACKSLASH ++ DQUOTE.

Definition sanitize_char (c : ascii) : ascii :=
  if PyStr.mem c invalid_set then "_"%char else c.

Definition url_char (c : ascii) : ascii :=
  if Ascii.eqb c " " then "_"%char else sanitize_char c.

(** How the balancing loop reads a line, and the nesting depth that a list
    of lines ends with when read from depth [d] ([None] when a closing line
    comes with nothing open). *)
Definition is_open (line : string) : bool :=
  PyStr.startswith (PyStr.strip line) "{|".

Definition is_close (line : string) : bool :=
  negb (is_open line) && PyStr.startswith (PyStr.strip line) "|}".

Fixpoint nesting (d : nat) (lines : list string) : option nat :=
  match lines with
  | [] => Some d
  | l :: lines' =>
      if is_open l then nesting (S d) lines'
      else if is_close l then
             match d with
             | O => None
             | S d' => nesting d' lines'
             end
      else nesting d lines'
  end.

Definition canonical_open (line : string) : string :=
  if is_open line then "{|" else line.

(** Strings all of whose characters satisfy a test; the characters a page
    name may not have for the link examples below. *)
Fixpoint all_chars (f : ascii -> bool) (s : string) : bool :=
  match s with
  | EmptyString => true
  | String c s' => f c && all_chars f s'
  end.

Definition name_char (c : ascii) : bool :=
  negb (PyStr.isspace c) && negb (PyStr.mem c ("/|" ++ BACKSLASH)).

Definition is_dot (c : ascii) : bool := Ascii.eqb "."%char c.

(** Two strings agree as far as both go; no part of [new] that reaches its
    end can be the beginning of an occurrence of [p]. *)
Fixpoint compatible (u p : string) : bool :=
  match u, p with
  | String a u', String b p' => Ascii.eqb a b && compatible u' p'
  | _, _ => true
  end.

Fixpoint suffix_clear (new p : string) : bool :=
  match new with
  | EmptyString => true
  | String _ new' => negb (compatible new p) && suffix_clear new' p
  end.

(** Static tests on a pattern: [empty_only r] when [r] never consumes a
    character, [must_consume r] when every match of [r] consumes one, and
    [blocked r prev a] when no match of [r] starts at a cursor that has
    [prev] before it and [a] after it. *)
Fixpoint empty_only (r : Re.regex) : bool :=
  match r with
  | Re.Eps | Re.Bol | Re.Eol | Re.NotBehind _ | Re.NotAhead _ => true
  | Re.Chr _ | Re.Star _ _ => false
  | Re.Seq r1 r2 | Re.Alt r1 r2 => empty_only r1 && empty_only r2
  | Re.Group r' => empty_only r'
  end.

Fixpoint must_consume (r : Re.regex) : bool :=
  match r with
  | Re.Chr _ => true
  | Re.Seq r1 r2 => must_consume r1 || must_consume r2
  | Re.Alt r1 r2 => must_consume r1 && must_consume r2
  | Re.Group r' => must_consume r'
  | _ => false
  end.

Definition line_start (prev : option ascii) : bool :=
  match prev with
  | None => true
  | Some c => Ascii.eqb c (ascii_of_nat 10)
  end.

Fixpoint blocked (r : Re.regex) (prev : option ascii) (a : ascii) : bool :=
  match r with
  | Re.Eps | Re.Star _ _ => false
  | Re.Chr p => negb (p a)
  | Re.Seq r1 r2 => blocked r1 prev a || (empty_only r1 && blocked r2 prev a)
  | Re.Alt r1 r2 => blocked r1 prev a && blocked r2 prev a
  | Re.Group r' => blocked r' prev a
  | Re.Bol => negb (line_start prev)
  | Re.Eol => negb (Ascii.eqb a (ascii_of_nat 10))
  | Re.NotBehind p => match prev with Some c => p c | None => false end
  | Re.NotAhead p => p a
  end.

Fixpoint all_blocked (r : Re.regex) (prev : option ascii) (s : string) : bool :=
  match s with
  | EmptyString => true
  | String a s' => blocked r prev a && all_blocked r (Some a) s'
  end.

(** Prose: a text without a brace, a pipe, an angle or square opening
    bracket or an ampersand, none of whose lines starts with a hyphen or an
    exclamation mark. *)
Definition markup_char (c : ascii) : bool := PyStr.mem c "{|<[&".

Definition prose_char (prev : option ascii) (a : ascii) : bool :=
  negb (markup_char a) && negb (line_start prev && PyStr.mem a "-!").

Fixpoint prose_from (prev : option ascii) (s : string) : bool :=
  match s with
  | EmptyString => true
  | String a s' => prose_char prev a && prose_from (Some a) s'
  end.

Definition prose (s : string) : bool := prose_from None s.

(** Pages that have both a title and a text, and worlds that agree on the
    file system (they may differ in what was printed). *)
Definition complete (page : Convert.Page) : bool :=
  match Convert.page_title page, Convert.page_text page with
  | Some _, Some _ => true
  | _, _ => false
  end.

Definition same_fs (w1 w2 : Convert.World) : Prop :=
  Convert.files w1 = Convert.files w2 /\ Convert.dirs w1 = Convert.dirs w2.

(** The cells of one table row as [convert_table] keeps them, and the two
    kinds of line it writes. *)
Definition row_cells (row : string) : list string :=
  map PyStr.strip
      (filter (fun cell => negb (String.eqb (PyStr.strip cell) ""))
              (PyStr.split row "|")).

Definition row_line (cells : list string) : string :=
  "| " ++ PyStr.join " | " cells ++ " |".

Definition separator_line (cells : list string) : string :=
  "|" ++ PyStr.join "|" (map (fun _ => "---") cells) ++ "|".

Definition has_cells (cells : list string) : bool :=
  match cells with [] => false | _ => true end.

Definition body_lines (rows : list string) : list string :=
  map row_line (filter has_cells (map row_cells rows)).

(** The pattern of [convert_tables_to_markdown], with DOTALL. *)
Definition re_table : Re.regex :=
  Re.seq [Re.lit "{|"; Re.Group (Re.lazy_star (Re.Chr Re.any)); Re.lit "|}"].

(* ================================================================== *)
(** * Facts about the string primitives *)
(* ================================================================== *)

Section StringFacts.

Import PyStr.

Lemma append_nil_r (s : string) : s ++ "" = s.
Proof. induction s as [|c s IH]; simpl; [reflexivity | now rewrite IH]. Qed.

Lemma append_assoc (a b c : string) : (a ++ b) ++ c = a ++ (b ++ c).
Proof. induction a as [|x a IH]; simpl; [reflexivity | now rewrite IH]. Qed.

Lemma length_append (a b : string) :
  String.length (a ++ b) = String.length a + String.length b.
Proof. induction a as [|x a IH]; simpl; [reflexivity | now rewrite IH]. Qed.

Lemma startswith_nil (s : string) : startswith s "" = true.
Proof. destruct s; reflexivity. Qed.

Lemma startswith_app (p s : string) : startswith (p ++ s) p = true.
Proof.
  induction p as [|a p IH]; simpl.
  - apply startswith_nil.
  - now rewrite Ascii.eqb_refl, IH.
Qed.

Lemma startswith_inv (s p : string) :
  startswith s p = true -> exists r, s = p ++ r.
Proof.
  revert s; induction p as [|a p IH]; intros s H.
  - now exists s.
  - destruct s as [|b s]; simpl in H; [discriminate|].
    apply andb_true_iff in H as [Hab Hp].
    apply Ascii.eqb_eq in Hab; subst b.
    destruct (IH _ Hp) as [r ->]. now exists r.
Qed.

Lemma startswith_char (a : ascii) (s : string) (c : ascii) :
  startswith (String a s) (String c "") = Ascii.eqb c a.
Proof. simpl. rewrite startswith_nil. apply andb_true_r. Qed.

Lemma contains_char (s : string) (c : ascii) :
  contains s (String c "") = mem c s.
Proof.
  induction s as [|a s IH].
  - reflexivity.
  - cbn [contains mem]. now rewrite startswith_char, IH.
Qed.

Lemma mem_append (c : ascii) (a b : string) :
  mem c (a ++ b) = mem c a || mem c b.
Proof.
  induction a as [|x a IH]; simpl; [reflexivity|].
  now rewrite IH, orb_assoc.
Qed.

(** Replacing one character by a string. *)
Lemma replace_char_nil (c : ascii) (new : string) :
  replace "" (String c "") new = "".
Proof. reflexivity. Qed.

Lemma replace_char_cons (c a : ascii) (new s : string) :
  replace (String a s) (String c "") new =
  if Ascii.eqb c a then new ++ replace s (String c "") new
  else String a (replace s (String c "") new).
Proof.
  unfold replace. cbn [replace_from]. now rewrite startswith_char.
Qed.

Lemma mem_replace_char_same (c d : ascii) (s : string) :
  Ascii.eqb c d = false -> mem c (replace s (String c "") (String d "")) = false.
Proof.
  intros Hcd. induction s as [|a s IH]; [reflexivity|].
  rewrite replace_char_cons.
  destruct (Ascii.eqb c a) eqn:E; cbn [append mem]; now rewrite ?Hcd, ?E, IH.
Qed.

Lemma mem_replace_char_other (x c d : ascii) (s : string) :
  mem x s = false -> Ascii.eqb x d = false ->
  mem x (replace s (String c "") (String d "")) = false.
Proof.
  intros Hs Hxd. induction s as [|a s IH]; [reflexivity|].
  simpl in Hs. apply orb_false_iff in Hs as [Hxa Hs].
  rewrite replace_char_cons.
  destruct (Ascii.eqb c a); cbn [append mem]; now rewrite ?Hxd, ?Hxa, IH.
Qed.

(** A string without the separator is a single segment. *)
Lemma split_char_cons (c a : ascii) (s : string) :
  split (String a s) (String c "") =
  if Ascii.eqb c a then "" :: split s (String c "")
  else match split s (String c "") with
       | seg :: rest => String a seg :: rest
       | [] => [String a ""]
       end.
Proof.
  unfold split. cbn [split_from]. now rewrite startswith_char.
Qed.

Lemma split_no_sep (c : ascii) (s : string) :
  mem c s = false -> split s (String c "") = [s].
Proof.
  induction s as [|a s IH]; intros H; [reflexivity|].
  simpl in H. apply orb_false_iff in H as [Hca Hs].
  now rewrite split_char_cons, Hca, IH.
Qed.

End StringFacts.

(* ================================================================== *)
(** * Path resolution *)
(* ================================================================== *)

Section PathResolver.

Import PyStr Convert.

(** No sanitized title contains a slash: the second entry of
    [invalid_chars] removes them all and the later entries only add
    underscores. *)
Lemma sanitize_no_slash (title : string) : mem slash (sanitize title) = false.
Proof.
  unfold sanitize, invalid_chars. cbn [fold_left fst snd].
  do 7 (apply mem_replace_char_other; [|reflexivity]).
  apply mem_replace_char_same. reflexivity.
Qed.

Lemma url_no_slash (title : string) :
  contains (replace (sanitize title) " " "_") "/" = false.
Proof.
  change "/" with (String slash ""). rewrite contains_char.
  apply mem_replace_char_other; [apply sanitize_no_slash | reflexivity].
Qed.

Lemma retrieve_file_info_eq (self : t) (title : string) :
  retrieve_file_info self title =
  ({| Meta.directory := PosixPath.join (output self) "";
      Meta.filename := replace (sanitize title) " " "_";
      Meta.title := sanitize title;
      Meta.url := replace (sanitize title) " " "_" |}, self).
Proof.
  unfold retrieve_file_info, locate. now rewrite url_no_slash.
Qed.

(** C1.  The code misses the nested layout.  Whatever the converter (so
    also with flatten off) and the title, sanitization has replaced every
    slash before the url is looked at: the url has no slash, the branch
    that splits it is never taken, the directory is the output root, the
    file name is the whole url and the directory list is left alone.  So
    the page titled A/B is written to ./output/A_B.md, and that is the one
    file the run writes; it is not written to ./output/A/B.md, although
    the splitting step, given the url A/B, returns the directory A and the
    file name B, and although a link to that page on a converter with
    flatten off keeps the target A/B. *)
Theorem retrieve_file_info_segments (self : t) (title : string) :
  let meta := fst (retrieve_file_info self title) in
  let nested := fst (retrieve_file_info sample_converter "A/B") in
  let page := {| page_title := Some "A/B"; page_text := Some "Some text" |} in
  (contains (Meta.url meta) "/" = false /\
   split (Meta.url meta) "/" = [Meta.url meta] /\
   Meta.directory meta = PosixPath.join (output self) "" /\
   Meta.filename meta = Meta.url meta /\
   directory_list (snd (retrieve_file_info self title)) = directory_list self) /\
  (flatten sample_converter = false /\
   Meta.directory nested = "./output/" /\
   Meta.filename nested = "A_B" /\
   file_path nested = "./output/A_B.md" /\
   file_path nested <> "./output/A/B.md" /\
   files (snd (fst (Convert.run echo_pandoc plain_traceback sample_host [page] ""
                      (sample_converter, empty_world))))
     = [("./output/A_B.md", "Some text")]) /\
  (locate "A/B" = ("A", "B") /\
   PosixPath.join (PosixPath.join "./output/" "A") "B.md" = "./output/A/B.md" /\
   CleanLink.clean_link (flatten sample_converter) sample_meta "A/B" = "[[A/B|A/B]]").
Proof.
  cbv zeta. split; [|split].
  - rewrite !retrieve_file_info_eq. cbn [fst snd Meta.url Meta.directory Meta.filename].
    assert (Hs : split (replace (sanitize title) " " "_") "/"
                 = [replace (sanitize title) " " "_"]).
    { change "/" with (String slash ""). apply split_no_sep.
      rewrite <- contains_char. apply url_no_slash. }
    repeat split; [apply url_no_slash | exact Hs].
  - vm_compute. repeat split. discriminate.
  - vm_compute. repeat split.
Qed.

(** C4 (as amended).  With addmeta the metadata prefix of the page titled
    A/B is the front-matter block with the lines [title: A_B] (the
    sanitized title) and [permalink: /A_B/]; without addmeta the prefix is
    empty. *)
Theorem get_metadata_front_matter (self : t) :
  let meta := fst (retrieve_file_info self "A/B") in
  let block := "---" ++ LF ++ "title: A_B" ++ LF ++ "permalink: /A_B/" ++ LF
               ++ "---" ++ LF ++ LF in
  get_metadata self meta = (if addmeta self then block else "") /\
  In "title: A_B" (split block LF) /\
  In "permalink: /A_B/" (split block LF) /\
  startswith block ("---" ++ LF) = true.
Proof.
  cbv zeta. rewrite retrieve_file_info_eq. unfold get_metadata.
  cbn [fst Meta.title Meta.url].
  split; [destruct (addmeta self); reflexivity|].
  vm_compute. intuition.
Qed.

(** C4, counterexample.  With addmeta the front matter of the page titled
    A/B has no line [title: A/B]; the file written for the page starts with
    the block that names the sanitized title. *)
Lemma get_metadata_title_counterexample :
  let meta := fst (retrieve_file_info sample_converter_meta "A/B") in
  let page := {| page_title := Some "A/B"; page_text := Some "Some text" |} in
  files (snd (fst (Convert.run echo_pandoc plain_traceback sample_host [page] ""
                     (sample_converter_meta, empty_world))))
    = [("./output/A_B.md",
        "---" ++ LF ++ "title: A_B" ++ LF ++ "permalink: /A_B/" ++ LF
        ++ "---" ++ LF ++ LF ++ "Some text")] /\
  ~ In "title: A/B" (split (get_metadata sample_converter_meta meta) LF).
Proof.
  vm_compute. split; [reflexivity|]. intros H.
  repeat (destruct H as [H|H]; [discriminate H|]). exact H.
Qed.

End PathResolver.

(* ================================================================== *)
(** * The table-balancing pass *)
(* ================================================================== *)

Section TableBalancing.

Import PyStr Convert.

Lemma close_is_not_open (s : string) :
  startswith s "|}" = true -> startswith s "{|" = false.
Proof.
  intros H. destruct (startswith_inv _ _ H) as [r ->]. reflexivity.
Qed.

Lemma malformed_is_open (s : string) :
  startswith s "{|}" = true -> startswith s "{|" = true.
Proof.
  intros H. destruct (startswith_inv _ _ H) as [r ->]. reflexivity.
Qed.

(** What the loop does with a line whose stripped content starts with the
    malformed sequence: the first test of the chain already accepts it. *)
Lemma balance_step_malformed (n : nat) (out : list string) (line : string) :
  startswith (strip line) "{|}" = true ->
  balance_step (n, out) line = (n + 1, (out ++ ["{|"])%list).
Proof.
  intros H. unfold balance_step. now rewrite (malformed_is_open _ H).
Qed.

Lemma balance_step_close_zero (out : list string) (line : string) :
  startswith (strip line) "|}" = true ->
  balance_step (0, out) line = (0, out).
Proof.
  intros H. unfold balance_step.
  now rewrite (close_is_not_open _ H), H.
Qed.

Lemma open_is_not_malformed (s : string) :
  startswith s "{|" = false -> startswith s "{|}" = false.
Proof.
  intros H. destruct (startswith s "{|}") eqn:E; [|reflexivity].
  now rewrite (malformed_is_open _ E) in H.
Qed.

Lemma balance_fold_plain (ls : list string) (n : nat) (out : list string) :
  Forall plain_line ls ->
  fold_left balance_step ls (n, out) = (n, (out ++ ls)%list).
Proof.
  intros H. revert out. induction H as [|l ls [Ho Hc] _ IH]; intros out.
  - now rewrite app_nil_r.
  - cbn [fold_left]. unfold balance_step at 2.
    rewrite Ho, Hc, (open_is_not_malformed _ Ho), IH, <- app_assoc.
    reflexivity.
Qed.

(** The half of C3 that the code does implement: one opening line among
    plain lines yields the input with one closing marker appended. *)
Lemma balance_lines_unmatched_open (pre post : list string) (line : string) :
  Forall plain_line pre -> Forall plain_line post ->
  startswith (strip line) "{|" = true ->
  balance_lines (pre ++ line :: post) = (pre ++ "{|" :: post ++ ["|}"])%list.
Proof.
  intros Hpre Hpost Hline. unfold balance_lines.
  rewrite fold_left_app, (balance_fold_plain _ _ _ Hpre). cbn [fold_left].
  unfold balance_step at 2. rewrite Hline.
  rewrite (balance_fold_plain _ _ _ Hpost). cbn [app repeat Nat.add].
  now rewrite <- !app_assoc.
Qed.

(** C3.  A page text whose last line is the malformed sequence reaches the
    balancing pass unchanged, and the pass does not drop the line: it keeps
    it as an opening marker and appends a closing marker for it. *)
Theorem balance_keeps_malformed_line :
  clean_tables_and_braces "{|}" = "{|}" /\
  balance_tables "{|}" = "{|" ++ LF ++ "|}" /\
  clean_tables_and_braces ("text" ++ LF ++ "{|}") = "text" ++ LF ++ "{|}" /\
  balance_lines (split ("text" ++ LF ++ "{|}") LF) = ["text"; "{|"; "|}"].
Proof. vm_compute. repeat split. Qed.

(** C10.  A line whose stripped content starts with the closing marker,
    met while no table is open, leaves the loop state as it was; the output
    of the pass is that of the input without the line. *)
Theorem balance_drops_unmatched_close (pre post : list string) (line : string) :
  startswith (strip line) "|}" = true ->
  fst (fold_left balance_step pre (0, [])) = 0 ->
  balance_step (fold_left balance_step pre (0, [])) line
    = fold_left balance_step pre (0, []) /\
  balance_lines (pre ++ line :: post) = balance_lines (pre ++ post).
Proof.
  intros Hline Hzero.
  destruct (fold_left balance_step pre (0, [])) as [n out] eqn:E.
  cbn [fst] in Hzero. subst n.
  pose proof (balance_step_close_zero out line Hline) as Hstep.
  split; [exact Hstep|].
  unfold balance_lines. rewrite !fold_left_app, E. cbn [fold_left].
  now rewrite Hstep.
Qed.

Lemma balance_drops_unmatched_close_witness :
  balance_step (fold_left balance_step ["{|"; "x"; "|}"] (0, [])) " |} "
    = fold_left balance_step ["{|"; "x"; "|}"] (0, []) /\
  balance_lines (["{|"; "x"; "|}"] ++ " |} " :: ["y"])
    = balance_lines (["{|"; "x"; "|}"] ++ ["y"]).
Proof.
  apply (balance_drops_unmatched_close ["{|"; "x"; "|}"] ["y"] " |} ");
    reflexivity.
Defined.

End TableBalancing.

(* ================================================================== *)
(** * The conversion loop *)
(* ================================================================== *)

Section ConversionLoop.

Import PyStr Convert.

Variable pandoc : string -> string -> nat * string * string.
Variable format_exc : exn -> string.
Variable host : Host.

Lemma convert_pages_app (pre post : list Page) (st st1 : t * World) :
  convert_pages pandoc format_exc host pre st = (st1, None) ->
  convert_pages pandoc format_exc host (pre ++ post) st
    = convert_pages pandoc format_exc host post st1.
Proof.
  revert st. induction pre as [|p pre IH]; intros st H; cbn [app convert_pages] in *.
  - now inversion H.
  - destruct (convert_page pandoc format_exc host p st) as [st' [e|]].
    + discriminate H.
    + now apply IH.
Qed.

(** The options and the directory list are the same after every page. *)
Lemma convert_page_self (page : Page) (self : t) (w : World) :
  let self' := fst (fst (convert_page pandoc format_exc host page (self, w))) in
  self' = self \/ self' = set_counter self (counter self + 1).
Proof.
  cbv zeta. unfold convert_page.
  destruct (page_title page) as [title|]; [|now left].
  destruct (page_text page) as [text|]; [|now left].
  rewrite retrieve_file_info_eq.
  destruct (clean_text self text _) as [cleaned is_template].
  destruct is_template.
  - destruct (convert_template_to_markdown cleaned w) as [converted w1].
    destruct (save_file host _ _ w1) as [w2 [e|]]; [|now right].
    destruct (negb (skiperrors self)); now left.
  - unfold run_pandoc. destruct (pandoc (format self) cleaned) as [[rc out] err].
    destruct (negb (Nat.eqb rc 0)).
    + destruct (negb (skiperrors self)); now left.
    + destruct (save_file host _ _ w) as [w2 [e|]]; [|now right].
      destruct (negb (skiperrors self)); now left.
Qed.

Lemma convert_pages_directory_list (pages : list Page) (st : t * World) :
  directory_list (fst (fst (convert_pages pandoc format_exc host pages st)))
    = directory_list (fst st) /\
  flatten (fst (fst (convert_pages pandoc format_exc host pages st))) = flatten (fst st) /\
  indexes (fst (fst (convert_pages pandoc format_exc host pages st))) = indexes (fst st).
Proof.
  revert st. induction pages as [|p pages IH]; intros [self w]; cbn [convert_pages].
  - repeat split.
  - pose proof (convert_page_self p self w) as Hself. cbv zeta in Hself.
    destruct (convert_page pandoc format_exc host p (self, w)) as [[self' w'] [e|]];
      cbn [fst] in *.
    + destruct Hself as [-> | ->]; repeat split.
    + destruct (IH (self', w')) as (H1 & H2 & H3). cbn [fst] in *.
      rewrite H1, H2, H3. destruct Hself as [-> | ->]; repeat split.
Qed.

(** The rename pass over an empty directory list touches nothing. *)
Lemma rename_files_nil (self : t) (w : World) :
  directory_list self = [] -> rename_files (self, w) = (self, w).
Proof.
  intros H. unfold rename_files. rewrite H.
  now destruct (negb (flatten self) && indexes self).
Qed.

(** An exception that leaves the loop leaves [run] as well: no rename pass
    and no final count. *)
Lemma run_aborts (pages : list Page) (tags : string) (self : t) (w : World)
    (st' : t * World) (e : exn) :
  pages <> [] ->
  snd (create_directory host (output self) w) = None ->
  convert_pages pandoc format_exc host pages
    (set_data_to_convert self pages,
     print ("Found " ++ NilEmpty.string_of_uint (Nat.to_uint (List.length pages))
            ++ " <page> elements.") (fst (create_directory host (output self) w)))
    = (st', Some e) ->
  run pandoc format_exc host pages tags (self, w) = (st', Some e).
Proof.
  intros Hne Hdir H. unfold run, convert_data.
  destruct (create_directory host (output self) w) as [w1 [e1|]];
    [discriminate Hdir|].
  destruct pages as [|p ps]; [congruence|].
  cbn [fst data_to_convert set_data_to_convert] in *. now rewrite H.
Qed.

(** C6.  A page whose text is not a template and on whose cleaned text
    pandoc exits with a non-zero status, met after the pages [pre] went
    through without an exception.  Without skiperrors the loop ends there
    with the exception: the pages after it are not looked at, and a run
    whose loop started in [st0] (the output directory is there or could be
    made) ends with that exception too, before the rename pass and the
    final count.  With skiperrors the loop goes on with
    the pages after it.  Either way the converter (and so the counter) and
    the files are those from before the page; the world differs by the
    printed lines only. *)
Theorem convert_data_error_policy
    (pre rest : list Page) (st0 : t * World) (self : t) (w : World)
    (title text : string) (rc : nat) (out err : string) :
  let page := {| page_title := Some title; page_text := Some text |} in
  let meta := fst (retrieve_file_info self title) in
  let cleaned := clean_text self text meta in
  let w_err :=
    print (format_exc (Exception err))
      (print ("Error converting " ++ Meta.title meta ++ ":")
         (print err (print "Pandoc error output:" w))) in
  let w_skip := print ("Skipping " ++ Meta.title meta ++ " due to error") w_err in
  convert_pages pandoc format_exc host pre st0 = ((self, w), None) ->
  snd cleaned = false ->
  pandoc (format self) (fst cleaned) = (rc, out, err) ->
  rc <> 0 ->
  (skiperrors self = false ->
     convert_pages pandoc format_exc host (pre ++ page :: rest) st0
       = ((self, w_err), Some (Exception err))) /\
  (skiperrors self = false ->
     forall self0 w0 tags,
       snd (create_directory host (output self0) w0) = None ->
       st0 = (set_data_to_convert self0 (pre ++ page :: rest),
              print ("Found "
                     ++ NilEmpty.string_of_uint
                          (Nat.to_uint (List.length (pre ++ page :: rest)))
                     ++ " <page> elements.")
                (fst (create_directory host (output self0) w0))) ->
       run pandoc format_exc host (pre ++ page :: rest) tags (self0, w0)
       = ((self, w_err), Some (Exception err))) /\
  (skiperrors self = true ->
     convert_pages pandoc format_exc host (pre ++ page :: rest) st0
       = convert_pages pandoc format_exc host rest (self, w_skip)) /\
  files w_err = files w /\ files w_skip = files w /\
  dirs w_err = dirs w /\ dirs w_skip = dirs w.
Proof.
  cbv zeta. intros Hpre Htmpl Hpandoc Hrc.
  assert (Hpage :
    convert_page pandoc format_exc host
      {| page_title := Some title; page_text := Some text |} (self, w)
    = if negb (skiperrors self)
      then ((self,
             print (format_exc (Exception err))
               (print ("Error converting "
                       ++ Meta.title (fst (retrieve_file_info self title)) ++ ":")
                  (print err (print "Pandoc error output:" w)))),
            Some (Exception err))
      else ((self,
             print ("Skipping " ++ Meta.title (fst (retrieve_file_info self title))
                    ++ " due to error")
               (print (format_exc (Exception err))
                  (print ("Error converting "
                          ++ Meta.title (fst (retrieve_file_info self title)) ++ ":")
                     (print err (print "Pandoc error output:" w))))),
            None)).
  { unfold convert_page. cbn [page_title page_text].
    rewrite retrieve_file_info_eq in *. cbn [fst] in *.
    destruct (clean_text self text _) as [cleaned is_template].
    cbn [fst snd] in *. subst is_template.
    unfold run_pandoc. rewrite Hpandoc.
    apply Nat.eqb_neq in Hrc. rewrite Hrc. cbn [negb].
    destruct (skiperrors self); reflexivity. }
  assert (Hloop : skiperrors self = false ->
    convert_pages pandoc format_exc host
      (pre ++ {| page_title := Some title; page_text := Some text |} :: rest) st0
    = ((self,
        print (format_exc (Exception err))
          (print ("Error converting "
                  ++ Meta.title (fst (retrieve_file_info self title)) ++ ":")
             (print err (print "Pandoc error output:" w)))),
       Some (Exception err))).
  { intros Hskip. rewrite (convert_pages_app _ _ _ _ Hpre).
    cbn [convert_pages]. now rewrite Hpage, Hskip. }
  split; [exact Hloop|]. split; [|repeat split].
  - intros Hskip self0 w0 tags Hdir Hst0. apply run_aborts.
    + destruct pre; discriminate.
    + exact Hdir.
    + rewrite <- Hst0. now apply Hloop.
  - intros Hskip. rewrite (convert_pages_app _ _ _ _ Hpre).
    cbn [convert_pages]. now rewrite Hpage, Hskip.
Qed.

End ConversionLoop.

Lemma convert_data_error_policy_witness :
  let self := sample_converter in
  let page := {| Convert.page_title := Some "A/B";
                 Convert.page_text := Some "Some text" |} in
  let rest := [{| Convert.page_title := Some "C";
                  Convert.page_text := Some "more" |}] in
  let w_err :=
    Convert.print "pandoc: parse error"
      (Convert.print "Error converting A_B:"
         (Convert.print "pandoc: parse error"
            (Convert.print "Pandoc error output:" empty_world))) in
  Convert.convert_pages failing_pandoc plain_traceback sample_host (page :: rest)
    (self, empty_world)
  = ((self, w_err), Some (Convert.Exception "pandoc: parse error")).
Proof.
  cbv zeta.
  refine (proj1 (convert_data_error_policy failing_pandoc plain_traceback sample_host
           [] _ (sample_converter, empty_world) sample_converter empty_world
           "A/B" "Some text" 1 "" "pandoc: parse error" _ _ _ _) _);
    try reflexivity.
  discriminate.
Defined.

(** Two pages and a pandoc that always fails: without skiperrors the run
    stops at the first page with the exception, with skiperrors it visits
    both pages and ends normally; no file is written and the counter stays
    at zero in both runs. *)
Lemma run_failing_pandoc_sample :
  let aborted := Convert.run failing_pandoc plain_traceback sample_host sample_pages ""
                   (sample_converter, empty_world) in
  let skipped := Convert.run failing_pandoc plain_traceback sample_host sample_pages ""
                   (sample_converter_skip, empty_world) in
  snd aborted = Some (Convert.Exception "pandoc: parse error") /\
  Convert.stdout (snd (fst aborted))
    = ["Found 2 <page> elements."; "Pandoc error output:"; "pandoc: parse error";
       "Error converting A_B:"; "pandoc: parse error"] /\
  Convert.files (snd (fst aborted)) = [] /\
  Convert.counter (fst (fst aborted)) = 0 /\
  snd skipped = None /\
  Convert.stdout (snd (fst skipped))
    = ["Found 2 <page> elements."; "Pandoc error output:"; "pandoc: parse error";
       "Error converting A_B:"; "pandoc: parse error";
       "Skipping A_B due to error"; "Pandoc error output:";
       "pandoc: parse error"; "Error converting C:"; "pandoc: parse error";
       "Skipping C due to error"; "0 files converted"] /\
  Convert.files (snd (fst skipped)) = [] /\
  Convert.counter (fst (fst skipped)) = 0.
Proof. vm_compute. repeat split. Qed.

(* ================================================================== *)
(** * What the patterns match *)
(* ================================================================== *)

Section PatternFacts.

Import PyStr Re.

Lemma consumed_app (a b : string) : consumed (a ++ b) b = a.
Proof.
  unfold consumed. rewrite length_append.
  replace (String.length a + String.length b - String.length b)
    with (String.length a) by lia.
  induction a as [|c a IH]; simpl.
  - now destruct b.
  - now rewrite IH.
Qed.

Lemma after_prefix_app (p r : string) : after_prefix p (p ++ r) = r.
Proof. induction p as [|c p IH]; simpl; [reflexivity | exact IH]. Qed.

(** A literal pattern matches exactly where the text starts with it. *)
Lemma run_lit (old : string) (prev : option ascii) (s : string)
    (g : option string) (k : cont) :
  run (lit old) prev s g k =
  if startswith s old then k (last_of old prev) (after_prefix old s) g else None.
Proof.
  revert prev s. induction old as [|c old IH]; intros prev s.
  - now rewrite startswith_nil.
  - destruct old as [|c' old'].
    + cbn [lit run startswith last_of after_prefix].
      destruct s as [|b s]; [reflexivity|].
      rewrite startswith_char.
      destruct (Ascii.eqb_spec c b) as [->|]; reflexivity.
    + change (lit (String c (String c' old')))
        with (Seq (Chr (Ascii.eqb c)) (lit (String c' old'))).
      cbn [run]. destruct s as [|b s]; [reflexivity|].
      cbn [startswith last_of after_prefix].
      destruct (Ascii.eqb_spec c b) as [->|]; [|reflexivity].
      rewrite IH. reflexivity.
Qed.

Lemma match_at_lit (old : string) (prev : option ascii) (s : string) :
  match_at (lit old) prev s =
  if startswith s old then Some (after_prefix old s, None) else None.
Proof. unfold match_at. apply run_lit. Qed.

(** Substituting a constant for a literal pattern is [str.replace]. *)
Lemma sub_from_lit (c : ascii) (old new : string) (s : string) :
  forall skip prev,
    sub_from skip (lit (String c old)) (fun _ => new) prev s
    = replace_from skip (String c old) new s.
Proof.
  induction s as [|b s IH]; intros skip prev.
  - destruct skip; [|reflexivity].
    cbn [sub_from replace_from]. rewrite match_at_lit. reflexivity.
  - destruct skip as [|skip].
    + cbn [sub_from replace_from]. rewrite match_at_lit.
      destruct (startswith (String b s) (String c old)) eqn:E.
      * destruct (startswith_inv _ _ E) as [r Hr].
        unfold mk_matched. cbn [fst snd group0].
        rewrite Hr at 1 2. rewrite after_prefix_app, consumed_app.
        cbn [String.length Nat.sub]. rewrite Nat.sub_0_r. now rewrite IH.
      * now rewrite IH.
    + cbn [sub_from replace_from]. apply IH.
Qed.

Lemma sub_lit (c : ascii) (old new : string) (s : string) :
  sub (lit (String c old)) (fun _ => new) s = replace s (String c old) new.
Proof. unfold sub, replace. apply sub_from_lit. Qed.

End PatternFacts.

(* ================================================================== *)
(** * Template detection *)
(* ================================================================== *)

Section TemplateDetection.

Import PyStr Convert.

Lemma contains_cons (c : ascii) (s p : string) :
  contains s p = true -> contains (String c s) p = true.
Proof. intros H. cbn [contains]. rewrite H. apply orb_true_r. Qed.

Lemma contains_app_r (a s p : string) :
  contains s p = true -> contains (a ++ s) p = true.
Proof.
  intros H. induction a as [|c a IH]; [exact H|].
  cbn [append]. now apply contains_cons.
Qed.

Lemma contains_nil_l (c : ascii) (p : string) : contains "" (String c p) = false.
Proof. reflexivity. Qed.

(** An occurrence of [p] cannot start inside a stretch that lacks the first
    character of [p]. *)
Lemma contains_skip (a r : string) (c : ascii) (p : string) :
  mem c a = false ->
  contains (a ++ r) (String c p) = true -> contains r (String c p) = true.
Proof.
  induction a as [|x a IH]; intros Hm H; [exact H|].
  cbn [mem] in Hm. apply orb_false_iff in Hm as [Hcx Hm].
  cbn [append contains startswith] in H. rewrite Hcx in H.
  cbn [andb orb] in H. now apply IH.
Qed.

(** The two equations of a replacement scan. *)
Lemma replace_from_skip (old new pre s : string) :
  replace_from (String.length pre) old new (pre ++ s) = replace_from 0 old new s.
Proof. induction pre as [|c pre IH]; [reflexivity | exact IH]. Qed.

Lemma replace_hit (o : ascii) (old new r : string) :
  replace (String o old ++ r) (String o old) new
  = new ++ replace r (String o old) new.
Proof.
  unfold replace. cbn [append replace_from].
  change (String o (old ++ r)) with (String o old ++ r).
  rewrite startswith_app. cbn [String.length Nat.sub].
  now rewrite Nat.sub_0_r, replace_from_skip.
Qed.

Lemma replace_miss (o : ascii) (old new : string) (c : ascii) (s : string) :
  startswith (String c s) (String o old) = false ->
  replace (String c s) (String o old) new
  = String c (replace s (String o old) new).
Proof. intros H. unfold replace. cbn [replace_from]. now rewrite H. Qed.

(** A prefix that lacks the first character of [old] survives the scan. *)
Lemma startswith_replace (o : ascii) (old new q s : string) :
  mem o q = false -> startswith s q = true ->
  startswith (replace s (String o old) new) q = true.
Proof.
  revert s. induction q as [|a q IH]; intros s Hm H.
  - apply startswith_nil.
  - destruct s as [|b s]; [discriminate H|].
    cbn [startswith] in H. apply andb_true_iff in H as [Hab Hq].
    cbn [mem] in Hm. apply orb_false_iff in Hm as [Hoa Hm].
    apply Ascii.eqb_eq in Hab. subst b.
    rewrite replace_miss by (cbn [startswith]; now rewrite Hoa).
    cbn [startswith]. rewrite Ascii.eqb_refl. now apply IH.
Qed.

(** Replacing [old] keeps every occurrence of a pattern that neither
    contains the first character of [old] nor starts with a character of
    [old]. *)
Lemma contains_replace (o : ascii) (old new : string) (c : ascii) (p : string) :
  mem o (String c p) = false -> mem c (String o old) = false ->
  forall s, contains s (String c p) = true ->
            contains (replace s (String o old) new) (String c p) = true.
Proof.
  intros Hop Hco s.
  remember (String.length s) as n eqn:Hn.
  assert (Hle : String.length s <= n) by lia. clear Hn.
  revert s Hle. induction n as [|n IH]; intros s Hle H.
  - destruct s; [discriminate H | simpl in Hle; lia].
  - destruct s as [|b s]; [discriminate H|].
    destruct (startswith (String b s) (String o old)) eqn:E.
    + destruct (startswith_inv _ _ E) as [r Hr]. rewrite Hr in *.
      rewrite replace_hit. apply contains_app_r. apply IH.
      * rewrite length_append in Hle. simpl in Hle. lia.
      * exact (contains_skip _ _ _ _ Hco H).
    + rewrite (replace_miss _ _ _ _ _ E).
      cbn [contains] in H. apply orb_true_iff in H as [H|H].
      * pose proof (startswith_replace o old new _ _ Hop H) as Hs.
        rewrite (replace_miss _ _ _ _ _ E) in Hs.
        cbn [contains]. now rewrite Hs.
      * apply contains_cons. apply IH; [simpl in Hle; lia | exact H].
Qed.

Lemma decode_entities_replace (text : string) :
  decode_entities text = replace (replace text "&lt;" "<") "&gt;" ">".
Proof. unfold decode_entities, const. now rewrite !sub_lit. Qed.

Lemma contains_decode (c : ascii) (p text : string) :
  mem "&"%char (String c p) = false -> mem c "&lt;" = false ->
  mem c "&gt;" = false ->
  contains text (String c p) = true ->
  contains (decode_entities text) (String c p) = true.
Proof.
  intros H1 H2 H3 H. rewrite decode_entities_replace.
  apply contains_replace; [exact H1 | exact H3|].
  apply contains_replace; [exact H1 | exact H2 | exact H].
Qed.

(** C5 (as amended).  A page is a template exactly when its text, after
    the escaped angle brackets have been decoded, contains the noinclude
    tag, an opening and a closing double brace.  Every raw text that
    contains the three is a template. *)
Theorem clean_text_template_detection (self : t) (text : string) (meta : Meta.t) :
  (snd (clean_text self text meta) = true <->
   contains (replace (replace text "&lt;" "<") "&gt;" ">") "<noinclude>" = true /\
   contains (replace (replace text "&lt;" "<") "&gt;" ">") "{{" = true /\
   contains (replace (replace text "&lt;" "<") "&gt;" ">") "}}" = true) /\
  (contains text "<noinclude>" = true -> contains text "{{" = true ->
   contains text "}}" = true -> snd (clean_text self text meta) = true).
Proof.
  assert (Hiff :
    snd (clean_text self text meta) = true <->
    contains (decode_entities text) "<noinclude>" = true /\
    contains (decode_entities text) "{{" = true /\
    contains (decode_entities text) "}}" = true).
  { unfold clean_text. cbn [snd]. unfold detect_template.
    rewrite !andb_true_iff. tauto. }
  split.
  - now rewrite <- decode_entities_replace.
  - intros H1 H2 H3. apply Hiff.
    repeat split; apply contains_decode; try reflexivity; assumption.
Qed.

Lemma clean_text_template_detection_witness :
  snd (Convert.clean_text sample_converter "<noinclude>doc</noinclude>{{T}}"
         sample_meta) = true.
Proof.
  apply (proj2 (clean_text_template_detection sample_converter
                  "<noinclude>doc</noinclude>{{T}}" sample_meta));
    reflexivity.
Defined.

(** C5, counterexample.  A raw text with the escaped tag is a template
    although the raw text does not contain the tag itself. *)
Lemma clean_text_template_counterexample :
  let text := "&lt;noinclude&gt;{{T}}" in
  ~ (snd (clean_text sample_converter text sample_meta) = true <->
     contains text "<noinclude>" = true /\ contains text "{{" = true /\
     contains text "}}" = true).
Proof.
  cbv zeta. intros [H _].
  assert (Ht : snd (clean_text sample_converter "&lt;noinclude&gt;{{T}}"
                      sample_meta) = true) by (vm_compute; reflexivity).
  destruct (H Ht) as [Hc _]. vm_compute in Hc. discriminate Hc.
Qed.

End TemplateDetection.


(* ================================================================== *)
(** * Link-path normalisation *)
(* ================================================================== *)

Section PathNormalisation.

Import PyStr Re CleanLink.

Lemma take_drop_while (f : ascii -> bool) (s : string) :
  take_while f s ++ drop_while f s = s.
Proof.
  induction s as [|c s IH]; [reflexivity|].
  cbn [take_while drop_while]. destruct (f c); [|reflexivity].
  cbn [append]. now rewrite IH.
Qed.

Lemma length_drop_while (f : ascii -> bool) (s : string) :
  String.length (drop_while f s) <= String.length s.
Proof.
  induction s as [|c s IH]; [constructor|].
  cbn [drop_while]. destruct (f c); simpl; lia.
Qed.

(** A greedy starred character class takes the longest run. *)
Lemma star_loop_greedy_chr (p : ascii -> bool) (s : string) :
  forall n prev g,
    String.length s <= n ->
    star_loop (run (Chr p)) true (fun _ s' g' => Some (s', g')) n prev s g
    = Some (drop_while p s, g).
Proof.
  induction s as [|c s IH]; intros n prev g Hn.
  - destruct n; reflexivity.
  - destruct n as [|n]; [simpl in Hn; lia|].
    cbn [star_loop run drop_while]. destruct (p c); [|reflexivity].
    assert (Hlt : Nat.ltb (String.length s) (String.length (String c s)) = true)
      by (apply Nat.ltb_lt; simpl; lia).
    rewrite Hlt, IH by (simpl in Hn; lia). reflexivity.
Qed.

Lemma match_at_slashes (prev : option ascii) (s : string) :
  match_at (plus (lit "/")) prev s =
  match s with
  | EmptyString => None
  | String c s' =>
      if is_slash c then Some (drop_while is_slash s', None) else None
  end.
Proof.
  unfold match_at, plus. cbn [lit run]. destruct s as [|c s]; [reflexivity|].
  fold (is_slash c). destruct (is_slash c); [|reflexivity].
  apply (star_loop_greedy_chr is_slash). constructor.
Qed.

Lemma collapse_cons (c : ascii) (s : string) :
  collapse_slashes (String c s) =
  if is_slash c && starts_slash s then collapse_slashes s
  else String c (collapse_slashes s).
Proof. reflexivity. Qed.

Lemma collapse_slash_run (c : ascii) (s : string) :
  is_slash c = true ->
  collapse_slashes (String c s) = "/" ++ collapse_slashes (drop_while is_slash s).
Proof.
  intros Hc. assert (c = "/"%char) as -> by (symmetry; now apply Ascii.eqb_eq).
  induction s as [|d s IH]; [reflexivity|].
  rewrite collapse_cons. cbn [drop_while starts_slash].
  change (is_slash "/") with true. cbn [andb].
  destruct (is_slash d) eqn:Hd; [|reflexivity].
  assert (d = "/"%char) as -> by (symmetry; now apply Ascii.eqb_eq).
  exact IH.
Qed.

Lemma sub_from_slashes (s : string) :
  forall prev,
    sub_from 0 (plus (lit "/")) (fun _ => "/") prev s = collapse_slashes s /\
    sub_from (String.length (take_while is_slash s)) (plus (lit "/"))
      (fun _ => "/") prev s = collapse_slashes (drop_while is_slash s).
Proof.
  induction s as [|c s IH]; intros prev.
  - split; reflexivity.
  - assert (H0 : sub_from 0 (plus (lit "/")) (fun _ => "/") prev (String c s)
                 = collapse_slashes (String c s)).
    { cbn [sub_from]. rewrite match_at_slashes.
      destruct (is_slash c) eqn:Hc.
      - unfold mk_matched. cbn [fst snd group0].
        replace (consumed (String c s) (drop_while is_slash s))
          with (String c (take_while is_slash s)).
        2:{ rewrite <- (take_drop_while is_slash s) at 2.
            change (String c (take_while is_slash s ++ drop_while is_slash s))
              with (String c (take_while is_slash s) ++ drop_while is_slash s).
            now rewrite consumed_app. }
        cbn [String.length]. rewrite (proj2 (IH (Some c))).
        now rewrite collapse_slash_run.
      - rewrite (proj1 (IH (Some c))). cbn [collapse_slashes].
        now rewrite Hc. }
    split; [exact H0|].
    cbn [take_while drop_while]. destruct (is_slash c) eqn:Hc.
    + cbn [String.length sub_from]. apply IH.
    + exact H0.
Qed.

Lemma sub_slashes (s : string) :
  Re.sub (plus (lit "/")) (fun _ => "/") s = collapse_slashes s.
Proof. unfold Re.sub. apply sub_from_slashes. Qed.

(** ** Squeezed strings *)

Lemma starts_slash_collapse (s : string) :
  starts_slash (collapse_slashes s) = starts_slash s.
Proof.
  induction s as [|c s IH]; [reflexivity|].
  rewrite collapse_cons. cbn [starts_slash].
  destruct (is_slash c) eqn:Hc; cbn [andb].
  - destruct (starts_slash s) eqn:Hs; [now rewrite IH | cbn [starts_slash]; exact Hc].
  - cbn [starts_slash]. exact Hc.
Qed.

Lemma collapse_no_double (s : string) :
  no_double_slash (collapse_slashes s) = true.
Proof.
  induction s as [|c s IH]; [reflexivity|].
  rewrite collapse_cons.
  destruct (is_slash c && starts_slash s) eqn:E; [exact IH|].
  cbn [no_double_slash]. now rewrite starts_slash_collapse, E, IH.
Qed.

Lemma collapse_id (s : string) :
  no_double_slash s = true -> collapse_slashes s = s.
Proof.
  induction s as [|c s IH]; intros H; [reflexivity|].
  cbn [no_double_slash] in H. apply andb_true_iff in H as [H1 H2].
  rewrite collapse_cons. apply negb_true_iff in H1. now rewrite H1, IH.
Qed.

Lemma mem_collapse (x : ascii) (s : string) :
  mem x s = false -> mem x (collapse_slashes s) = false.
Proof.
  induction s as [|c s IH]; intros H; [reflexivity|].
  cbn [mem] in H. apply orb_false_iff in H as [H1 H2].
  rewrite collapse_cons. destruct (is_slash c && starts_slash s).
  - now apply IH.
  - cbn [mem]. now rewrite H1, IH.
Qed.

Lemma replace_absent (c : ascii) (new s : string) :
  mem c s = false -> replace s (String c "") new = s.
Proof.
  induction s as [|a s IH]; intros H; [reflexivity|].
  cbn [mem] in H. apply orb_false_iff in H as [H1 H2].
  now rewrite replace_char_cons, H1, IH.
Qed.

Lemma no_double_app (x s : string) :
  mem "/" x = false -> no_double_slash (x ++ s) = no_double_slash s.
Proof.
  induction x as [|c x IH]; intros H; [reflexivity|].
  cbn [mem] in H. apply orb_false_iff in H as [H1 H2].
  cbn [append no_double_slash]. unfold is_slash. now rewrite H1, IH.
Qed.

(** ** Segments *)

Lemma split_nonempty (s : string) (c : ascii) : split s (String c "") <> [].
Proof.
  destruct s as [|a s]; [discriminate|].
  rewrite split_char_cons. destruct (Ascii.eqb c a); [discriminate|].
  destruct (split s (String c "")); discriminate.
Qed.

Lemma split_clean (s : string) :
  mem (ascii_of_nat 92) s = false -> Forall clean_segment (split s "/").
Proof.
  induction s as [|a s IH]; intros H.
  - repeat constructor.
  - cbn [mem] in H. apply orb_false_iff in H as [H1 H2].
    specialize (IH H2). rewrite split_char_cons.
    destruct (Ascii.eqb "/" a) eqn:Ha.
    + constructor; [split; reflexivity | exact IH].
    + destruct (split s "/") as [|seg rest]; [repeat constructor|].
      * cbn [mem]. now rewrite Ha.
      * cbn [mem]. now rewrite H1.
      * inversion IH as [|? ? [Hs Hb] Hrest]; subst.
        constructor; [|exact Hrest].
        split; cbn [mem]; [now rewrite Ha, Hs | now rewrite H1, Hb].
Qed.

Lemma Forall_removelast {A} (P : A -> Prop) (l : list A) :
  Forall P l -> Forall P (removelast l).
Proof.
  induction 1 as [|x l Hx Hl IH]; [constructor|].
  cbn [removelast]. destruct l; [constructor | now constructor].
Qed.

Lemma split_mid_nonempty (s : string) :
  no_double_slash s = true ->
  Forall nonempty (removelast (tl (split s "/"))) /\
  (starts_slash s = false -> Forall nonempty (removelast (split s "/"))).
Proof.
  induction s as [|a s IH]; intros H.
  - split; constructor.
  - cbn [no_double_slash] in H. apply andb_true_iff in H as [H1 H2].
    destruct (IH H2) as [IHa IHb]. rewrite split_char_cons.
    cbn [starts_slash]. fold (is_slash a). apply negb_true_iff in H1.
    destruct (is_slash a) eqn:Ha.
    + cbn [andb] in H1. split; [cbn [tl]; now apply IHb | discriminate].
    + pose proof (split_nonempty s "/") as Hne.
      destruct (split s "/") as [|seg rest]; [congruence|].
      cbn [tl] in *. split; [exact IHa|]. intros _.
      cbn [removelast]. destruct rest as [|r rest]; [constructor|].
      constructor; [discriminate | exact IHa].
Qed.

Lemma split_app_sep (x t : string) :
  mem "/" x = false -> split (x ++ String "/" t) "/" = x :: split t "/".
Proof.
  induction x as [|c x IH]; intros H.
  - cbn [append]. now rewrite split_char_cons.
  - cbn [mem] in H. apply orb_false_iff in H as [H1 H2].
    cbn [append]. now rewrite split_char_cons, H1, IH.
Qed.

Lemma join_cons (x y : string) (l : list string) :
  join "/" (x :: y :: l) = x ++ String "/" (join "/" (y :: l)).
Proof. reflexivity. Qed.

Lemma split_join (l : list string) :
  l <> [] -> Forall clean_segment l -> split (join "/" l) "/" = l.
Proof.
  intros Hne H. induction H as [|x l [Hx _] Hl IH]; [congruence|].
  destruct l as [|y l].
  - cbn [join String.concat]. apply (split_no_sep "/"). exact Hx.
  - rewrite join_cons, (split_app_sep _ _ Hx), IH by discriminate. reflexivity.
Qed.

Lemma mem_join_backslash (l : list string) :
  Forall clean_segment l -> mem (ascii_of_nat 92) (join "/" l) = false.
Proof.
  induction 1 as [|x l [_ Hx] Hl IH]; [reflexivity|].
  destruct l as [|y l]; [exact Hx|].
  rewrite join_cons, mem_append, Hx. cbn [mem orb]. exact IH.
Qed.

Lemma starts_slash_join (y : string) (l : list string) :
  clean_segment y -> (l <> [] -> nonempty y) ->
  starts_slash (join "/" (y :: l)) = false.
Proof.
  intros [Hy _] Hne. destruct y as [|c y].
  - destruct l as [|z l]; [reflexivity|]. exfalso. now apply Hne.
  - cbn [mem] in Hy. apply orb_false_iff in Hy as [Hc _].
    destruct l; cbn [join String.concat append starts_slash]; exact Hc.
Qed.

Lemma no_double_join (l : list string) :
  Forall clean_segment l -> Forall nonempty (removelast (tl l)) ->
  no_double_slash (join "/" l) = true.
Proof.
  intros Hc. induction Hc as [|x l [Hx Hxb] Hl IH]; intros Hmid; [reflexivity|].
  destruct l as [|y l].
  - cbn [join String.concat]. rewrite <- (append_nil_r x). now rewrite no_double_app.
  - rewrite join_cons, (no_double_app _ _ Hx). cbn [no_double_slash].
    change (is_slash "/") with true. cbn [andb tl] in *.
    inversion Hl as [|? ? Hy Hl']; subst.
    rewrite starts_slash_join; [cbn [negb andb]|exact Hy|].
    + apply IH. cbn [tl]. destruct l as [|z l]; [constructor|].
      cbn [removelast] in Hmid. now inversion Hmid.
    + intros Hne. destruct l as [|z l]; [congruence|].
      cbn [removelast] in Hmid. now inversion Hmid.
Qed.

(** ** The stack of segments *)

Lemma normalize_step_cases (parts : list string) (segment : string) :
  (segment = "." /\ normalize_step parts segment = parts) \/
  (segment = ".." /\ normalize_step parts segment = removelast parts) \/
  (not_dots segment /\ normalize_step parts segment = (parts ++ [segment])%list).
Proof.
  unfold normalize_step, not_dots.
  destruct (String.eqb_spec segment "."); [now left|].
  destruct (String.eqb_spec segment ".."); [right; now left|].
  right; right. repeat split; assumption.
Qed.

(** On segments without dots the loop copies its input. *)
Lemma fold_no_dots (l acc : list string) :
  Forall not_dots l -> fold_left normalize_step l acc = (acc ++ l)%list.
Proof.
  intros H. revert acc. induction H as [|x l [H1 H2] _ IH]; intros acc.
  - now rewrite app_nil_r.
  - cbn [fold_left]. unfold normalize_step at 2.
    apply String.eqb_neq in H1, H2. rewrite H1, H2, IH, <- app_assoc.
    reflexivity.
Qed.

(** Every segment left on the stack is a segment of the input that is not
    a dot segment. *)
Lemma fold_clean (l acc : list string) :
  Forall clean_segment l ->
  Forall (fun x => clean_segment x /\ not_dots x) acc ->
  Forall (fun x => clean_segment x /\ not_dots x) (fold_left normalize_step l acc).
Proof.
  intros H. revert acc. induction H as [|x l Hx _ IH]; intros acc Hacc; [exact Hacc|].
  cbn [fold_left]. apply IH.
  destruct (normalize_step_cases acc x) as [[_ ->] | [[_ ->] | [Hd ->]]].
  - exact Hacc.
  - now apply Forall_removelast.
  - apply Forall_app. split; [exact Hacc|].
    constructor; [split; assumption | constructor].
Qed.

Lemma Forall_tl {A} (P : A -> Prop) (l : list A) : Forall P l -> Forall P (tl l).
Proof. destruct 1; [constructor | assumption]. Qed.

Lemma removelast_tl {A} (l : list A) : removelast (tl l) = tl (removelast l).
Proof. destruct l as [|x [|y l]]; reflexivity. Qed.

(** Pushing non-empty segments keeps every segment above the bottom one
    non-empty. *)
Lemma step_tail_nonempty (acc : list string) (x : string) :
  (acc <> [] -> nonempty x) -> Forall nonempty (tl acc) ->
  Forall nonempty (tl (normalize_step acc x)).
Proof.
  intros Hx Hacc.
  destruct (normalize_step_cases acc x) as [[_ ->] | [[_ ->] | [_ ->]]].
  - exact Hacc.
  - rewrite <- removelast_tl. now apply Forall_removelast.
  - destruct acc as [|a acc]; [constructor|].
    cbn [app tl] in *. apply Forall_app. split; [exact Hacc|].
    constructor; [apply Hx; discriminate | constructor].
Qed.

Lemma fold_tail_nonempty (l acc : list string) :
  Forall nonempty l -> Forall nonempty (tl acc) ->
  Forall nonempty (tl (fold_left normalize_step l acc)).
Proof.
  intros H. revert acc. induction H as [|x l Hx _ IH]; intros acc Hacc; [exact Hacc|].
  cbn [fold_left]. apply IH. now apply step_tail_nonempty.
Qed.

Lemma fold_mid_nonempty (segments : list string) :
  segments <> [] -> Forall nonempty (removelast (tl segments)) ->
  Forall nonempty (removelast (tl (fold_left normalize_step segments []))).
Proof.
  intros Hne Hmid.
  rewrite (app_removelast_last "" Hne), fold_left_app. cbn [fold_left].
  rewrite removelast_tl in Hmid.
  set (init := removelast segments) in *. set (lst := last segments "").
  assert (Hstack : Forall nonempty (tl (fold_left normalize_step init []))).
  { destruct init as [|s1 init']; [constructor|].
    cbn [tl fold_left] in *. apply fold_tail_nonempty; [exact Hmid|].
    apply step_tail_nonempty; [congruence | constructor]. }
  destruct (normalize_step_cases (fold_left normalize_step init []) lst)
    as [[_ ->] | [[_ ->] | [_ ->]]].
  - now apply Forall_removelast.
  - rewrite <- removelast_tl. now do 2 apply Forall_removelast.
  - rewrite removelast_tl, removelast_last. exact Hstack.
Qed.

(** ** Normal forms *)

(** The lists of segments the loop of [normalize_path] ends with. *)
Lemma normalize_path_parts (path : string) :
  exists parts,
    normalize_path path = join "/" parts /\
    Forall (fun x => clean_segment x /\ not_dots x) parts /\
    Forall nonempty (removelast (tl parts)).
Proof.
  unfold normalize_path. rewrite sub_slashes.
  set (s := collapse_slashes (replace path BACKSLASH "/")).
  assert (Hb : mem (ascii_of_nat 92) s = false).
  { apply mem_collapse. apply mem_replace_char_same. reflexivity. }
  exists (fold_left normalize_step (split s "/") []). split; [reflexivity|]. split.
  - apply fold_clean; [now apply split_clean | constructor].
  - apply fold_mid_nonempty; [apply split_nonempty|].
    apply split_mid_nonempty. apply collapse_no_double.
Qed.

(** A path joined from such segments is its own normal form. *)
Lemma normalize_path_fixed (parts : list string) :
  Forall (fun x => clean_segment x /\ not_dots x) parts ->
  Forall nonempty (removelast (tl parts)) ->
  normalize_path (join "/" parts) = join "/" parts.
Proof.
  intros Hparts Hmid.
  assert (Hc : Forall clean_segment parts)
    by (eapply Forall_impl; [|exact Hparts]; cbv beta; tauto).
  assert (Hd : Forall not_dots parts)
    by (eapply Forall_impl; [|exact Hparts]; cbv beta; tauto).
  destruct parts as [|x parts]; [reflexivity|].
  unfold normalize_path. rewrite sub_slashes.
  change BACKSLASH with (String (ascii_of_nat 92) "").
  rewrite replace_absent by now apply mem_join_backslash.
  rewrite collapse_id by now apply no_double_join.
  rewrite split_join by (discriminate || assumption).
  now rewrite fold_no_dots.
Qed.

(** C7.  Normalising a path twice gives what normalising it once gives;
    a dot segment disappears, a double-dot segment removes the segment
    before it, and a leading double-dot segment is dropped. *)
Theorem normalize_path_idempotent (path : string) :
  normalize_path (normalize_path path) = normalize_path path /\
  normalize_path "a/./b" = "a/b" /\
  normalize_path "a/b/../c" = "a/c" /\
  normalize_path "../a" = "a".
Proof.
  split; [|repeat split].
  destruct (normalize_path_parts path) as (parts & -> & H1 & H2).
  now apply normalize_path_fixed.
Qed.

End PathNormalisation.

(* ================================================================== *)
(** * Scanning a text for matches *)
(* ================================================================== *)

Section ScanFacts.

Import PyStr Re.

(** A lazy starred character class stops at the first place where the rest
    of the pattern matches. *)
Lemma star_loop_lazy_chr (p : ascii -> bool) (k : cont) (rest : string)
    (g : option string) (res : result) (body : string) :
  forall n prev,
    (forall a, mem a body = true -> p a = true) ->
    (forall a, mem a body = true -> forall prev' t, k prev' (String a t) g = None) ->
    k (last_of body prev) rest g = Some res ->
    String.length (body ++ rest) <= n ->
    star_loop (run (Chr p)) false k n prev (body ++ rest) g = Some res.
Proof.
  induction body as [|a body IH]; intros n prev Hp Hk Hres Hn.
  - cbn [append last_of] in *. destruct n; cbn [star_loop]; now rewrite Hres.
  - destruct n as [|n]; [simpl in Hn; lia|].
    cbn [append star_loop run].
    rewrite Hk by (cbn [mem]; now rewrite Ascii.eqb_refl).
    rewrite Hp by (cbn [mem]; now rewrite Ascii.eqb_refl).
    cbn [orelse].
    assert (Hlt : Nat.ltb (String.length (body ++ rest))
                    (String.length (String a (body ++ rest))) = true)
      by (apply Nat.ltb_lt; simpl; lia).
    rewrite Hlt. apply IH.
    + intros x Hx. apply Hp. cbn [mem]. rewrite Hx. apply orb_true_r.
    + intros x Hx. apply Hk. cbn [mem]. rewrite Hx. apply orb_true_r.
    + exact Hres.
    + simpl in Hn. lia.
Qed.

Lemma sub_from_skip (r : regex) (repl : matched -> string) (pre s : string) :
  forall prev,
    sub_from (String.length pre) r repl prev (pre ++ s)
    = sub_from 0 r repl (last_of pre prev) s.
Proof.
  induction pre as [|a pre IH]; intros prev; [reflexivity|].
  cbn [String.length append sub_from last_of]. apply IH.
Qed.

(** Patterns that do not look at the character before the cursor and can
    only match at a character accepted by [first]. *)
Variable r : regex.
Variable repl : matched -> string.
Variable first : ascii -> bool.

Hypothesis r_prev : forall prev s, match_at r prev s = match_at r None s.
Hypothesis r_miss :
  forall prev a s, first a = false -> match_at r prev (String a s) = None.

Lemma sub_from_prev (prev : option ascii) (s : string) :
  sub_from 0 r repl prev s = sub r repl s.
Proof.
  unfold sub. destruct s as [|a s]; cbn [sub_from]; now rewrite r_prev.
Qed.

(** Characters that cannot start a match are copied. *)
Lemma sub_pre (pre s : string) :
  (forall a, mem a pre = true -> first a = false) ->
  sub r repl (pre ++ s) = pre ++ sub r repl s.
Proof.
  induction pre as [|a pre IH]; intros H; [reflexivity|].
  unfold sub at 1. cbn [append sub_from].
  rewrite r_miss by (apply H; cbn [mem]; now rewrite Ascii.eqb_refl).
  rewrite sub_from_prev, IH; [reflexivity|].
  intros x Hx. apply H. cbn [mem]. rewrite Hx. apply orb_true_r.
Qed.

(** A non-empty match at the cursor is replaced and the scan goes on
    behind it. *)
Lemma sub_hit (m post : string) (g : option string) :
  m <> "" ->
  match_at r None (m ++ post) = Some (post, g) ->
  sub r repl (m ++ post)
  = repl {| group0 := m;
            group1 := match g with Some x => x | None => "" end |}
    ++ sub r repl post.
Proof.
  intros Hm Hmatch. destruct m as [|a m]; [congruence|].
  unfold sub at 1. cbn [append sub_from].
  change (String a (m ++ post)) with (String a m ++ post).
  rewrite Hmatch. unfold mk_matched. cbn [fst snd group0].
  rewrite consumed_app. cbn [String.length].
  now rewrite sub_from_skip, sub_from_prev.
Qed.

End ScanFacts.

(* ================================================================== *)
(** * The workaround for old pandoc versions *)
(* ================================================================== *)

Section UrlWorkaround.

Import PyStr Re.
Import Convert (re_bracket_url, fix_urls, clean_text, clean_links).

Lemma match_bracket_url (prev : option ascii) (c : ascii) (body post : string) :
  dot c = true ->
  (forall a, mem a body = true -> dot a = true) ->
  mem "]" body = false ->
  match_at re_bracket_url prev ("[http" ++ String c body ++ "]" ++ post)
  = Some (post, Some ("http" ++ String c body)).
Proof.
  intros Hc Hdot Hclose. unfold match_at, re_bracket_url.
  cbn [seq lit lazy_plus run append]. rewrite !Ascii.eqb_refl, Hc.
  erewrite (star_loop_lazy_chr dot _ ("]" ++ post)); [reflexivity| | | |].
  - exact Hdot.
  - intros a Ha prev' t.
    destruct (Ascii.eqb_spec "]" a) as [<-|Hne]; [congruence | reflexivity].
  - cbn [append]. rewrite Ascii.eqb_refl.
    change (String "h" (String "t" (String "t" (String "p"
             (String c (body ++ String "]" post))))))
      with (("http" ++ String c body) ++ String "]" post).
    now rewrite consumed_app.
  - constructor.
Qed.

(** The pattern starts with a character, so it does not look at what is
    before the cursor. *)
Lemma match_bracket_url_prev (prev : option ascii) (s : string) :
  match_at re_bracket_url prev s = match_at re_bracket_url None s.
Proof. destruct s; reflexivity. Qed.

Lemma match_bracket_url_miss (prev : option ascii) (a : ascii) (s : string) :
  Ascii.eqb "[" a = false -> match_at re_bracket_url prev (String a s) = None.
Proof.
  intros H. unfold match_at, re_bracket_url. cbn [seq lit run]. now rewrite H.
Qed.

(** A bracketed URL after bracket-free text is handed to the replacement
    function whole, and the scan goes on behind its closing bracket. *)
Lemma sub_bracket_url_hit (repl : matched -> string) (pre : string) (c : ascii)
    (body post : string) :
  mem "[" pre = false -> dot c = true ->
  (forall a, mem a body = true -> dot a = true) ->
  mem "]" body = false ->
  sub re_bracket_url repl (pre ++ "[http" ++ String c body ++ "]" ++ post)
  = pre ++ repl {| group0 := "[http" ++ String c body ++ "]";
                   group1 := "http" ++ String c body |}
    ++ sub re_bracket_url repl post.
Proof.
  intros Hpre Hc Hdot Hclose.
  rewrite (sub_pre _ repl (Ascii.eqb "[") match_bracket_url_prev
             match_bracket_url_miss pre)
    by (intros a Ha; destruct (Ascii.eqb_spec "[" a) as [<-|]; congruence).
  f_equal.
  replace ("[http" ++ String c body ++ "]" ++ post)
    with (("[http" ++ String c body ++ "]") ++ post)
    by (now rewrite !append_assoc).
  apply (sub_hit _ repl match_bracket_url_prev
           ("[http" ++ String c body ++ "]") post
           (Some ("http" ++ String c body))); [discriminate|].
  rewrite !append_assoc.
  exact (match_bracket_url None c body post Hc Hdot Hclose).
Qed.

(** The first line that pandoc prints for its version starts with the
    name of the program, and every such string compares above the
    threshold. *)
Lemma pandoc_banner_above_threshold (v : string) :
  le ("pandoc " ++ v) "2.0.2" = false.
Proof. reflexivity. Qed.

(** C9.  The gate misses the versions it is written for.  What pandoc
    prints for its version starts with the name of the program, so the
    version string of the converter does, and such a string compares above
    2.0.2 whatever the number behind the name: the step leaves every text
    as it is.  With pandoc 1.19.2.1, a version below the threshold, the
    bracketed URL reaches the end of [clean_text] unescaped, while the
    same converter with the bare number as its version string escapes the
    three patterns in it. *)
Theorem fix_urls_version_gate (self : Convert.t) (printed v text : string) :
  let banner := "pandoc 1.19.2.1" ++ LF ++ "Compiled with texmath 0.9.4" in
  let old version :=
    Convert.init "dump.xml" "./output/" false false false false "gfm" version in
  let url := "[http://x?a=&b= c.&d]" in
  Convert.get_pandoc_version ("pandoc " ++ printed) = Some v ->
  Convert.pandoc_version self = v ->
  (startswith v "pandoc " = true /\
   le v "2.0.2" = false /\
   fix_urls self text = text) /\
  (Convert.get_pandoc_version banner = Some "pandoc 1.19.2.1" /\
   le "1.19.2.1" "2.0.2" = true /\
   fix_urls (old "pandoc 1.19.2.1") url = url /\
   fst (clean_text (old "pandoc 1.19.2.1") url sample_meta) = url) /\
  (fix_urls (old "1.19.2.1") url = "[http://x?a=%20&b=%20 c.%20&d]" /\
   fst (clean_text (old "1.19.2.1") url sample_meta)
   = "[http://x?a=%20&b=%20 c.%20&d]").
Proof.
  cbv zeta. intros Hv Hself.
  split; [|split; vm_compute; repeat split].
  subst v.
  assert (Hname : Convert.pandoc_version self = "pandoc " ++ first_line printed)
    by (cbn in Hv; now injection Hv).
  rewrite Hname. split; [apply startswith_app|].
  split; [reflexivity|].
  unfold fix_urls. rewrite Hname. reflexivity.
Qed.

Lemma fix_urls_version_gate_witness :
  fix_urls (Convert.init "dump.xml" "./output/" false false false false "gfm"
              "pandoc 1.19.2.1")
    "[http://x?a=&b= c.&d]"
  = "[http://x?a=&b= c.&d]".
Proof.
  exact (proj2 (proj2 (proj1
           (fix_urls_version_gate
              (Convert.init "dump.xml" "./output/" false false false false "gfm"
                 "pandoc 1.19.2.1")
              ("1.19.2.1" ++ LF ++ "Compiled with texmath 0.9.4") "pandoc 1.19.2.1"
              "[http://x?a=&b= c.&d]" eq_refl eq_refl)))).
Defined.

End UrlWorkaround.

(* ================================================================== *)
(** * The link cleaner *)
(* ================================================================== *)

Section LinkCleaner.

Import PyStr CleanLink.

Lemma re_http_plain (r : string) : re_match re_http ("http://" ++ r) = true.
Proof. reflexivity. Qed.

Lemma re_http_secure (r : string) : re_match re_http ("https://" ++ r) = true.
Proof. reflexivity. Qed.

Lemma match_wiki_link_prev (prev : option ascii) (s : string) :
  Re.match_at Convert.re_wiki_link prev s = Re.match_at Convert.re_wiki_link None s.
Proof. destruct s; reflexivity. Qed.

Lemma match_wiki_link_miss (prev : option ascii) (a : ascii) (s : string) :
  Ascii.eqb "[" a = false ->
  Re.match_at Convert.re_wiki_link prev (String a s) = None.
Proof.
  intros H. unfold Re.match_at, Convert.re_wiki_link.
  cbn [Re.seq Re.lit Re.run]. now rewrite H.
Qed.

(** The link pattern takes the shortest body: up to the first closing
    double bracket. *)
Lemma match_wiki_link (prev : option ascii) (c : ascii) (body post : string) :
  Re.dot c = true ->
  (forall a, mem a body = true -> Re.dot a = true) ->
  mem "]" body = false ->
  Re.match_at Convert.re_wiki_link prev ("[[" ++ String c body ++ "]]" ++ post)
  = Some (post, Some (String c body)).
Proof.
  intros Hc Hdot Hclose. unfold Re.match_at, Convert.re_wiki_link.
  cbn [Re.seq Re.lit Re.lazy_plus Re.run append]. rewrite !Ascii.eqb_refl, Hc.
  erewrite (star_loop_lazy_chr Re.dot _ ("]]" ++ post)); [reflexivity| | | |].
  - exact Hdot.
  - intros a Ha prev' t.
    destruct (Ascii.eqb_spec "]" a) as [<-|Hne]; [congruence | reflexivity].
  - cbn [append]. rewrite !Ascii.eqb_refl.
    change (String c (body ++ String "]" (String "]" post)))
      with (String c body ++ String "]" (String "]" post)).
    now rewrite consumed_app.
  - constructor.
Qed.

(** A wiki link after bracket-free text: its body goes to [clean_link] and
    the scan goes on behind the closing brackets. *)
Lemma clean_links_hit (self : Convert.t) (meta : Meta.t) (pre : string)
    (c : ascii) (body post : string) :
  mem "[" pre = false -> Re.dot c = true ->
  (forall a, mem a body = true -> Re.dot a = true) ->
  mem "]" body = false ->
  Convert.clean_links self meta (pre ++ "[[" ++ String c body ++ "]]" ++ post)
  = pre ++ clean_link (Convert.flatten self) meta (String c body)
    ++ Convert.clean_links self meta post.
Proof.
  intros Hpre Hc Hdot Hclose. unfold Convert.clean_links.
  rewrite (sub_pre _ _ (Ascii.eqb "[") match_wiki_link_prev
             match_wiki_link_miss pre)
    by (intros a Ha; destruct (Ascii.eqb_spec "[" a) as [<-|]; congruence).
  f_equal.
  replace ("[[" ++ String c body ++ "]]" ++ post)
    with (("[[" ++ String c body ++ "]]") ++ post)
    by (now rewrite !append_assoc).
  rewrite (sub_hit _ _ match_wiki_link_prev
             ("[[" ++ String c body ++ "]]") post (Some (String c body)));
    [reflexivity | discriminate |].
  rewrite !append_assoc.
  exact (match_wiki_link None c body post Hc Hdot Hclose).
Qed.

Lemma dot_of_mem (body : string) :
  mem (ascii_of_nat 10) body = false ->
  forall a, mem a body = true -> Re.dot a = true.
Proof.
  intros H a Ha. unfold Re.dot.
  destruct (Ascii.eqb_spec a (ascii_of_nat 10)) as [->|]; [congruence | reflexivity].
Qed.

(** C8.  A link body that starts with the http or https scheme comes back
    between single brackets, unchanged, whatever the flatten option and
    the page; the result does not start with a double bracket.  In a text,
    a wiki link around such a body (on one line, without a closing bracket
    inside) after bracket-free text becomes the single-bracket literal and
    nothing else changes up to its end. *)
Theorem clean_link_url_literal (flatten : bool) (meta : Meta.t) (body : string) :
  startswith body "http://" = true \/ startswith body "https://" = true ->
  clean_link flatten meta body = "[" ++ body ++ "]" /\
  startswith (clean_link flatten meta body) "[[" = false /\
  (forall self pre post,
     Convert.flatten self = flatten ->
     mem "[" pre = false -> mem (ascii_of_nat 10) body = false ->
     mem "]" body = false ->
     Convert.clean_links self meta (pre ++ "[[" ++ body ++ "]]" ++ post)
     = pre ++ "[" ++ body ++ "]" ++ Convert.clean_links self meta post).
Proof.
  intros H.
  assert (Hm : re_match re_http body = true).
  { destruct H as [H|H]; destruct (startswith_inv _ _ H) as [r ->];
      [apply re_http_plain | apply re_http_secure]. }
  assert (Hl : clean_link flatten meta body = "[" ++ body ++ "]").
  { unfold clean_link. now rewrite Hm. }
  assert (Hh : exists body', body = String "h" body').
  { destruct H as [H|H]; destruct (startswith_inv _ _ H) as [r ->];
      eexists; reflexivity. }
  split; [exact Hl|]. split.
  - rewrite Hl. destruct Hh as [body' ->]. reflexivity.
  - intros self pre post Hf Hpre Hnl Hclose.
    destruct Hh as [body' ->].
    cbn [mem] in Hnl, Hclose.
    apply orb_false_iff in Hnl as [_ Hnl]. apply orb_false_iff in Hclose as [_ Hclose].
    rewrite clean_links_hit;
      [| exact Hpre | reflexivity | now apply dot_of_mem | exact Hclose].
    rewrite Hf, Hl. now rewrite !append_assoc.
Qed.

Lemma clean_link_url_literal_witness :
  clean_link true sample_meta "http://example.com" = "[http://example.com]".
Proof.
  apply (clean_link_url_literal true sample_meta "http://example.com").
  left. reflexivity.
Defined.

(** The link pass on a sample text. *)
Lemma clean_links_sample (flatten : bool) :
  Convert.clean_links (Convert.init "" "" flatten false false false "" "")
    sample_meta "see [[http://example.com]] and [[https://example.com/a b|text]]"
  = "see [http://example.com] and [https://example.com/a b|text]".
Proof. reflexivity. Qed.

End LinkCleaner.

(* ================================================================== *)
(** * Sanitization of titles *)
(* ================================================================== *)

Section Sanitization.

Import PyStr Convert.

Lemma replace_char_map (c d : ascii) (s : string) :
  replace s (String c "") (String d "")
  = map_chars (fun a => if Ascii.eqb c a then d else a) s.
Proof.
  induction s as [|a s IH]; [reflexivity|].
  rewrite replace_char_cons. cbn [map_chars].
  destruct (Ascii.eqb c a); cbn [append]; now rewrite IH.
Qed.

Lemma map_chars_compose (f g : ascii -> ascii) (s : string) :
  map_chars g (map_chars f s) = map_chars (fun a => g (f a)) s.
Proof. induction s as [|a s IH]; [reflexivity|]. cbn [map_chars]. now rewrite IH. Qed.

Lemma map_chars_ext (f g : ascii -> ascii) (s : string) :
  (forall a, f a = g a) -> map_chars f s = map_chars g s.
Proof.
  intros H. induction s as [|a s IH]; [reflexivity|].
  cbn [map_chars]. now rewrite H, IH.
Qed.

Lemma length_map_chars (f : ascii -> ascii) (s : string) :
  String.length (map_chars f s) = String.length s.
Proof. induction s as [|a s IH]; [reflexivity|]. cbn. now rewrite IH. Qed.

Lemma get_map_chars (f : ascii -> ascii) (s : string) (i : nat) :
  String.get i (map_chars f s) = option_map f (String.get i s).
Proof.
  revert i. induction s as [|a s IH]; intros i; [reflexivity|].
  destruct i; [reflexivity|]. cbn. apply IH.
Qed.

Lemma mem_map_chars (x : ascii) (f : ascii -> ascii) (s : string) :
  (forall a, Ascii.eqb x (f a) = false) -> mem x (map_chars f s) = false.
Proof.
  intros H. induction s as [|a s IH]; [reflexivity|].
  cbn [map_chars mem]. now rewrite H, IH.
Qed.

Ltac by_char a :=
  repeat match goal with
         | |- context [Ascii.eqb ?c a] =>
             destruct (Ascii.eqb_spec c a) as [<-|?]; [reflexivity|]
         | |- context [Ascii.eqb a ?c] =>
             destruct (Ascii.eqb_spec a c) as [->|?];
             [first [reflexivity | congruence]|]
         end;
  try reflexivity.

Lemma sanitize_map (title : string) : sanitize title = map_chars sanitize_char title.
Proof.
  unfold sanitize, invalid_chars. cbn [fold_left fst snd].
  change BACKSLASH with (String (ascii_of_nat 92) "").
  change DQUOTE with (String (ascii_of_nat 34) "").
  rewrite !replace_char_map, !map_chars_compose.
  apply map_chars_ext. intros a. unfold sanitize_char, invalid_set.
  cbn [append mem BACKSLASH DQUOTE]. by_char a.
Qed.

Lemma url_map (title : string) :
  replace (sanitize title) " " "_" = map_chars url_char title.
Proof.
  rewrite sanitize_map, replace_char_map, map_chars_compose.
  apply map_chars_ext. intros a. unfold url_char.
  destruct (Ascii.eqb_spec a " ") as [->|Hsp]; [reflexivity|].
  unfold sanitize_char. destruct (mem a invalid_set); [reflexivity|].
  destruct (Ascii.eqb_spec " " a); [congruence | reflexivity].
Qed.

(** X1.  Sanitization is a character-by-character map: the title and the
    url of the metadata have the length of the raw title; at every position
    the title has an underscore where the raw title has one of the nine
    invalid characters and the raw character elsewhere, and the url
    moreover has an underscore for every space.  Nothing is merged. *)
Theorem retrieve_file_info_positions (self : t) (title : string) :
  let meta := fst (retrieve_file_info self title) in
  Meta.title meta = map_chars sanitize_char title /\
  Meta.url meta = map_chars url_char title /\
  String.length (Meta.title meta) = String.length title /\
  String.length (Meta.url meta) = String.length title /\
  (forall i, String.get i (Meta.title meta)
             = option_map sanitize_char (String.get i title)) /\
  (forall i, String.get i (Meta.url meta)
             = option_map url_char (String.get i title)).
Proof.
  cbv zeta. rewrite retrieve_file_info_eq. cbn [fst Meta.title Meta.url].
  rewrite url_map, sanitize_map.
  repeat split; auto using length_map_chars, get_map_chars.
Qed.

Lemma sanitize_char_valid (x a : ascii) :
  mem x invalid_set = true -> Ascii.eqb x (sanitize_char a) = false.
Proof.
  intros Hx. unfold sanitize_char. destruct (mem a invalid_set) eqn:Ha.
  - destruct (Ascii.eqb_spec x "_") as [->|]; [discriminate Hx | reflexivity].
  - destruct (Ascii.eqb_spec x a) as [->|]; [congruence | reflexivity].
Qed.

Lemma url_char_valid (x a : ascii) :
  mem x (" " ++ invalid_set) = true -> Ascii.eqb x (url_char a) = false.
Proof.
  intros Hx. unfold url_char.
  destruct (Ascii.eqb_spec a " ") as [->|Hsp].
  - destruct (Ascii.eqb_spec x "_") as [->|]; [discriminate Hx | reflexivity].
  - cbn [append mem] in Hx. apply orb_true_iff in Hx as [Hx|Hx].
    + apply Ascii.eqb_eq in Hx. subst x. unfold sanitize_char.
      destruct (mem a invalid_set).
      * reflexivity.
      * destruct (Ascii.eqb_spec " " a); [congruence | reflexivity].
    + now apply sanitize_char_valid.
Qed.

Lemma sanitize_char_idem (a : ascii) : sanitize_char (sanitize_char a) = sanitize_char a.
Proof.
  unfold sanitize_char. destruct (mem a invalid_set) eqn:Ha; [reflexivity|].
  now rewrite Ha.
Qed.

Lemma url_char_idem (a : ascii) : url_char (url_char a) = url_char a.
Proof.
  unfold url_char. destruct (Ascii.eqb_spec a " ") as [->|Hsp]; [reflexivity|].
  unfold sanitize_char. destruct (mem a invalid_set) eqn:Ha; [reflexivity|].
  apply Ascii.eqb_neq in Hsp. now rewrite Hsp, Ha.
Qed.

(** X2.  The sanitized title contains none of the nine invalid characters
    and the url contains neither one of them nor a space.  Resolving the url
    (or the sanitized title) again gives the same url, file name and path:
    the names the converter writes are fixed points of path resolution. *)
Theorem retrieve_file_info_stable (self : t) (title : string) (x : ascii) :
  let meta := fst (retrieve_file_info self title) in
  (mem x invalid_set = true -> mem x (Meta.title meta) = false) /\
  (mem x (" " ++ invalid_set) = true -> mem x (Meta.url meta) = false) /\
  Meta.url (fst (retrieve_file_info self (Meta.url meta))) = Meta.url meta /\
  Meta.url (fst (retrieve_file_info self (Meta.title meta))) = Meta.url meta /\
  Meta.title (fst (retrieve_file_info self (Meta.title meta))) = Meta.title meta /\
  file_path (fst (retrieve_file_info self (Meta.url meta))) = file_path meta.
Proof.
  cbv zeta. rewrite !retrieve_file_info_eq.
  cbn [fst Meta.title Meta.url Meta.filename Meta.directory file_path].
  unfold file_path. cbn [Meta.filename Meta.directory].
  rewrite !url_map, !sanitize_map, !map_chars_compose.
  assert (H1 : map_chars (fun a => url_char (url_char a)) title
               = map_chars url_char title)
    by (apply map_chars_ext, url_char_idem).
  assert (H2 : map_chars (fun a => url_char (sanitize_char a)) title
               = map_chars url_char title).
  { apply map_chars_ext. intros a.
    destruct (Ascii.eqb_spec a " ") as [->|Hsp]; [reflexivity|].
    unfold url_char. rewrite sanitize_char_idem.
    apply Ascii.eqb_neq in Hsp. rewrite Hsp.
    unfold sanitize_char at 1. destruct (mem a invalid_set); [reflexivity|].
    now rewrite Hsp. }
  assert (H3 : map_chars (fun a => sanitize_char (sanitize_char a)) title
               = map_chars sanitize_char title)
    by (apply map_chars_ext, sanitize_char_idem).
  rewrite H1, H2, H3. repeat split.
  - intros Hx. apply mem_map_chars. intros a. now apply sanitize_char_valid.
  - intros Hx. apply mem_map_chars. intros a. now apply url_char_valid.
Qed.

Lemma retrieve_file_info_stable_witness :
  mem "?" (Meta.title (fst (retrieve_file_info sample_converter "Why? A/B: C")))
  = false.
Proof.
  apply (proj1 (retrieve_file_info_stable sample_converter "Why? A/B: C" "?")).
  reflexivity.
Defined.


End Sanitization.

(* ================================================================== *)
(** * The directory list *)
(* ================================================================== *)

Section DirectoryList.

Import PyStr Convert.

Variable pandoc : string -> string -> nat * string * string.
Variable format_exc : exn -> string.
Variable host : Host.

(** C2.  Whatever the title, the sanitized title and the url are the title
    with its characters replaced one by one: wherever the title has a
    slash (or another of the invalid characters) both have an underscore,
    and the url has one for every space as well.  So the url has no slash,
    the directory of the page is the output root, the file name is the
    whole url and the directory list of the converter is left alone.  Hence
    a converter as the constructor builds it still has an empty directory
    list after the conversion loop, whatever the pages, and the rename pass
    changes neither the converter nor the files. *)
Theorem directory_list_stays_empty
    (self : t) (title : string) (w : World) (pages : list Page)
    (filename output format version : string)
    (flatten addmeta indexes skiperrors : bool) :
  (let '(meta, self') := retrieve_file_info self title in
   Meta.title meta = map_chars sanitize_char title /\
   Meta.url meta = map_chars url_char title /\
   (forall i, String.get i title = Some slash ->
              String.get i (Meta.title meta) = Some "_"%char /\
              String.get i (Meta.url meta) = Some "_"%char) /\
   (forall i c, String.get i title = Some c ->
                mem c (" " ++ invalid_set) = false ->
                String.get i (Meta.url meta) = Some c) /\
   contains (Meta.url meta) "/" = false /\
   mem slash (Meta.url meta) = false /\
   fst (locate (Meta.url meta)) = "" /\
   Meta.directory meta = PosixPath.join (Convert.output self) "" /\
   Meta.filename meta = Meta.url meta /\
   directory_list self' = directory_list self) /\
  (let start := set_data_to_convert
                  (init filename output flatten addmeta indexes skiperrors
                        format version) pages in
   let st' := fst (convert_data pandoc format_exc host (start, w)) in
   directory_list (fst st') = [] /\
   rename_files st' = st').
Proof.
  split.
  - rewrite retrieve_file_info_eq. cbn [Meta.url Meta.directory Meta.filename Meta.title].
    pose proof (url_no_slash title) as Hu.
    split; [apply sanitize_map|]. split; [apply url_map|].
    split; [|split].
    { intros i Hget.
      rewrite url_map, sanitize_map, !get_map_chars, Hget. now split. }
    { intros i c Hget Hc. rewrite url_map, get_map_chars, Hget. cbn [option_map].
      f_equal. cbn [append mem] in Hc. apply orb_false_iff in Hc as [Hsp Hinv].
      unfold url_char, sanitize_char. rewrite Hinv.
      destruct (Ascii.eqb_spec c " ") as [->|]; [discriminate Hsp | reflexivity]. }
    repeat split; try exact Hu.
    + rewrite <- contains_char. exact Hu.
    + unfold locate. now rewrite Hu.
  - cbv zeta. unfold convert_data. cbn [fst data_to_convert set_data_to_convert].
    match goal with |- context [convert_pages _ _ _ ?ps ?st] =>
      destruct (convert_pages_directory_list pandoc format_exc host ps st) as (H1 & _);
      destruct (convert_pages pandoc format_exc host ps st) as [[self' w'] r]
    end.
    cbn [fst directory_list set_data_to_convert init] in *.
    split; [exact H1 | now apply rename_files_nil].
Qed.

End DirectoryList.

(* ================================================================== *)
(** * More on the table-balancing pass *)
(* ================================================================== *)

Section BalancedOutput.

Import PyStr Convert.

Lemma balance_step_eq (n : nat) (out : list string) (line : string) :
  balance_step (n, out) line =
  if is_open line then (n + 1, (out ++ ["{|"])%list)
  else if is_close line
       then match n with
            | O => (n, out)
            | S n' => (n', (out ++ ["|}"])%list)
            end
       else (n, (out ++ [line])%list).
Proof.
  unfold balance_step, is_close, is_open.
  destruct (startswith (strip line) "{|") eqn:Ho; [reflexivity|].
  cbn [negb andb].
  destruct (startswith (strip line) "|}") eqn:Hc.
  - destruct n; [reflexivity|]. cbn [Nat.ltb Nat.leb Nat.sub]. now rewrite Nat.sub_0_r.
  - now rewrite (open_is_not_malformed _ Ho).
Qed.

Lemma nesting_app (a b : list string) :
  forall d, nesting d (a ++ b) =
            match nesting d a with
            | Some d' => nesting d' b
            | None => None
            end.
Proof.
  induction a as [|l a IH]; intros d; [reflexivity|].
  cbn [app nesting]. destruct (is_open l); [apply IH|].
  destruct (is_close l); [|apply IH]. destruct d; [reflexivity | apply IH].
Qed.

Lemma nesting_closers (n : nat) : nesting n (repeat "|}" n) = Some 0.
Proof. induction n as [|n IH]; [reflexivity | exact IH]. Qed.

Lemma balance_fold_nesting (lines : list string) :
  forall n out,
    nesting 0 out = Some n ->
    nesting 0 (snd (fold_left balance_step lines (n, out)))
    = Some (fst (fold_left balance_step lines (n, out))).
Proof.
  induction lines as [|l lines IH]; intros n out H; [exact H|].
  cbn [fold_left]. rewrite balance_step_eq.
  destruct (is_open l) eqn:Ho.
  - apply IH. rewrite nesting_app, H. cbn. now rewrite Nat.add_1_r.
  - destruct (is_close l) eqn:Hc.
    + destruct n as [|n]; [now apply IH|].
      apply IH. now rewrite nesting_app, H.
    + apply IH. rewrite nesting_app, H. cbn [nesting]. now rewrite Ho, Hc.
Qed.

(** X3.  Whatever the input, the lines that leave the balancing pass are
    balanced and well nested: reading them from depth zero never meets a
    closing marker with nothing open and ends at depth zero. *)
Theorem balance_lines_balanced (lines : list string) :
  nesting 0 (balance_lines lines) = Some 0.
Proof.
  unfold balance_lines.
  pose proof (balance_fold_nesting lines 0 [] eq_refl) as H.
  destruct (fold_left balance_step lines (0, [])) as [n out].
  cbn [fst snd] in H. rewrite nesting_app, H. apply nesting_closers.
Qed.

(** Lines the pass emits or lets through. *)
Lemma balance_fold_canonical (lines : list string) :
  forall n out,
    Forall (fun l => canonical_open l = l /\ (is_close l = true -> l = "|}")) out ->
    Forall (fun l => canonical_open l = l /\ (is_close l = true -> l = "|}"))
           (snd (fold_left balance_step lines (n, out))).
Proof.
  induction lines as [|l lines IH]; intros n out H; [exact H|].
  cbn [fold_left]. rewrite balance_step_eq.
  destruct (is_open l) eqn:Ho.
  - apply IH. apply Forall_app. split; [exact H|].
    constructor; [split; [reflexivity | discriminate] | constructor].
  - destruct (is_close l) eqn:Hc.
    + destruct n as [|n]; [now apply IH|].
      apply IH. apply Forall_app. split; [exact H|].
      constructor; [split; reflexivity | constructor].
    + apply IH. apply Forall_app. split; [exact H|].
      constructor; [|constructor]. split.
      * unfold canonical_open. now rewrite Ho.
      * congruence.
Qed.

(** On balanced lines in canonical form the loop copies its input. *)
Lemma balance_fold_fixed (lines : list string) :
  forall d d' out,
    Forall (fun l => canonical_open l = l /\ (is_close l = true -> l = "|}")) lines ->
    nesting d lines = Some d' ->
    fold_left balance_step lines (d, out) = (d', (out ++ lines)%list).
Proof.
  induction lines as [|l lines IH]; intros d d' out Hc Hn.
  - cbn in *. inversion Hn. now rewrite app_nil_r.
  - inversion Hc as [|? ? [Hl1 Hl2] Hc']; subst.
    cbn [fold_left]. rewrite balance_step_eq. cbn [nesting] in Hn.
    destruct (is_open l) eqn:Ho.
    + unfold canonical_open in Hl1. rewrite Ho in Hl1. subst l.
      rewrite Nat.add_1_r.
      rewrite (IH (S d) d'); [now rewrite <- app_assoc | exact Hc' | exact Hn].
    + destruct (is_close l) eqn:Hcl.
      * destruct d as [|d]; [discriminate Hn|].
        rewrite (Hl2 eq_refl).
        rewrite (IH d d'); [now rewrite <- app_assoc | exact Hc' | exact Hn].
      * rewrite (IH d d'); [now rewrite <- app_assoc | exact Hc' | exact Hn].
Qed.

(** X4.  The balancing pass is idempotent: its output goes through a
    second pass unchanged. *)
Theorem balance_lines_idempotent (lines : list string) :
  balance_lines (balance_lines lines) = balance_lines lines.
Proof.
  pose proof (balance_lines_balanced lines) as Hb. revert Hb.
  assert (Hc : Forall (fun l => canonical_open l = l /\ (is_close l = true -> l = "|}"))
                      (balance_lines lines)).
  { unfold balance_lines.
    pose proof (balance_fold_canonical lines 0 [] (Forall_nil _)) as H.
    destruct (fold_left balance_step lines (0, [])) as [n out]. cbn [snd] in H.
    apply Forall_app. split; [exact H|].
    clear. induction n; constructor; [split; reflexivity | assumption]. }
  intros Hb. unfold balance_lines at 1.
  rewrite (balance_fold_fixed _ 0 0 [] Hc Hb). cbn [repeat app].
  now rewrite app_nil_r.
Qed.

Lemma balance_fold_content (lines : list string) :
  forall n out,
    filter (fun l => negb (is_close l)) (snd (fold_left balance_step lines (n, out)))
    = (filter (fun l => negb (is_close l)) out
       ++ map canonical_open (filter (fun l => negb (is_close l)) lines))%list.
Proof.
  induction lines as [|l lines IH]; intros n out.
  - cbn. now rewrite app_nil_r.
  - cbn [fold_left filter]. rewrite balance_step_eq.
    destruct (is_open l) eqn:Ho.
    + rewrite IH, filter_app. cbn [filter].
      assert (Hc : is_close l = false) by (unfold is_close; now rewrite Ho).
      rewrite Hc. cbn [negb map]. unfold canonical_open at 2. rewrite Ho.
      change (is_close "{|") with false. cbn [negb].
      now rewrite <- app_assoc.
    + destruct (is_close l) eqn:Hc; cbn [negb].
      * destruct n as [|n]; [apply IH|].
        rewrite IH, filter_app. cbn [filter].
        change (is_close "|}") with true. cbn [negb]. now rewrite app_nil_r.
      * rewrite IH, filter_app. cbn [filter map]. rewrite Hc. cbn [negb].
        unfold canonical_open at 2. rewrite Ho. now rewrite <- app_assoc.
Qed.

(** X5.  The pass adds and removes closing markers only: apart from
    closing lines, the output is the input in the same order, with every
    opening line replaced by the bare opening marker and every other line
    kept as it is. *)
Theorem balance_lines_content (lines : list string) :
  filter (fun l => negb (is_close l)) (balance_lines lines)
  = map canonical_open (filter (fun l => negb (is_close l)) lines).
Proof.
  unfold balance_lines.
  pose proof (balance_fold_content lines 0 []) as H.
  destruct (fold_left balance_step lines (0, [])) as [n out]. cbn [snd] in H.
  rewrite filter_app, H. cbn [filter app].
  replace (filter (fun l => negb (is_close l)) (repeat "|}" n)) with (@nil string).
  - apply app_nil_r.
  - induction n as [|n IHn]; [reflexivity | exact IHn].
Qed.

End BalancedOutput.

(* ================================================================== *)
(** * More on link-path normalisation *)
(* ================================================================== *)

Section NormalForms.

Import PyStr CleanLink.

Lemma join_split (s : string) : join "/" (split s "/") = s.
Proof.
  induction s as [|a s IH]; [reflexivity|].
  rewrite split_char_cons. pose proof (split_nonempty s "/") as Hne.
  destruct (split s "/") as [|seg rest]; [congruence|].
  destruct (Ascii.eqb_spec "/" a) as [<-|_].
  - rewrite join_cons. cbn [append]. now rewrite IH.
  - rewrite <- IH. destruct rest; reflexivity.
Qed.

Lemma no_double_slash_contains (s : string) :
  no_double_slash s = negb (contains s "//").
Proof.
  induction s as [|a s IH]; [reflexivity|].
  cbn [no_double_slash contains]. rewrite IH, negb_orb. f_equal. f_equal.
  change "//" with (String "/" (String "/" "")).
  cbn [startswith]. unfold is_slash. f_equal.
  destruct s as [|b s]; [reflexivity|].
  cbn [starts_slash]. unfold is_slash. now rewrite startswith_char.
Qed.

(** Normalising a path given by its segments is running the stack over
    the segments. *)
Lemma normalize_path_join (segs : list string) :
  segs <> [] -> Forall clean_segment segs ->
  Forall nonempty (removelast (tl segs)) ->
  normalize_path (join "/" segs) = join "/" (fold_left normalize_step segs []).
Proof.
  intros Hne Hc Hmid. unfold normalize_path. rewrite sub_slashes.
  change BACKSLASH with (String (ascii_of_nat 92) "").
  rewrite replace_absent by now apply mem_join_backslash.
  rewrite collapse_id by now apply no_double_join.
  now rewrite split_join.
Qed.

(** X6.  The normalised path never contains a backslash or a doubled
    slash, and none of its segments is a dot or a double dot. *)
Theorem normalize_path_shape (path : string) :
  mem (ascii_of_nat 92) (normalize_path path) = false /\
  contains (normalize_path path) "//" = false /\
  Forall not_dots (split (normalize_path path) "/").
Proof.
  destruct (normalize_path_parts path) as (parts & -> & H1 & H2).
  assert (Hc : Forall clean_segment parts)
    by (eapply Forall_impl; [|exact H1]; cbv beta; tauto).
  assert (Hd : Forall not_dots parts)
    by (eapply Forall_impl; [|exact H1]; cbv beta; tauto).
  split; [now apply mem_join_backslash|]. split.
  - apply negb_true_iff. rewrite <- no_double_slash_contains.
    now apply no_double_join.
  - destruct parts as [|x parts].
    + repeat constructor; discriminate.
    + rewrite split_join by (discriminate || assumption). exact Hd.
Qed.

(** X7.  The fixed points of normalisation are exactly the paths without
    backslash, without doubled slash and without dot segments: such a path
    comes back unchanged, and every other path is changed. *)
Theorem normalize_path_fixed_points (path : string) :
  normalize_path path = path <->
  (mem (ascii_of_nat 92) path = false /\
   contains path "//" = false /\
   Forall not_dots (split path "/")).
Proof.
  split.
  - intros H. rewrite <- H.
    destruct (normalize_path_parts path) as (parts & -> & H1 & H2).
    assert (Hc : Forall clean_segment parts)
      by (eapply Forall_impl; [|exact H1]; cbv beta; tauto).
    assert (Hd : Forall not_dots parts)
      by (eapply Forall_impl; [|exact H1]; cbv beta; tauto).
    split; [now apply mem_join_backslash|]. split.
    + apply negb_true_iff. rewrite <- no_double_slash_contains.
      now apply no_double_join.
    + destruct parts as [|x parts].
      * repeat constructor; discriminate.
      * rewrite split_join by (discriminate || assumption). exact Hd.
  - intros (Hb & Hs & Hd).
    rewrite <- (join_split path) at 1 2.
    apply normalize_path_fixed.
    + pose proof (split_clean path Hb) as Hc.
      clear - Hc Hd. induction Hc; inversion Hd; subst; constructor; auto.
    + apply split_mid_nonempty. rewrite no_double_slash_contains.
      now rewrite Hs.
Qed.

Lemma removelast_app_cons {A} (l : list A) (x : A) (l' : list A) :
  removelast (l ++ x :: l') = (l ++ removelast (x :: l'))%list.
Proof. apply removelast_app. discriminate. Qed.

(** Taking a segment out of a path keeps its inner segments non-empty. *)
Lemma mid_nonempty_remove (pre post : list string) (x : string) :
  Forall nonempty (removelast (tl (pre ++ x :: post))) ->
  Forall nonempty (removelast (tl (pre ++ post))).
Proof.
  destruct pre as [|p pre]; cbn [app tl].
  - intros H. rewrite removelast_tl. now apply Forall_tl.
  - rewrite removelast_app_cons. intros H. apply Forall_app in H as [H1 H2].
    destruct post as [|y post].
    + rewrite app_nil_r. now apply Forall_removelast.
    + rewrite removelast_app_cons. apply Forall_app. split; [exact H1|].
      cbn [removelast] in H2. destruct post; [constructor|].
      now inversion H2.
Qed.

Lemma Forall_remove {A} (P : A -> Prop) (pre post : list A) (x : A) :
  Forall P (pre ++ x :: post) -> Forall P (pre ++ post).
Proof.
  intros H. apply Forall_app in H as [H1 H2]. inversion H2; subst.
  apply Forall_app. now split.
Qed.

Lemma normalize_path_join_or_empty (segs : list string) :
  Forall clean_segment segs -> Forall nonempty (removelast (tl segs)) ->
  normalize_path (join "/" segs) = join "/" (fold_left normalize_step segs []).
Proof.
  intros Hc Hmid. destruct segs as [|y l]; [reflexivity|].
  apply normalize_path_join; [discriminate | exact Hc | exact Hmid].
Qed.

(** X8.  In a path given by its segments (free of slashes and
    backslashes, the inner ones non-empty) a dot segment can be left out:
    the normal form is the same. *)
Theorem normalize_path_dot_neutral (pre post : list string) :
  Forall clean_segment (pre ++ post) ->
  Forall nonempty (removelast (tl (pre ++ "." :: post))) ->
  normalize_path (join "/" (pre ++ "." :: post))
  = normalize_path (join "/" (pre ++ post)).
Proof.
  intros Hc Hmid.
  rewrite (normalize_path_join_or_empty (pre ++ post) Hc)
    by (eapply mid_nonempty_remove; eauto).
  rewrite normalize_path_join_or_empty.
  - now rewrite !fold_left_app.
  - apply Forall_app in Hc as [H1 H2]. apply Forall_app. split; [exact H1|].
    constructor; [split; reflexivity | exact H2].
  - exact Hmid.
Qed.

Lemma normalize_path_dot_neutral_witness :
  normalize_path (join "/" (["docs"; "guide"] ++ "." :: ["intro"]))
  = normalize_path (join "/" (["docs"; "guide"] ++ ["intro"])).
Proof.
  apply (normalize_path_dot_neutral ["docs"; "guide"] ["intro"]).
  - repeat constructor.
  - repeat constructor; discriminate.
Defined.

(** X9.  In such a path an ordinary segment followed by a double-dot
    segment can be left out together with it: the normal form is the
    same. *)
Theorem normalize_path_dotdot_cancels (pre post : list string) (a : string) :
  Forall clean_segment (pre ++ a :: post) -> not_dots a ->
  Forall nonempty (removelast (tl (pre ++ a :: ".." :: post))) ->
  normalize_path (join "/" (pre ++ a :: ".." :: post))
  = normalize_path (join "/" (pre ++ post)).
Proof.
  intros Hc [Ha1 Ha2] Hmid.
  assert (Hcpp : Forall clean_segment (pre ++ post)) by (eapply Forall_remove; eauto).
  assert (Hca : clean_segment a).
  { apply Forall_app in Hc as [_ Hc]. now inversion Hc. }
  rewrite (normalize_path_join_or_empty (pre ++ post) Hcpp)
    by (eapply mid_nonempty_remove; eapply mid_nonempty_remove; eauto).
  rewrite normalize_path_join_or_empty.
  - rewrite !fold_left_app. cbn [fold_left]. f_equal. f_equal.
    unfold normalize_step.
    apply String.eqb_neq in Ha1, Ha2. rewrite Ha1, Ha2. cbn.
    apply removelast_last.
  - apply Forall_app in Hcpp as [H1 H2]. apply Forall_app. split; [exact H1|].
    constructor; [exact Hca|]. constructor; [split; reflexivity | exact H2].
  - exact Hmid.
Qed.

Lemma normalize_path_dotdot_cancels_witness :
  normalize_path (join "/" (["docs"] ++ "old" :: ".." :: ["new"; "page"]))
  = normalize_path (join "/" (["docs"] ++ ["new"; "page"])).
Proof.
  apply (normalize_path_dotdot_cancels ["docs"] ["new"; "page"] "old").
  - repeat constructor.
  - split; discriminate.
  - repeat constructor; discriminate.
Defined.

End NormalForms.

(* ================================================================== *)
(** * More on the link cleaner *)
(* ================================================================== *)

Section WikiLinks.

Import PyStr CleanLink.

Lemma startswith_append (s p q : string) :
  startswith s (p ++ q) = startswith s p && startswith (after_prefix p s) q.
Proof.
  revert s. induction p as [|a p IH]; intros s.
  - cbn [append after_prefix]. now rewrite startswith_nil.
  - destruct s as [|b s]; [reflexivity|].
    cbn [append startswith after_prefix]. rewrite IH. apply andb_assoc.
Qed.

(** The scheme test of [clean_link], without the pattern. *)
Lemma re_http_spec (s : string) :
  re_match re_http s = startswith s "http://" || startswith s "https://".
Proof.
  change "http://" with ("http" ++ "://"). change "https://" with ("http" ++ "s" ++ "://").
  rewrite !startswith_append.
  unfold re_match, re_http, Re.match_at, Re.opt. cbn [Re.seq Re.run].
  rewrite run_lit.
  destruct (startswith s "http"); [|reflexivity]. cbn [andb].
  cbn [Re.run]. rewrite !run_lit.
  destruct (startswith (after_prefix "http" s) "s").
  - destruct (startswith (after_prefix "s" (after_prefix "http" s)) "://");
      cbn [Re.orelse andb orb]; [now rewrite orb_true_r|].
    destruct (startswith (after_prefix "http" s) "://"); reflexivity.
  - cbn [Re.orelse andb orb]. rewrite orb_false_r.
    destruct (startswith (after_prefix "http" s) "://"); reflexivity.
Qed.

(** ** Stripping *)

Lemma rstrip_idem (s : string) : rstrip (rstrip s) = rstrip s.
Proof.
  induction s as [|c s IH]; [reflexivity|].
  cbn [rstrip]. destruct (rstrip s) as [|d r] eqn:E.
  - destruct (isspace c) eqn:Hc; [reflexivity|]. cbn [rstrip]. now rewrite Hc.
  - cbn [rstrip]. cbn [rstrip] in IH. rewrite IH. reflexivity.
Qed.

Lemma rstrip_head (c : ascii) (s : string) :
  isspace c = false -> exists r, rstrip (String c s) = String c r.
Proof.
  intros Hc. cbn [rstrip]. destruct (rstrip s); rewrite ?Hc; eexists; reflexivity.
Qed.

Lemma lstrip_head (s : string) :
  lstrip s = "" \/ exists c r, lstrip s = String c r /\ isspace c = false.
Proof.
  induction s as [|c s IH]; [now left|].
  cbn [lstrip]. destruct (isspace c) eqn:Hc; [exact IH|].
  right. now exists c, s.
Qed.

Lemma strip_idem (s : string) : strip (strip s) = strip s.
Proof.
  unfold strip. destruct (lstrip_head s) as [E | (c & r & E & Hc)]; rewrite E.
  - reflexivity.
  - destruct (rstrip_head c r Hc) as [r' Hr]. rewrite Hr.
    cbn [lstrip]. rewrite Hc, <- Hr. apply rstrip_idem.
Qed.

Lemma rstrip_fixed (s : string) :
  all_chars (fun c => negb (isspace c)) s = true -> rstrip s = s.
Proof.
  induction s as [|c s IH]; intros H; [reflexivity|].
  cbn [all_chars] in H. apply andb_true_iff in H as [Hc Hs].
  apply negb_true_iff in Hc. cbn [rstrip]. rewrite (IH Hs), Hc.
  now destruct s.
Qed.

Lemma rstrip_app_fixed (a b : string) :
  all_chars (fun c => negb (isspace c)) b = true -> b <> "" ->
  rstrip (a ++ b) = a ++ b.
Proof.
  intros Hb Hne. induction a as [|c a IH]; [now apply rstrip_fixed|].
  cbn [append rstrip]. rewrite IH.
  destruct (a ++ b) eqn:E; [|reflexivity].
  destruct a; [cbn in E; congruence | discriminate E].
Qed.

(** ** Links that stay wiki links *)

Lemma normalize_path_no_backslash (path : string) :
  mem (ascii_of_nat 92) (normalize_path path) = false.
Proof.
  destruct (normalize_path_parts path) as (parts & -> & H1 & _).
  apply mem_join_backslash. eapply Forall_impl; [|exact H1]. cbv beta. tauto.
Qed.

(** X10.  A link body that does not start with the http or https scheme
    stays a wiki link: the result is the link target, a pipe and the link
    text between double brackets.  The target has no space and no
    backslash, and with the flatten option no slash either; the text has no
    white space at either end. *)
Theorem clean_link_wiki_shape (flatten : bool) (meta : Meta.t) (body : string) :
  startswith body "http://" = false -> startswith body "https://" = false ->
  exists link text,
    clean_link flatten meta body = "[[" ++ link ++ "|" ++ text ++ "]]" /\
    mem " " link = false /\
    mem (ascii_of_nat 92) link = false /\
    (flatten = true -> mem "/" link = false) /\
    strip text = text.
Proof.
  intros H1 H2. unfold clean_link. rewrite re_http_spec, H1, H2. cbn [orb].
  set (raw := if re_match re_relative body then _ else _).
  destruct (match split_once raw "|" with
            | Some (a, b) => (a, b)
            | None => (raw, raw)
            end) as [link text] eqn:E.
  replace (match split_once raw "|" with
           | Some (a, b) => (a, b)
           | None => (raw, raw)
           end) with (link, text)
    by (rewrite <- E; destruct (split_once raw "|") as [[? ?]|]; reflexivity).
  eexists. eexists. split; [reflexivity|].
  split; [apply mem_replace_char_same; reflexivity|].
  split; [|split].
  - apply mem_replace_char_other; [|reflexivity].
    destruct flatten.
    + apply mem_replace_char_other; [|reflexivity].
      apply normalize_path_no_backslash.
    + apply normalize_path_no_backslash.
  - intros ->. apply mem_replace_char_other; [|reflexivity].
    apply mem_replace_char_same. reflexivity.
  - apply strip_idem.
Qed.

Lemma clean_link_wiki_shape_witness :
  exists link text,
    clean_link true sample_meta "Help/Getting started| first steps "
    = "[[" ++ link ++ "|" ++ text ++ "]]" /\
    mem " " link = false /\
    mem (ascii_of_nat 92) link = false /\
    (true = true -> mem "/" link = false) /\
    strip text = text.
Proof.
  apply (clean_link_wiki_shape true sample_meta
           "Help/Getting started| first steps "); reflexivity.
Defined.

(** ** Relative links *)

(** The relative-path test of [clean_link], without the pattern: dots,
    then a slash. *)
Lemma star_loop_dots (s : string) :
  forall n prev g,
    String.length s <= n ->
    Re.star_loop (Re.run (Re.lit ".")) false
      (fun prev' s' g' =>
         Re.run (Re.lit "/") prev' s' g' (fun _ s'' g'' => Some (s'', g'')))
      n prev s g
    <> None <-> startswith (drop_while is_dot s) "/" = true.
Proof.
  induction s as [|c s IH]; intros n prev g Hn.
  - destruct n; cbn; split; congruence.
  - destruct n as [|n]; [simpl in Hn; lia|].
    cbn [Re.star_loop Re.lit Re.run drop_while]. unfold is_dot.
    destruct (Ascii.eqb "/" c) eqn:Hs.
    + apply Ascii.eqb_eq in Hs. subst c. cbn [Re.orelse Ascii.eqb Bool.eqb].
      rewrite startswith_char, Ascii.eqb_refl. split; [reflexivity | discriminate].
    + cbn [Re.orelse].
      destruct (Ascii.eqb "." c) eqn:Hd.
      * assert (Hlt : Nat.ltb (String.length s) (String.length (String c s)) = true)
          by (apply Nat.ltb_lt; simpl; lia).
        rewrite Hlt. apply IH. simpl in Hn. lia.
      * rewrite startswith_char, Hs. split; [congruence | discriminate].
Qed.

Lemma re_relative_spec (s : string) :
  re_match re_relative s = startswith (drop_while is_dot s) "/".
Proof.
  unfold re_match, re_relative, Re.match_at, Re.lazy_star.
  cbn [Re.seq Re.run].
  pose proof (star_loop_dots s (String.length s) None None (le_n _)) as H.
  destruct (Re.star_loop _ _ _ _ _ _ _) as [res|].
  - symmetry. apply H. discriminate.
  - destruct (startswith (drop_while is_dot s) "/"); [|reflexivity].
    exfalso. now apply (proj2 H).
Qed.

Lemma split_once_absent (c : ascii) (s : string) :
  mem c s = false -> split_once s (String c "") = None.
Proof.
  induction s as [|a s IH]; intros H; [reflexivity|].
  cbn [mem] in H. apply orb_false_iff in H as [Ha Hs].
  cbn [split_once]. now rewrite startswith_char, Ha, (IH Hs).
Qed.

Lemma all_chars_mem (f : ascii -> bool) (s : string) (c : ascii) :
  all_chars f s = true -> f c = false -> mem c s = false.
Proof.
  intros H Hc. induction s as [|a s IH]; [reflexivity|].
  cbn [all_chars] in H. apply andb_true_iff in H as [Ha Hs].
  cbn [mem]. rewrite (IH Hs), orb_false_r.
  destruct (Ascii.eqb_spec c a) as [->|]; [congruence | reflexivity].
Qed.

Lemma all_chars_impl (f g : ascii -> bool) (s : string) :
  (forall c, f c = true -> g c = true) ->
  all_chars f s = true -> all_chars g s = true.
Proof.
  intros Hfg. induction s as [|a s IH]; [reflexivity|].
  cbn [all_chars]. rewrite !andb_true_iff. intros [Ha Hs]. auto.
Qed.

Lemma replace_char_app (c : ascii) (new a b : string) :
  replace (a ++ b) (String c "") new
  = replace a (String c "") new ++ replace b (String c "") new.
Proof.
  induction a as [|x a IH]; [reflexivity|].
  cbn [append]. rewrite !replace_char_cons, IH.
  destruct (Ascii.eqb c x); [now rewrite append_assoc | reflexivity].
Qed.

Lemma collapse_app_noslash (x s : string) :
  mem "/" x = false -> x <> "" ->
  collapse_slashes (x ++ s) = x ++ collapse_slashes s.
Proof.
  intros H Hne. induction x as [|c x IH]; [congruence|].
  cbn [mem] in H. apply orb_false_iff in H as [Hc Hx].
  cbn [append]. rewrite collapse_cons. unfold is_slash at 1. rewrite Hc.
  cbn [andb]. destruct x as [|d x]; [reflexivity|].
  now rewrite IH by (assumption || discriminate).
Qed.

Lemma no_double_slash_noslash (x : string) :
  mem "/" x = false -> no_double_slash x = true.
Proof.
  intros H. rewrite <- (append_nil_r x). now rewrite no_double_app.
Qed.

Lemma starts_slash_noslash (x : string) : mem "/" x = false -> starts_slash x = false.
Proof.
  destruct x as [|c x]; [reflexivity|]. cbn [mem starts_slash]. unfold is_slash.
  intros H. apply orb_false_iff in H as [H _].
  destruct (Ascii.eqb_spec "/" c) as [<-|]; [discriminate H | reflexivity].
Qed.

Lemma collapse_two_slashes (x : string) :
  mem "/" x = false -> collapse_slashes ("//" ++ x) = "/" ++ x.
Proof.
  intros H. change (collapse_slashes ("//" ++ x)) with (collapse_slashes ("/" ++ x)).
  apply collapse_id. cbn [append no_double_slash].
  rewrite (starts_slash_noslash x H), andb_false_r. cbn [negb andb].
  now apply no_double_slash_noslash.
Qed.

(** Squeezing the slashes first does not change the normal form. *)
Lemma normalize_path_collapsed (s : string) :
  mem (ascii_of_nat 92) s = false ->
  normalize_path s = normalize_path (collapse_slashes s).
Proof.
  intros H. unfold normalize_path. rewrite !sub_slashes.
  change BACKSLASH with (String (ascii_of_nat 92) "").
  rewrite !replace_absent by (try apply mem_collapse; exact H).
  now rewrite (collapse_id (collapse_slashes s)) by apply collapse_no_double.
Qed.

Lemma name_no_space (s : string) :
  all_chars name_char s = true -> all_chars (fun c => negb (isspace c)) s = true.
Proof.
  apply all_chars_impl. intros c H. unfold name_char in H.
  now apply andb_true_iff in H as [H _].
Qed.

Lemma name_clean (s : string) : all_chars name_char s = true -> clean_segment s.
Proof. intros H. split; apply (all_chars_mem _ _ _ H); reflexivity. Qed.

Lemma strip_fixed_app (a m b : string) :
  all_chars name_char a = true -> a <> "" ->
  all_chars name_char b = true -> b <> "" ->
  strip (a ++ m ++ b) = a ++ m ++ b.
Proof.
  intros Ha Hane Hb Hbne. unfold strip.
  destruct a as [|c a]; [congruence|].
  cbn [all_chars] in Ha. apply andb_true_iff in Ha as [Hc _].
  unfold name_char in Hc. apply andb_true_iff in Hc as [Hc _].
  apply negb_true_iff in Hc. cbn [append lstrip]. rewrite Hc.
  change (String c (a ++ m ++ b)) with (String c a ++ m ++ b).
  rewrite <- append_assoc. apply rstrip_app_fixed; [now apply name_no_space | exact Hbne].
Qed.

(** The target of a link to the segments [l], after the flatten and the
    space replacements. *)
Lemma link_target_two (flatten : bool) (a b : string) :
  all_chars name_char a = true -> all_chars name_char b = true ->
  replace (if flatten then replace (a ++ "/" ++ b) "/" "_" else a ++ "/" ++ b)
          " " "_"
  = a ++ (if flatten then "_" else "/") ++ b.
Proof.
  intros Ha Hb.
  assert (Hsa : mem " " a = false) by (apply (all_chars_mem _ _ _ Ha); reflexivity).
  assert (Hsb : mem " " b = false) by (apply (all_chars_mem _ _ _ Hb); reflexivity).
  assert (Hla : mem "/" a = false) by (apply (all_chars_mem _ _ _ Ha); reflexivity).
  assert (Hlb : mem "/" b = false) by (apply (all_chars_mem _ _ _ Hb); reflexivity).
  destruct flatten.
  - rewrite !replace_char_app, (replace_absent "/" _ a Hla), (replace_absent "/" _ b Hlb).
    rewrite (replace_absent " " _ a Hsa), (replace_absent " " _ b Hsb).
    reflexivity.
  - rewrite !replace_char_app, (replace_absent " " _ a Hsa), (replace_absent " " _ b Hsb).
    reflexivity.
Qed.

Lemma link_target_one (flatten : bool) (b : string) :
  all_chars name_char b = true ->
  replace (if flatten then replace b "/" "_" else b) " " "_" = b.
Proof.
  intros Hb.
  assert (Hsb : mem " " b = false) by (apply (all_chars_mem _ _ _ Hb); reflexivity).
  assert (Hlb : mem "/" b = false) by (apply (all_chars_mem _ _ _ Hb); reflexivity).
  destruct flatten; rewrite ?(replace_absent "/" _ b Hlb); now apply replace_absent.
Qed.

Lemma normalize_two (a b : string) :
  all_chars name_char a = true -> all_chars name_char b = true ->
  not_dots a -> not_dots b ->
  normalize_path (a ++ "/" ++ b) = a ++ "/" ++ b.
Proof.
  intros Ha Hb Hda Hdb.
  apply (normalize_path_fixed [a; b]).
  - constructor; [split; [now apply name_clean | exact Hda]|].
    constructor; [split; [now apply name_clean | exact Hdb]|]. constructor.
  - constructor.
Qed.

(** X11.  Relative links are resolved against the url of the page.  On a
    page whose url is an ordinary name, a body made of a slash or of a dot
    and a slash before an ordinary name links to that name below the page,
    and a body made of two dots and a slash before the name links to the
    name itself; with the flatten option the slash of the target is an
    underscore.  The link text is not the body but the body behind the url
    and a slash. *)
Theorem clean_link_relative (flatten : bool) (meta : Meta.t) (name : string) :
  let u := Meta.url meta in
  let sep := if flatten then "_" else "/" in
  all_chars name_char u = true -> u <> "" -> not_dots u ->
  all_chars name_char name = true -> name <> "" -> not_dots name ->
  clean_link flatten meta ("/" ++ name)
    = "[[" ++ u ++ sep ++ name ++ "|" ++ u ++ "//" ++ name ++ "]]" /\
  clean_link flatten meta ("./" ++ name)
    = "[[" ++ u ++ sep ++ name ++ "|" ++ u ++ "/./" ++ name ++ "]]" /\
  clean_link flatten meta ("../" ++ name)
    = "[[" ++ name ++ "|" ++ u ++ "/../" ++ name ++ "]]".
Proof.
  cbv zeta. intros Hu Hune Hud Hn Hnne Hnd.
  pose proof (name_clean _ Hu) as Hcu. pose proof (name_clean _ Hn) as Hcn.
  assert (Hpu : mem "|" (Meta.url meta) = false)
    by (apply (all_chars_mem _ _ _ Hu); reflexivity).
  assert (Hpn : mem "|" name = false)
    by (apply (all_chars_mem _ _ _ Hn); reflexivity).
  assert (Hraw : forall mid,
    mem "|" mid = false ->
    forall body, body = mid ++ name ->
    startswith body "http://" = false -> startswith body "https://" = false ->
    startswith (drop_while is_dot body) "/" = true ->
    clean_link flatten meta body
    = "[[" ++ replace (if flatten
                       then replace (normalize_path (Meta.url meta ++ "/" ++ body)) "/" "_"
                       else normalize_path (Meta.url meta ++ "/" ++ body)) " " "_"
      ++ "|" ++ (Meta.url meta ++ "/" ++ body) ++ "]]").
  { intros mid Hmid body -> H1 H2 H3. unfold clean_link.
    rewrite re_http_spec, H1, H2, re_relative_spec, H3. cbn [orb].
    rewrite split_once_absent
      by (rewrite !mem_append, Hpu, Hmid, Hpn; reflexivity).
    replace (Meta.url meta ++ "/" ++ mid ++ name)
      with (Meta.url meta ++ ("/" ++ mid) ++ name)
      by (now rewrite !append_assoc).
    now rewrite (strip_fixed_app _ _ _ Hu Hune Hn Hnne). }
  split; [|split].
  - rewrite (Hraw "/" eq_refl _ eq_refl)
      by (first [reflexivity | exact (startswith_app "/" name)]).
    change (Meta.url meta ++ "/" ++ "/" ++ name)
      with (Meta.url meta ++ "//" ++ name).
    rewrite normalize_path_collapsed
      by (rewrite !mem_append; destruct Hcu as [_ ->], Hcn as [_ ->]; reflexivity).
    rewrite collapse_app_noslash by (apply Hcu || exact Hune).
    rewrite (collapse_two_slashes name) by apply Hcn.
    rewrite (normalize_two _ _ Hu Hn Hud Hnd).
    now rewrite (link_target_two flatten _ _ Hu Hn), !append_assoc.
  - rewrite (Hraw "./" eq_refl _ eq_refl)
      by (first [reflexivity | exact (startswith_app "/" name)]).
    change (Meta.url meta ++ "/" ++ "./" ++ name)
      with (join "/" [Meta.url meta; "."; name]).
    rewrite normalize_path_join;
      [| discriminate
       | constructor; [exact Hcu|]; constructor; [split; reflexivity|];
         constructor; [exact Hcn | constructor]
       | constructor; [discriminate | constructor]].
    cbn [fold_left]. unfold normalize_step.
    destruct Hud as [Hu1 Hu2], Hnd as [Hn1 Hn2].
    apply String.eqb_neq in Hu1, Hu2, Hn1, Hn2.
    rewrite Hu1, Hu2, Hn1, Hn2. cbn [String.eqb Ascii.eqb Bool.eqb app join String.concat].
    rewrite (link_target_two flatten _ _ Hu Hn).
    cbn [append]. now rewrite !append_assoc.
  - rewrite (Hraw "../" eq_refl _ eq_refl)
      by (first [reflexivity | exact (startswith_app "/" name)]).
    change (Meta.url meta ++ "/" ++ "../" ++ name)
      with (join "/" [Meta.url meta; ".."; name]).
    rewrite normalize_path_join;
      [| discriminate
       | constructor; [exact Hcu|]; constructor; [split; reflexivity|];
         constructor; [exact Hcn | constructor]
       | constructor; [discriminate | constructor]].
    cbn [fold_left]. unfold normalize_step.
    destruct Hud as [Hu1 Hu2], Hnd as [Hn1 Hn2].
    apply String.eqb_neq in Hu1, Hu2, Hn1, Hn2.
    rewrite Hu1, Hu2, Hn1, Hn2.
    cbn [String.eqb Ascii.eqb Bool.eqb app removelast join String.concat].
    rewrite (link_target_one flatten _ Hn).
    cbn [append]. now rewrite !append_assoc.
Qed.

Lemma clean_link_relative_witness :
  clean_link true sample_meta ("/" ++ "Setup")
    = "[[" ++ "Main" ++ "_" ++ "Setup" ++ "|" ++ "Main" ++ "//" ++ "Setup" ++ "]]" /\
  clean_link true sample_meta ("./" ++ "Setup")
    = "[[" ++ "Main" ++ "_" ++ "Setup" ++ "|" ++ "Main" ++ "/./" ++ "Setup" ++ "]]" /\
  clean_link true sample_meta ("../" ++ "Setup")
    = "[[" ++ "Setup" ++ "|" ++ "Main" ++ "/../" ++ "Setup" ++ "]]".
Proof.
  apply (clean_link_relative true sample_meta "Setup");
    first [reflexivity | discriminate | split; discriminate].
Defined.

End WikiLinks.

(* ================================================================== *)
(** * Replacements that leave no occurrence behind *)
(* ================================================================== *)

Section ReplaceFacts.

Import PyStr.

Lemma startswith_compatible (u x p : string) :
  startswith (u ++ x) p = true -> compatible u p = true.
Proof.
  revert p. induction u as [|a u IH]; intros p H; [reflexivity|].
  destruct p as [|b p]; [reflexivity|].
  cbn [append startswith] in H. apply andb_true_iff in H as [Hab Hp].
  cbn [compatible]. rewrite Ascii.eqb_sym, Hab. cbn [andb]. now apply IH.
Qed.

Lemma contains_app_clear (new x p : string) :
  suffix_clear new p = true -> contains (new ++ x) p = contains x p.
Proof.
  induction new as [|a new IH]; intros H; [reflexivity|].
  cbn [suffix_clear] in H. apply andb_true_iff in H as [H1 H2].
  apply negb_true_iff in H1.
  change (String a new ++ x) with (String a (new ++ x)).
  cbn [contains]. rewrite (IH H2).
  destruct (startswith (String a (new ++ x)) p) eqn:E; [|reflexivity].
  change (String a (new ++ x)) with (String a new ++ x) in E.
  apply startswith_compatible in E. congruence.
Qed.

(** A prefix read off the result of a replacement scan was there before,
    when the replacement text starts with a character the prefix lacks. *)
Lemma startswith_replace_inv (o n : ascii) (old new q s : string) :
  mem n q = false ->
  startswith (replace s (String o old) (String n new)) q = true ->
  startswith s q = true.
Proof.
  revert s. induction q as [|a q IH]; intros s Hn H; [apply startswith_nil|].
  cbn [mem] in Hn. apply orb_false_iff in Hn as [Hna Hn].
  destruct s as [|b s]; [discriminate H|].
  destruct (startswith (String b s) (String o old)) eqn:E.
  - destruct (startswith_inv _ _ E) as [r Hr]. rewrite Hr, replace_hit in H.
    cbn [append startswith] in H. rewrite Ascii.eqb_sym, Hna in H. discriminate H.
  - rewrite (replace_miss _ _ _ _ _ E) in H. cbn [startswith] in *.
    apply andb_true_iff in H as [Hab H]. rewrite Hab. cbn [andb]. now apply IH.
Qed.

Lemma contains_false_cons (c : ascii) (s p : string) :
  contains (String c s) p = false ->
  startswith (String c s) p = false /\ contains s p = false.
Proof. cbn [contains]. apply orb_false_iff. Qed.

(** After the scan no occurrence of [p] is left, when every occurrence of
    [p] in the text is an occurrence of [old] and the replacement text can
    neither hold nor begin or complete one. *)
Lemma contains_replace_false (o n c : ascii) (old new p : string) :
  suffix_clear (String n new) (String c p) = true -> mem n p = false ->
  forall s,
    (forall a t, s = a ++ t -> startswith t (String c p) = true ->
                 startswith t (String o old) = true) ->
    contains (replace s (String o old) (String n new)) (String c p) = false.
Proof.
  intros Hclear Hn s.
  remember (String.length s) as k eqn:Hk.
  assert (Hle : String.length s <= k) by lia. clear Hk.
  revert s Hle. induction k as [|k IH]; intros s Hle Hocc.
  - destruct s; [reflexivity | simpl in Hle; lia].
  - destruct s as [|b s]; [reflexivity|].
    destruct (startswith (String b s) (String o old)) eqn:E.
    + destruct (startswith_inv _ _ E) as [r Hr]. rewrite Hr in *.
      rewrite replace_hit, (contains_app_clear _ _ _ Hclear). apply IH.
      * rewrite length_append in Hle. simpl in Hle. lia.
      * intros a t -> Ht. apply (Hocc (String o old ++ a) t); [|exact Ht].
        now rewrite append_assoc.
    + rewrite (replace_miss _ _ _ _ _ E). cbn [contains].
      rewrite IH; [| simpl in Hle; lia |].
      * rewrite orb_false_r.
        destruct (startswith (String b (replace s (String o old) (String n new)))
                    (String c p)) eqn:F; [|reflexivity].
        cbn [startswith] in F. apply andb_true_iff in F as [Fc Fp].
        apply startswith_replace_inv in Fp; [|exact Hn].
        assert (Hs : startswith (String b s) (String c p) = true)
          by (cbn [startswith]; now rewrite Fc, Fp).
        rewrite (Hocc "" (String b s) eq_refl Hs) in E. discriminate E.
      * intros a t -> Ht. apply (Hocc (String b a) t); [reflexivity | exact Ht].
Qed.

Lemma replace_removes (o n : ascii) (old new : string) (s : string) :
  suffix_clear (String n new) (String o old) = true -> mem n old = false ->
  contains (replace s (String o old) (String n new)) (String o old) = false.
Proof. intros H1 H2. apply contains_replace_false; auto. Qed.

Lemma contains_suffix_false (a t p : string) :
  contains (a ++ t) p = false -> contains t p = false.
Proof.
  intros H. destruct (contains t p) eqn:E; [|reflexivity].
  now rewrite (contains_app_r a t p E) in H.
Qed.

Lemma contains_false_startswith (t p : string) :
  contains t p = false -> startswith t p = false.
Proof.
  destruct t; cbn [contains]; intros H; now apply orb_false_iff in H as [H _].
Qed.

Lemma replace_keeps_absent (o n c : ascii) (old new p : string) (s : string) :
  suffix_clear (String n new) (String c p) = true -> mem n p = false ->
  contains s (String c p) = false ->
  contains (replace s (String o old) (String n new)) (String c p) = false.
Proof.
  intros H1 H2 Hs. apply contains_replace_false; auto.
  intros a t -> Ht. apply contains_suffix_false, contains_false_startswith in Hs.
  congruence.
Qed.

(** A text without the pattern comes back unchanged. *)
Lemma replace_absent_str (o : ascii) (old new s : string) :
  contains s (String o old) = false -> replace s (String o old) new = s.
Proof.
  induction s as [|b s IH]; intros H; [reflexivity|].
  apply contains_false_cons in H as [H1 H2].
  now rewrite (replace_miss _ _ _ _ _ H1), IH.
Qed.

(** X12.  What [url_fix] returns contains none of the three patterns it
    replaces, so fixing a URL twice is fixing it once; and the URLs it
    leaves as they are, are exactly those that contain none of the three. *)
Theorem url_fix_complete (url : string) :
  contains (PandocFix.url_fix url) "=&" = false /\
  contains (PandocFix.url_fix url) "= " = false /\
  contains (PandocFix.url_fix url) ".&" = false /\
  PandocFix.url_fix (PandocFix.url_fix url) = PandocFix.url_fix url /\
  (PandocFix.url_fix url = url <->
   contains url "=&" = false /\ contains url "= " = false /\
   contains url ".&" = false).
Proof.
  assert (Hnone : forall u,
    contains (PandocFix.url_fix u) "=&" = false /\
    contains (PandocFix.url_fix u) "= " = false /\
    contains (PandocFix.url_fix u) ".&" = false).
  { intros u. unfold PandocFix.url_fix. repeat split.
    - apply replace_keeps_absent; [reflexivity | reflexivity|].
      apply replace_keeps_absent; [reflexivity | reflexivity|].
      apply replace_removes; reflexivity.
    - apply replace_keeps_absent; [reflexivity | reflexivity|].
      apply replace_removes; reflexivity.
    - apply replace_removes; reflexivity. }
  assert (Hfix : forall u,
    contains u "=&" = false -> contains u "= " = false ->
    contains u ".&" = false -> PandocFix.url_fix u = u).
  { intros u H1 H2 H3. unfold PandocFix.url_fix.
    now rewrite (replace_absent_str _ _ _ _ H1), (replace_absent_str _ _ _ _ H2),
      (replace_absent_str _ _ _ _ H3). }
  destruct (Hnone url) as (H1 & H2 & H3).
  repeat split; try assumption.
  - now apply Hfix.
  - rewrite <- H. apply Hnone.
  - rewrite <- H. apply Hnone.
  - rewrite <- H. apply Hnone.
  - intros (? & ? & ?). now apply Hfix.
Qed.

(** X13.  Decoding leaves neither of the two escapes behind, so decoding
    twice is decoding once. *)
Theorem decode_entities_complete (text : string) :
  contains (Convert.decode_entities text) "&lt;" = false /\
  contains (Convert.decode_entities text) "&gt;" = false /\
  Convert.decode_entities (Convert.decode_entities text)
  = Convert.decode_entities text.
Proof.
  assert (H1 : contains (Convert.decode_entities text) "&lt;" = false).
  { rewrite decode_entities_replace.
    apply replace_keeps_absent; [reflexivity | reflexivity|].
    apply replace_removes; reflexivity. }
  assert (H2 : contains (Convert.decode_entities text) "&gt;" = false).
  { rewrite decode_entities_replace. apply replace_removes; reflexivity. }
  repeat split; try assumption.
  rewrite (decode_entities_replace (Convert.decode_entities text)).
  now rewrite (replace_absent_str _ _ _ _ H1), (replace_absent_str _ _ _ _ H2).
Qed.

(** X14.  The gate of the workaround is a comparison of strings, decided
    by the first character unless that is the digit 2: with a version
    string that starts with a character above 2 (a later major version, or
    the name of the program) the step leaves every text as it is, and with
    one that starts with a character below 2 the step always rewrites. *)
Theorem fix_urls_first_character (self : Convert.t) (text : string)
    (c : ascii) (v : string) :
  Convert.pandoc_version self = String c v ->
  (Ascii.ltb "2" c = true -> Convert.fix_urls self text = text) /\
  (Ascii.ltb c "2" = true ->
   Convert.fix_urls self text
   = Re.sub Convert.re_bracket_url (fun m => PandocFix.url_fix (Re.group0 m)) text).
Proof.
  intros Hv. unfold Convert.fix_urls, le, String.leb. rewrite Hv.
  change "2.0.2" with (String "2" ".0.2"). cbn [String.compare].
  unfold Ascii.ltb. rewrite (Ascii.compare_antisym "2" c).
  destruct (Ascii.compare c "2"); cbn [CompOpp]; split; intros H;
    first [reflexivity | discriminate H].
Qed.

Lemma fix_urls_first_character_witness :
  Convert.fix_urls sample_converter "[http://x?a=&b]" = "[http://x?a=&b]".
Proof.
  apply (proj1 (fix_urls_first_character sample_converter "[http://x?a=&b]"
                  "p" "andoc 3.1.2" eq_refl)).
  reflexivity.
Defined.

End ReplaceFacts.

(* ================================================================== *)
(** * Texts that no pattern matches *)
(* ================================================================== *)

Section BlockedPatterns.

Import PyStr Re.

Lemma run_empty_only (r : regex) :
  empty_only r = true ->
  forall prev s g k,
    (forall g', k prev s g' = None) -> run r prev s g k = None.
Proof.
  induction r as [ | p | r1 IH1 r2 IH2 | r1 IH1 r2 IH2 | gr r IH | r IH
                 | | | p | p ]; cbn [empty_only]; intros He prev s g k Hk;
    try discriminate He.
  - apply Hk.
  - apply andb_true_iff in He as [He1 He2]. cbn [run].
    apply IH1; [exact He1|]. intros g'. now apply IH2.
  - apply andb_true_iff in He as [He1 He2]. cbn [run].
    now rewrite IH1, IH2.
  - cbn [run]. apply IH; [exact He|]. intros g'. apply Hk.
  - cbn [run]. destruct prev as [c|]; [destruct (Ascii.eqb c _)|]; auto.
  - cbn [run]. destruct s as [|c s]; [|destruct (Ascii.eqb c _)]; auto.
  - cbn [run]. destruct prev as [c|]; [destruct (p c)|]; auto.
  - cbn [run]. destruct s as [|c s]; [|destruct (p c)]; auto.
Qed.

Lemma run_blocked (r : regex) :
  forall prev a, blocked r prev a = true ->
  forall s g k, run r prev (String a s) g k = None.
Proof.
  induction r as [ | p | r1 IH1 r2 IH2 | r1 IH1 r2 IH2 | gr r IH | r IH
                 | | | p | p ]; cbn [blocked]; intros prev a Hb s g k;
    try discriminate Hb.
  - cbn [run]. apply negb_true_iff in Hb. now rewrite Hb.
  - cbn [run]. apply orb_true_iff in Hb as [Hb|Hb].
    + now apply IH1.
    + apply andb_true_iff in Hb as [He Hb].
      apply run_empty_only; [exact He|]. intros g'. now apply IH2.
  - apply andb_true_iff in Hb as [Hb1 Hb2]. cbn [run].
    now rewrite IH1, IH2.
  - cbn [run]. now apply IH.
  - cbn [run]. unfold line_start in Hb. destruct prev as [c|]; [|discriminate Hb].
    apply negb_true_iff in Hb. now rewrite Hb.
  - cbn [run]. apply negb_true_iff in Hb. now rewrite Hb.
  - cbn [run]. destruct prev as [c|]; [|discriminate Hb]. now rewrite Hb.
  - cbn [run]. now rewrite Hb.
Qed.

Lemma run_at_end (r : regex) :
  forall prev g k,
    (forall p g', k p "" g' = None) -> run r prev "" g k = None.
Proof.
  induction r as [ | p | r1 IH1 r2 IH2 | r1 IH1 r2 IH2 | gr r IH | r IH
                 | | | p | p ]; intros prev g k Hk; cbn [run].
  - apply Hk.
  - reflexivity.
  - apply IH1. intros p g'. now apply IH2.
  - now rewrite IH1, IH2.
  - cbn [String.length star_loop]. rewrite Hk. now destruct gr.
  - apply IH. intros p g'. apply Hk.
  - destruct prev as [c|]; [destruct (Ascii.eqb c _)|]; auto.
  - apply Hk.
  - destruct prev as [c|]; [destruct (p c)|]; auto.
  - apply Hk.
Qed.

Lemma run_must_consume (r : regex) :
  must_consume r = true -> forall prev g k, run r prev "" g k = None.
Proof.
  induction r as [ | p | r1 IH1 r2 IH2 | r1 IH1 r2 IH2 | gr r IH | r IH
                 | | | p | p ]; cbn [must_consume]; intros Hm prev g k;
    try discriminate Hm; cbn [run].
  - reflexivity.
  - apply orb_true_iff in Hm as [Hm|Hm].
    + now apply IH1.
    + apply run_at_end. intros p g'. now apply IH2.
  - apply andb_true_iff in Hm as [Hm1 Hm2]. now rewrite IH1, IH2.
  - now apply IH.
Qed.

(** A substitution whose pattern is blocked everywhere changes nothing. *)
Lemma sub_from_blocked (r : regex) (repl : matched -> string) (s : string) :
  must_consume r = true ->
  forall prev, all_blocked r prev s = true -> sub_from 0 r repl prev s = s.
Proof.
  intros Hm. induction s as [|a s IH]; intros prev H.
  - cbn [sub_from]. unfold match_at. now rewrite run_must_consume.
  - cbn [all_blocked] in H. apply andb_true_iff in H as [Ha Hs].
    cbn [sub_from]. unfold match_at. rewrite (run_blocked r prev a Ha).
    now rewrite IH.
Qed.

Lemma prose_all_blocked (r : regex) (s : string) :
  (forall prev a, prose_char prev a = true -> blocked r prev a = true) ->
  forall prev, prose_from prev s = true -> all_blocked r prev s = true.
Proof.
  intros Hr. induction s as [|a s IH]; intros prev H; [reflexivity|].
  cbn [prose_from] in H. apply andb_true_iff in H as [Ha Hs].
  cbn [all_blocked]. now rewrite (Hr _ _ Ha), IH.
Qed.

Lemma sub_prose (r : regex) (repl : matched -> string) (text : string) :
  must_consume r = true ->
  (forall prev a, prose_char prev a = true -> blocked r prev a = true) ->
  prose text = true -> sub r repl text = text.
Proof.
  intros Hm Hr Hp. unfold sub. apply sub_from_blocked; [exact Hm|].
  now apply prose_all_blocked.
Qed.

(** ** Prose *)

Lemma prose_char_facts (prev : option ascii) (a : ascii) :
  prose_char prev a = true ->
  Ascii.eqb "{" a = false /\ Ascii.eqb "|" a = false /\ Ascii.eqb "<" a = false /\
  Ascii.eqb "[" a = false /\ Ascii.eqb "&" a = false /\
  (line_start prev = true -> mem a "-!" = false).
Proof.
  unfold prose_char, markup_char. intros H.
  apply andb_true_iff in H as [Hm Hl].
  apply negb_true_iff in Hm. apply negb_true_iff in Hl.
  cbn [mem] in Hm. rewrite !orb_false_iff in Hm.
  destruct Hm as (H1 & H2 & H3 & H4 & H5 & _).
  rewrite (Ascii.eqb_sym "{"), (Ascii.eqb_sym "|"), (Ascii.eqb_sym "<"),
    (Ascii.eqb_sym "["), (Ascii.eqb_sym "&").
  repeat split; try assumption.
  intros Hs. rewrite Hs in Hl. exact Hl.
Qed.

Lemma prose_mem (c : ascii) (s : string) :
  markup_char c = true ->
  forall prev, prose_from prev s = true -> mem c s = false.
Proof.
  intros Hc. induction s as [|a s IH]; intros prev H; [reflexivity|].
  cbn [prose_from] in H. apply andb_true_iff in H as [Ha Hs].
  cbn [mem]. rewrite (IH _ Hs), orb_false_r.
  unfold prose_char in Ha. apply andb_true_iff in Ha as [Ha _].
  apply negb_true_iff in Ha.
  destruct (Ascii.eqb_spec c a) as [->|]; [congruence | reflexivity].
Qed.

Lemma startswith_absent (c : ascii) (p s : string) :
  mem c s = false -> startswith s (String c p) = false.
Proof.
  destruct s as [|a s]; [reflexivity|]. cbn [mem startswith].
  intros H. apply orb_false_iff in H as [H _]. now rewrite H.
Qed.

Lemma contains_absent (c : ascii) (p s : string) :
  mem c s = false -> contains s (String c p) = false.
Proof.
  induction s as [|a s IH]; intros H; [reflexivity|].
  cbn [contains]. rewrite (startswith_absent _ _ _ H).
  cbn [mem] in H. apply orb_false_iff in H as [_ H]. now apply IH.
Qed.

Lemma mem_lstrip (c : ascii) (s : string) :
  mem c s = false -> mem c (lstrip s) = false.
Proof.
  induction s as [|a s IH]; intros H; [reflexivity|].
  cbn [lstrip]. destruct (isspace a); [|exact H].
  cbn [mem] in H. apply orb_false_iff in H as [_ H]. now apply IH.
Qed.

Lemma mem_rstrip (c : ascii) (s : string) :
  mem c s = false -> mem c (rstrip s) = false.
Proof.
  induction s as [|a s IH]; intros H; [reflexivity|].
  cbn [mem] in H. apply orb_false_iff in H as [Ha H].
  cbn [rstrip]. specialize (IH H). destruct (rstrip s) as [|b r].
  - destruct (isspace a); [reflexivity|]. cbn [mem]. now rewrite Ha.
  - cbn [mem] in *. now rewrite Ha, IH.
Qed.

Lemma mem_strip (c : ascii) (s : string) :
  mem c s = false -> mem c (strip s) = false.
Proof. intros H. unfold strip. now apply mem_rstrip, mem_lstrip. Qed.

Lemma split_mem (c d : ascii) (s : string) :
  mem c s = false ->
  Forall (fun l => mem c l = false) (split s (String d "")).
Proof.
  induction s as [|a s IH]; intros H.
  - repeat constructor.
  - cbn [mem] in H. apply orb_false_iff in H as [Ha H]. specialize (IH H).
    rewrite split_char_cons. destruct (Ascii.eqb d a).
    + constructor; [reflexivity | exact IH].
    + destruct (split s (String d "")) as [|seg rest].
      * repeat constructor. cbn [mem]. now rewrite Ha.
      * inversion IH; subst. constructor; [|assumption].
        cbn [mem]. now rewrite Ha.
Qed.

Lemma join_split_char (d : ascii) (s : string) :
  join (String d "") (split s (String d "")) = s.
Proof.
  induction s as [|a s IH]; [reflexivity|].
  rewrite split_char_cons. pose proof (split_nonempty s d) as Hne.
  destruct (split s (String d "")) as [|seg rest]; [congruence|].
  destruct (Ascii.eqb_spec d a) as [<-|_].
  - change (join (String d "") ("" :: seg :: rest))
      with (String d (join (String d "") (seg :: rest))).
    now rewrite IH.
  - rewrite <- IH. destruct rest; reflexivity.
Qed.

Ltac prose_blocked :=
  let prev := fresh "prev" in
  let a := fresh "a" in
  let H := fresh "H" in
  let E1 := fresh "E" in let E2 := fresh "E" in let E3 := fresh "E" in
  let E4 := fresh "E" in let E5 := fresh "E" in let E6 := fresh "E" in
  let Hls := fresh "Hls" in
  intros prev a H;
  destruct (prose_char_facts prev a H) as (E1 & E2 & E3 & E4 & E5 & E6);
  cbv [Convert.table_attribute Convert.re_bracket_url Convert.re_wiki_link
       seq lit plus star opt lazy_star lazy_plus ws oneof noneof
       blocked empty_only andb orb];
  rewrite ?E1, ?E2, ?E3, ?E4, ?E5;
  cbn [negb andb orb];
  first [ reflexivity
        | destruct (line_start prev) eqn:Hls;
          [ rewrite (E6 eq_refl) | ]; reflexivity
        | match goal with
          | |- (if ?b then true else true) = true => destruct b; reflexivity
          end ].

Lemma decode_entities_prose (text : string) :
  prose text = true -> Convert.decode_entities text = text.
Proof.
  intros Hp. unfold Convert.decode_entities, Convert.const.
  rewrite (sub_prose _ _ text); [|reflexivity|prose_blocked|exact Hp].
  rewrite (sub_prose _ _ text); [|reflexivity|prose_blocked|exact Hp].
  reflexivity.
Qed.

Lemma clean_tables_and_braces_prose (text : string) :
  prose text = true -> Convert.clean_tables_and_braces text = text.
Proof.
  intros Hp. unfold Convert.clean_tables_and_braces.
  do 11 (rewrite (sub_prose _ _ text); [|reflexivity|prose_blocked|exact Hp]).
  reflexivity.
Qed.

Lemma clean_table_syntax_prose (text : string) :
  prose text = true -> Convert.clean_table_syntax text = text.
Proof.
  intros Hp. unfold Convert.clean_table_syntax. cbv zeta.
  do 12 (rewrite (sub_prose _ _ text); [|reflexivity|prose_blocked|exact Hp]).
  unfold Convert.convert_tables_to_markdown.
  rewrite (sub_prose _ _ text); [|reflexivity|prose_blocked|exact Hp].
  reflexivity.
Qed.

Lemma balance_tables_prose (text : string) :
  prose text = true -> Convert.balance_tables text = text.
Proof.
  intros Hp. unfold Convert.balance_tables, Convert.balance_lines.
  assert (Hplain : Forall plain_line (split text LF)).
  { pose proof (split_mem "{" (ascii_of_nat 10) text
                  (prose_mem "{" text eq_refl None Hp)) as H1.
    pose proof (split_mem "|" (ascii_of_nat 10) text
                  (prose_mem "|" text eq_refl None Hp)) as H2.
    change (String (ascii_of_nat 10) "") with LF in H1, H2.
    induction H1 as [|l ls Hl _ IH]; [constructor|].
    inversion H2; subst. constructor; [|now apply IH].
    split; apply startswith_absent, mem_strip; assumption. }
  rewrite (balance_fold_plain _ 0 [] Hplain). cbn [repeat app].
  rewrite app_nil_r. apply join_split_char.
Qed.

Lemma fix_urls_prose (self : Convert.t) (text : string) :
  prose text = true -> Convert.fix_urls self text = text.
Proof.
  intros Hp. unfold Convert.fix_urls.
  destruct (le (Convert.pandoc_version self) "2.0.2"); [|reflexivity].
  rewrite (sub_prose _ _ text); [|reflexivity|prose_blocked|exact Hp].
  reflexivity.
Qed.

Lemma clean_links_prose (self : Convert.t) (meta : Meta.t) (text : string) :
  prose text = true -> Convert.clean_links self meta text = text.
Proof.
  intros Hp. unfold Convert.clean_links.
  rewrite (sub_prose _ _ text); [|reflexivity|prose_blocked|exact Hp].
  reflexivity.
Qed.

Lemma detect_template_prose (text : string) :
  prose text = true -> Convert.detect_template text = false.
Proof.
  intros Hp. unfold Convert.detect_template.
  now rewrite (contains_absent "<" _ text (prose_mem "<" text eq_refl None Hp)).
Qed.

(** X15.  Prose goes through the normaliser untouched: a text without a
    brace, a pipe, an opening angle or square bracket or an ampersand, none
    of whose lines starts with a hyphen or an exclamation mark, is not a
    template, and none of the rewrites of [clean_text] changes it, whatever
    the options, the pandoc version and the page. *)
Theorem clean_text_prose (self : Convert.t) (text : string) (meta : Meta.t) :
  prose text = true -> Convert.clean_text self text meta = (text, false).
Proof.
  intros Hp. unfold Convert.clean_text.
  rewrite (decode_entities_prose text Hp), (detect_template_prose text Hp).
  rewrite (clean_tables_and_braces_prose text Hp), (balance_tables_prose text Hp).
  rewrite (clean_table_syntax_prose text Hp), (fix_urls_prose self text Hp).
  now rewrite (clean_links_prose self meta text Hp).
Qed.

Lemma clean_text_prose_witness :
  Convert.clean_text sample_converter
    ("Some text, with a well-known fact." ++ LF ++ "And a second line!")
    sample_meta
  = ("Some text, with a well-known fact." ++ LF ++ "And a second line!", false).
Proof.
  apply (clean_text_prose sample_converter
           ("Some text, with a well-known fact." ++ LF ++ "And a second line!")
           sample_meta).
  reflexivity.
Defined.

End BlockedPatterns.

(* ================================================================== *)
(** * More on the conversion loop *)
(* ================================================================== *)

Section LoopFacts.

Import PyStr Convert.

Variable pandoc : string -> string -> nat * string * string.
Variable format_exc : exn -> string.
Variable host : Host.

Lemma same_fs_refl (w : World) : same_fs w w.
Proof. split; reflexivity. Qed.

Lemma same_fs_print (line : string) (w1 w2 : World) :
  same_fs w1 w2 -> same_fs (print line w1) w2.
Proof. intros [H1 H2]. split; assumption. Qed.

Lemma same_fs_print_r (line : string) (w1 w2 : World) :
  same_fs w1 w2 -> same_fs w1 (print line w2).
Proof. intros [H1 H2]. split; assumption. Qed.

Lemma create_directory_keeps (d : string) (w : World) :
  files (fst (create_directory host d w)) = files w /\
  stdout (fst (create_directory host d w)) = stdout w.
Proof.
  unfold create_directory. destruct (_ && _); [|now split].
  destruct (makedirs_error host d); now split.
Qed.

Lemma same_fs_create (d : string) (w1 w2 : World) :
  same_fs w1 w2 ->
  same_fs (fst (create_directory host d w1)) (fst (create_directory host d w2)) /\
  snd (create_directory host d w1) = snd (create_directory host d w2).
Proof.
  intros [H1 H2]. unfold create_directory, path_exists. rewrite H1, H2.
  destruct (negb (String.eqb d "") && _); [|now repeat split].
  destruct (makedirs_error host d); cbn [fst snd]; split; try reflexivity;
    split; cbn [makedirs files dirs]; now rewrite ?H1, ?H2.
Qed.

Lemma same_fs_save (meta : Meta.t) (text : string) (w1 w2 : World) :
  same_fs w1 w2 ->
  same_fs (fst (save_file host meta text w1)) (fst (save_file host meta text w2)) /\
  snd (save_file host meta text w1) = snd (save_file host meta text w2).
Proof.
  intros Hfs. unfold save_file.
  destruct (same_fs_create (Meta.directory meta) w1 w2 Hfs) as [[H1 H2] He].
  destruct (create_directory host (Meta.directory meta) w1) as [v1 e1].
  destruct (create_directory host (Meta.directory meta) w2) as [v2 e2].
  cbn [fst snd] in *. subst e2.
  destruct e1 as [e|]; [now repeat split|].
  destruct (open_error host (file_path meta)); [now repeat split|].
  destruct (encode_error host text); cbn [fst snd]; split; try reflexivity;
    split; cbn [print write_file files dirs]; now rewrite ?H1, ?H2.
Qed.

(** What the handler of [convert_data] prints changes no file. *)
Ltac same_fs_printed :=
  repeat apply same_fs_print; repeat apply same_fs_print_r.

(** What a page does to the converter and to the file system, and whether
    it raises, does not depend on what was printed before. *)
Lemma convert_page_same_fs (page : Page) (self : t) (w1 w2 : World) :
  same_fs w1 w2 ->
  let r1 := convert_page pandoc format_exc host page (self, w1) in
  let r2 := convert_page pandoc format_exc host page (self, w2) in
  fst (fst r1) = fst (fst r2) /\ same_fs (snd (fst r1)) (snd (fst r2)) /\
  snd r1 = snd r2.
Proof.
  intros Hfs. cbv zeta. unfold convert_page.
  destruct (page_title page) as [title|];
    [|repeat split; cbn; apply Hfs].
  destruct (page_text page) as [text|];
    [|repeat split; cbn; apply Hfs].
  destruct (retrieve_file_info self title) as [meta self'].
  destruct (clean_text self' text meta) as [cleaned is_template].
  assert (Hsaved : forall out v1 v2, same_fs v1 v2 ->
    let finish v :=
      match save_file host meta out v with
      | (w, None) => ((set_counter self' (counter self' + 1), w), None)
      | (w, Some e) =>
          let w := print ("Error converting " ++ Meta.title meta ++ ":") w in
          let w := print (format_exc e) w in
          if negb (skiperrors self')
          then ((self', w), Some e)
          else ((self', print ("Skipping " ++ Meta.title meta ++ " due to error") w),
                None)
      end in
    fst (fst (finish v1)) = fst (fst (finish v2)) /\
    same_fs (snd (fst (finish v1))) (snd (fst (finish v2))) /\
    snd (finish v1) = snd (finish v2)).
  { intros out v1 v2 Hv. cbv zeta.
    destruct (same_fs_save meta out v1 v2 Hv) as [Hw He].
    destruct (save_file host meta out v1) as [u1 e1].
    destruct (save_file host meta out v2) as [u2 e2].
    cbn [fst snd] in *. subst e2.
    destruct e1 as [e|];
      [|cbn [fst snd]; split; [reflexivity|]; split; [exact Hw | reflexivity]].
    destruct (negb (skiperrors self')); cbn [fst snd];
      (split; [reflexivity|]; split; [|reflexivity]); same_fs_printed; exact Hw. }
  destruct is_template.
  - unfold convert_template_to_markdown. cbv zeta.
    apply Hsaved. same_fs_printed. exact Hfs.
  - unfold run_pandoc. destruct (pandoc (format self') cleaned) as [[rc out] err].
    destruct (negb (Nat.eqb rc 0)).
    + destruct (negb (skiperrors self')); cbn [fst snd];
        (split; [reflexivity|]; split; [|reflexivity]);
        same_fs_printed; exact Hfs.
    + apply Hsaved. exact Hfs.
Qed.

Lemma convert_pages_same_fs (pages : list Page) :
  forall self w1 w2,
    same_fs w1 w2 ->
    let r1 := convert_pages pandoc format_exc host pages (self, w1) in
    let r2 := convert_pages pandoc format_exc host pages (self, w2) in
    fst (fst r1) = fst (fst r2) /\ same_fs (snd (fst r1)) (snd (fst r2)) /\
    snd r1 = snd r2.
Proof.
  induction pages as [|p pages IH]; intros self w1 w2 Hfs; cbv zeta.
  - cbn. repeat split; apply Hfs.
  - cbn [convert_pages].
    destruct (convert_page_same_fs p self w1 w2 Hfs) as (Hs & Hw & He).
    destruct (convert_page pandoc format_exc host p (self, w1)) as [[s1 v1] e1].
    destruct (convert_page pandoc format_exc host p (self, w2)) as [[s2 v2] e2].
    cbn [fst snd] in *. subst s2 e2.
    destruct e1 as [e|]; [repeat split; apply Hw|].
    now apply IH.
Qed.

Lemma convert_page_incomplete (page : Page) (self : t) (w : World) :
  complete page = false ->
  exists line,
    convert_page pandoc format_exc host page (self, w) = ((self, print line w), None).
Proof.
  unfold complete, convert_page. intros H.
  destruct (page_title page) as [title|]; [|eexists; reflexivity].
  destruct (page_text page) as [text|]; [discriminate H | eexists; reflexivity].
Qed.

(** X16.  Pages without a title or without a text are passed over: the
    converter (so the counter), the files and directories and the exception
    the loop ends with are those of the loop over the pages that have
    both.  Only the warnings printed tell the two runs apart. *)
Theorem convert_pages_skips_incomplete (pages : list Page) (self : t) (w : World) :
  let r1 := convert_pages pandoc format_exc host pages (self, w) in
  let r2 := convert_pages pandoc format_exc host (filter complete pages) (self, w) in
  fst (fst r1) = fst (fst r2) /\
  files (snd (fst r1)) = files (snd (fst r2)) /\
  dirs (snd (fst r1)) = dirs (snd (fst r2)) /\
  snd r1 = snd r2.
Proof.
  cbv zeta.
  enough (H : forall w1 w2, same_fs w1 w2 ->
    fst (fst (convert_pages pandoc format_exc host pages (self, w1)))
    = fst (fst (convert_pages pandoc format_exc host (filter complete pages) (self, w2))) /\
    same_fs (snd (fst (convert_pages pandoc format_exc host pages (self, w1))))
            (snd (fst (convert_pages pandoc format_exc host (filter complete pages)
                         (self, w2)))) /\
    snd (convert_pages pandoc format_exc host pages (self, w1))
    = snd (convert_pages pandoc format_exc host (filter complete pages) (self, w2))).
  { destruct (H w w (same_fs_refl w)) as (H1 & [H2 H3] & H4). auto. }
  revert self. induction pages as [|p pages IH]; intros self w1 w2 Hfs.
  - cbn. repeat split; apply Hfs.
  - cbn [filter]. destruct (complete p) eqn:Hc.
    + cbn [convert_pages].
      destruct (convert_page_same_fs p self w1 w2 Hfs) as (Hs & Hw & He).
      destruct (convert_page pandoc format_exc host p (self, w1)) as [[s1 v1] e1].
      destruct (convert_page pandoc format_exc host p (self, w2)) as [[s2 v2] e2].
      cbn [fst snd] in *. subst s2 e2.
      destruct e1 as [e|]; [repeat split; apply Hw|].
      now apply IH.
    + cbn [convert_pages].
      destruct (convert_page_incomplete p self w1 Hc) as [line ->].
      apply IH. now apply same_fs_print.
Qed.

Lemma read_write_same (path text : string) (w : World) :
  read_file path (write_file path text w) = Some text.
Proof. unfold read_file, write_file. cbn. now rewrite String.eqb_refl. Qed.

Lemma find_filter_other (path other : string) (l : list (string * string)) :
  path <> other ->
  find (fun f => String.eqb other (fst f))
       (filter (fun f => negb (String.eqb path (fst f))) l)
  = find (fun f => String.eqb other (fst f)) l.
Proof.
  intros Hne. induction l as [|[p t] l IH]; [reflexivity|].
  cbn [filter find fst]. destruct (String.eqb_spec path p) as [<-|Hp]; cbn [negb].
  - destruct (String.eqb_spec other path) as [->|]; [congruence | exact IH].
  - cbn [find fst]. now rewrite IH.
Qed.

Lemma read_write_other (path other text : string) (w : World) :
  path <> other -> read_file other (write_file path text w) = read_file other w.
Proof.
  intros Hne. unfold read_file, write_file. cbn [files find fst].
  destruct (String.eqb_spec other path) as [->|_]; [congruence|].
  now rewrite find_filter_other.
Qed.

(** A save that the host lets through. *)
Lemma save_file_ok (meta : Meta.t) (text : string) (w : World) :
  snd (create_directory host (Meta.directory meta) w) = None ->
  open_error host (file_path meta) = None ->
  encode_error host text = None ->
  save_file host meta text w
  = (print ("Converted: " ++ file_path meta)
       (write_file (file_path meta) text
          (fst (create_directory host (Meta.directory meta) w))), None).
Proof.
  intros Hdir Hopen Henc. unfold save_file.
  destruct (create_directory host (Meta.directory meta) w) as [v [e|]];
    [discriminate Hdir|].
  now rewrite Hopen, Henc.
Qed.

Lemma read_save (meta : Meta.t) (text other : string) (w : World) :
  let saved :=
    print ("Converted: " ++ file_path meta)
      (write_file (file_path meta) text
         (fst (create_directory host (Meta.directory meta) w))) in
  read_file (file_path meta) saved = Some text /\
  (file_path meta <> other -> read_file other saved = read_file other w).
Proof.
  cbv zeta. split.
  - unfold read_file at 1. cbn [print files]. apply read_write_same.
  - intros Hne. unfold read_file at 1. cbn [print files].
    fold (read_file other (write_file (file_path meta) text
                             (fst (create_directory host (Meta.directory meta) w)))).
    rewrite read_write_other by exact Hne.
    unfold read_file. now rewrite (proj1 (create_directory_keeps _ w)).
Qed.

(** X17.  A page that is not a template and on whose cleaned text pandoc
    exits with status zero, on a host that lets the directory of the page
    be made (or has it already), lets the file be opened and can encode the
    text: no exception, the counter goes up by one, the file of the page
    holds the metadata prefix followed by what pandoc wrote to its standard
    output, every other file is as before, and the one line printed names
    the file. *)
Theorem convert_page_success (self : t) (w : World) (title text out err : string) :
  let page := {| page_title := Some title; page_text := Some text |} in
  let meta := fst (retrieve_file_info self title) in
  let cleaned := clean_text self text meta in
  let r := convert_page pandoc format_exc host page (self, w) in
  snd cleaned = false ->
  pandoc (format self) (fst cleaned) = (0, out, err) ->
  snd (create_directory host (Meta.directory meta) w) = None ->
  open_error host (file_path meta) = None ->
  encode_error host (get_metadata self meta ++ out) = None ->
  snd r = None /\
  fst (fst r) = set_counter self (counter self + 1) /\
  read_file (file_path meta) (snd (fst r)) = Some (get_metadata self meta ++ out) /\
  (forall other, file_path meta <> other ->
                 read_file other (snd (fst r)) = read_file other w) /\
  stdout (snd (fst r))
  = (stdout w ++ [("Converted: " ++ file_path meta)%string])%list.
Proof.
  cbv zeta. intros Htmpl Hpandoc Hdir Hopen Henc.
  unfold convert_page. cbn [page_title page_text].
  rewrite retrieve_file_info_eq in *. cbn [fst] in *.
  destruct (clean_text self text _) as [cleaned is_template].
  cbn [fst snd] in *. subst is_template.
  unfold run_pandoc. rewrite Hpandoc. cbn [Nat.eqb negb].
  rewrite (save_file_ok _ _ _ Hdir Hopen Henc). cbn [fst snd].
  repeat split.
  - exact (proj1 (read_save _ _ "" _)).
  - intros other Hne. exact (proj2 (read_save _ _ other _) Hne).
  - cbn [print stdout write_file].
    now rewrite (proj2 (create_directory_keeps _ w)).
Qed.

(** X24.  A page that is not a template and on whose cleaned text pandoc
    exits with status zero, but whose file the host refuses to open (a name
    too long, say): the error is handled like one of pandoc.  No file is
    written, the counter stays as it is and the error is printed; without
    skiperrors the error leaves the loop, with skiperrors the page is
    skipped. *)
Theorem convert_page_save_refused (self : t) (w : World)
    (title text out err msg : string) :
  let page := {| page_title := Some title; page_text := Some text |} in
  let meta := fst (retrieve_file_info self title) in
  let cleaned := clean_text self text meta in
  let r := convert_page pandoc format_exc host page (self, w) in
  snd cleaned = false ->
  pandoc (format self) (fst cleaned) = (0, out, err) ->
  snd (create_directory host (Meta.directory meta) w) = None ->
  open_error host (file_path meta) = Some msg ->
  fst (fst r) = self /\
  snd r = (if skiperrors self then None else Some (OSError msg)) /\
  files (snd (fst r)) = files w /\
  read_file (file_path meta) (snd (fst r)) = read_file (file_path meta) w /\
  stdout (snd (fst r))
  = (stdout w
     ++ [("Error converting " ++ Meta.title meta ++ ":")%string;
         format_exc (OSError msg)]
     ++ (if skiperrors self
         then [("Skipping " ++ Meta.title meta ++ " due to error")%string]
         else []))%list.
Proof.
  cbv zeta. intros Htmpl Hpandoc Hdir Hopen.
  unfold convert_page. cbn [page_title page_text].
  rewrite retrieve_file_info_eq in *. cbn [fst] in *.
  destruct (clean_text self text _) as [cleaned is_template].
  cbn [fst snd] in *. subst is_template.
  unfold run_pandoc. rewrite Hpandoc. cbn [Nat.eqb negb].
  unfold save_file.
  destruct (create_directory_keeps
              (PosixPath.join (output self) "") w) as [Hfiles Hout].
  destruct (create_directory host _ w) as [v [e|]]; [discriminate Hdir|].
  cbn [fst] in Hfiles, Hout. rewrite Hopen.
  assert (Hread : forall path u, files u = files w ->
                                 read_file path u = read_file path w)
    by (intros path u Hu; unfold read_file; now rewrite Hu).
  destruct (skiperrors self); cbn [negb fst snd print files stdout];
    repeat split; try exact Hfiles;
    try (apply Hread; exact Hfiles);
    rewrite Hout, <- ?app_assoc; reflexivity.
Qed.

Lemma clean_text_template_raw (self : t) (text : string) (meta : Meta.t) :
  contains text "<noinclude>" = true -> contains text "{{" = true ->
  contains text "}}" = true -> snd (clean_text self text meta) = true.
Proof.
  intros H1 H2 H3. unfold clean_text. cbn [snd]. unfold detect_template.
  now rewrite !contains_decode by (reflexivity || assumption).
Qed.

(** X18.  A page whose text holds the noinclude tag and both double braces
    is rendered without pandoc: the result of its conversion is the same
    whatever the pandoc executable does.  On a host that lets the file of
    the page be saved, it does not raise, the counter goes up by one and
    the file holds the metadata prefix followed by the rendering of the
    template. *)
Theorem convert_page_template (self : t) (w : World) (title text : string)
    (pandoc' : string -> string -> nat * string * string) :
  let page := {| page_title := Some title; page_text := Some text |} in
  let meta := fst (retrieve_file_info self title) in
  let rendered := fst (convert_template_to_markdown
                         (fst (clean_text self text meta)) w) in
  let r := convert_page pandoc format_exc host page (self, w) in
  contains text "<noinclude>" = true -> contains text "{{" = true ->
  contains text "}}" = true ->
  r = convert_page pandoc' format_exc host page (self, w) /\
  (snd (create_directory host (Meta.directory meta) w) = None ->
   open_error host (file_path meta) = None ->
   encode_error host (get_metadata self meta ++ rendered) = None ->
   snd r = None /\
   fst (fst r) = set_counter self (counter self + 1) /\
   read_file (file_path meta) (snd (fst r))
   = Some (get_metadata self meta ++ rendered)).
Proof.
  cbv zeta. intros H1 H2 H3. unfold convert_page. cbn [page_title page_text].
  rewrite retrieve_file_info_eq. cbn [fst].
  pose proof (clean_text_template_raw self text
                {| Meta.directory := PosixPath.join (output self) "";
                   Meta.filename := replace (sanitize title) " " "_";
                   Meta.title := sanitize title;
                   Meta.url := replace (sanitize title) " " "_" |} H1 H2 H3) as Ht.
  destruct (clean_text self text _) as [cleaned is_template].
  cbn [fst snd] in *. subst is_template.
  split; [reflexivity|].
  intros Hdir Hopen Henc.
  unfold convert_template_to_markdown in *. cbv zeta in *. cbn [fst snd] in *.
  match goal with |- context [save_file host ?m ?t ?v] =>
    assert (Hdir' : snd (create_directory host (Meta.directory m) v) = None);
    [|rewrite (save_file_ok m t v Hdir' Hopen Henc)]
  end.
  { rewrite <- Hdir. symmetry. apply same_fs_create.
    same_fs_printed. apply same_fs_refl. }
  cbn [fst snd]. repeat split.
  exact (proj1 (read_save _ _ "" _)).
Qed.

Lemma convert_page_skip_no_raise (page : Page) (self : t) (w : World) :
  skiperrors self = true ->
  snd (convert_page pandoc format_exc host page (self, w)) = None.
Proof.
  intros Hskip. unfold convert_page.
  destruct (page_title page) as [title|]; [|reflexivity].
  destruct (page_text page) as [text|]; [|reflexivity].
  rewrite retrieve_file_info_eq.
  destruct (clean_text self text _) as [cleaned is_template].
  destruct is_template.
  - destruct (convert_template_to_markdown cleaned w) as [converted w1].
    destruct (save_file host _ _ w1) as [w2 [e|]]; [|reflexivity].
    now rewrite Hskip.
  - unfold run_pandoc. destruct (pandoc (format self) cleaned) as [[rc out] err].
    destruct (negb (Nat.eqb rc 0)); [now rewrite Hskip|].
    destruct (save_file host _ _ w) as [w2 [e|]]; [|reflexivity].
    now rewrite Hskip.
Qed.

(** X19.  With skiperrors the conversion loop never raises, whatever the
    pages, whatever pandoc does and whatever the host refuses; a run then
    ends with an exception only when the output directory cannot be made or
    the dump holds no page at all. *)
Theorem skiperrors_never_raises (pages : list Page) (tags : string)
    (self : t) (w : World) :
  skiperrors self = true ->
  snd (convert_pages pandoc format_exc host pages (self, w)) = None /\
  (snd (run pandoc format_exc host pages tags (self, w)) = None <->
   snd (create_directory host (output self) w) = None /\ pages <> []).
Proof.
  intros Hskip.
  assert (Hloop : forall ps s v, skiperrors s = true ->
            snd (convert_pages pandoc format_exc host ps (s, v)) = None).
  { induction ps as [|p ps IH]; intros s v Hs; [reflexivity|].
    cbn [convert_pages].
    pose proof (convert_page_skip_no_raise p s v Hs) as Hp.
    pose proof (convert_page_self pandoc format_exc host p s v) as Hself.
    cbv zeta in Hself.
    destruct (convert_page pandoc format_exc host p (s, v)) as [[s' v'] e].
    cbn [fst snd] in *. subst e. apply IH.
    destruct Hself as [-> | ->]; exact Hs. }
  split; [now apply Hloop|].
  unfold run.
  destruct (create_directory host (output self) w) as [w1 [e1|]]; cbn [snd].
  { split; [discriminate | intros [H _]; discriminate H]. }
  destruct pages as [|p ps].
  - cbn. split; [discriminate | intros [_ H]; congruence].
  - unfold convert_data. cbn [fst data_to_convert set_data_to_convert].
    match goal with |- context [convert_pages _ _ _ ?l ?st] =>
      pose proof (Hloop l (fst st) (snd st) Hskip) as Hn;
      cbn [fst snd] in Hn;
      destruct (convert_pages pandoc format_exc host l st) as [[s' v'] e]
    end.
    cbn [snd] in Hn. subst e.
    destruct (rename_files (s', v')) as [s'' v''].
    cbn. split; [intros _; split; [reflexivity | discriminate] | reflexivity].
Qed.

(** X20.  The counter never goes down and goes up by at most one for every
    page that has a title and a text. *)
Theorem counter_bounds (pages : list Page) (self : t) (w : World) :
  let self' := fst (fst (convert_pages pandoc format_exc host pages (self, w))) in
  counter self <= counter self' /\
  counter self' <= counter self + List.length (filter complete pages).
Proof.
  cbv zeta. revert self w. induction pages as [|p pages IH]; intros self w.
  - cbn. lia.
  - cbn [convert_pages filter].
    pose proof (convert_page_self pandoc format_exc host p self w) as Hself.
    cbv zeta in Hself.
    destruct (complete p) eqn:Hc.
    + destruct (convert_page pandoc format_exc host p (self, w)) as [[s' v'] e].
      cbn [fst] in Hself.
      assert (Hs : counter self <= counter s' <= counter self + 1)
        by (destruct Hself as [-> | ->]; cbn; lia).
      destruct e as [e|]; cbn [fst List.length].
      * lia.
      * specialize (IH s' v'). lia.
    + destruct (convert_page_incomplete p self w Hc) as [line ->].
      apply IH.
Qed.

End LoopFacts.

Lemma convert_page_success_witness :
  Convert.read_file "./output/A_B.md"
    (snd (fst (Convert.convert_page echo_pandoc plain_traceback sample_host
                 {| Convert.page_title := Some "A/B";
                    Convert.page_text := Some "Some text" |}
                 (sample_converter, empty_world))))
  = Some "Some text".
Proof.
  exact (proj1 (proj2 (proj2
           (convert_page_success echo_pandoc plain_traceback sample_host
              sample_converter empty_world "A/B" "Some text" "Some text" ""
              eq_refl eq_refl eq_refl eq_refl eq_refl)))).
Defined.

Lemma convert_page_save_refused_witness :
  let r := Convert.convert_page echo_pandoc plain_traceback short_names_host
             {| Convert.page_title := Some long_title;
                Convert.page_text := Some "Some text" |}
             (sample_converter, empty_world) in
  snd r = Some (Convert.OSError "[Errno 36] File name too long") /\
  Convert.files (snd (fst r)) = [] /\
  Convert.counter (fst (fst r)) = 0.
Proof.
  cbv zeta.
  pose proof (convert_page_save_refused echo_pandoc plain_traceback
                short_names_host sample_converter empty_world long_title
                "Some text" "Some text" "" "[Errno 36] File name too long"
                eq_refl eq_refl eq_refl eq_refl) as (Hself & Hexn & Hfiles & _).
  split; [exact Hexn|]. split; [exact Hfiles|]. now rewrite Hself.
Defined.

Lemma convert_page_template_witness :
  snd (Convert.convert_page failing_pandoc plain_traceback sample_host
         {| Convert.page_title := Some "Template:Infobox";
            Convert.page_text := Some "<noinclude>Usage</noinclude>{{Infobox}}" |}
         (sample_converter, empty_world)) = None.
Proof.
  exact (proj1 (proj2
           (convert_page_template failing_pandoc plain_traceback sample_host
              sample_converter empty_world "Template:Infobox"
              "<noinclude>Usage</noinclude>{{Infobox}}"
              echo_pandoc eq_refl eq_refl eq_refl) eq_refl eq_refl eq_refl)).
Defined.

Lemma skiperrors_never_raises_witness :
  snd (Convert.convert_pages failing_pandoc plain_traceback sample_host sample_pages
         (sample_converter_skip, empty_world)) = None.
Proof.
  exact (proj1 (skiperrors_never_raises failing_pandoc plain_traceback sample_host
                  sample_pages "" sample_converter_skip empty_world eq_refl)).
Defined.

(* ================================================================== *)
(** * Tables and template pages *)

Section RenderingFacts.

Import PyStr Convert.

Lemma convert_row_later (i : nat) (acc : list string) (row : string) :
  convert_row (S i, acc) row
  = (S (S i), (acc ++ body_lines [row])%list).
Proof.
  unfold convert_row, body_lines. cbn [map filter]. fold (row_cells row).
  destruct (row_cells row) as [|c cells]; cbn [has_cells map Nat.eqb].
  - now rewrite app_nil_r.
  - reflexivity.
Qed.

Lemma body_lines_cons (row : string) (rows : list string) :
  body_lines (row :: rows) = (body_lines [row] ++ body_lines rows)%list.
Proof.
  unfold body_lines. cbn [map filter].
  destruct (has_cells (row_cells row)); reflexivity.
Qed.

Lemma convert_rows_later (rows : list string) (i : nat) (acc : list string) :
  snd (fold_left convert_row rows (S i, acc)) = (acc ++ body_lines rows)%list.
Proof.
  revert i acc. induction rows as [|row rows IH]; intros i acc.
  - cbn. now rewrite app_nil_r.
  - cbn [fold_left]. rewrite convert_row_later, IH, (body_lines_cons row rows).
    now rewrite app_assoc.
Qed.

(** X21.  Only the text before the first row mark can give the header
    separator: when it holds a cell, the table is its line, the separator
    with as many columns, then one line for every later row that holds a
    cell; when it holds none, the table has no separator at all. *)
Theorem convert_table_lines (m : Re.matched) :
  let rows := split (Re.group1 m) "|-" in
  convert_table m
  = join LF (match row_cells (hd "" rows) with
             | [] => body_lines (tl rows)
             | cells => row_line cells :: separator_line cells :: body_lines (tl rows)
             end).
Proof.
  cbv zeta. unfold convert_table. cbv zeta. f_equal.
  destruct (split (Re.group1 m) "|-") as [|row rows]; [reflexivity|].
  cbn [fold_left hd tl]. unfold convert_row at 2. cbv zeta.
  fold (row_cells row).
  destruct (row_cells row) as [|c cells].
  - now rewrite convert_rows_later.
  - cbn [Nat.eqb]. rewrite convert_rows_later. reflexivity.
Qed.

(** A lazy starred character class goes on as long as the rest of the
    pattern fails at every place inside [body]. *)
Lemma star_loop_lazy_split (p : ascii -> bool) (k : Re.cont) (rest : string)
    (g : option string) (res : Re.result) (body : string) :
  forall n prev,
    (forall a, mem a body = true -> p a = true) ->
    (forall b1 a b2, body = b1 ++ String a b2 ->
       forall prev', k prev' (String a b2 ++ rest) g = None) ->
    k (last_of body prev) rest g = Some res ->
    String.length (body ++ rest) <= n ->
    Re.star_loop (Re.run (Re.Chr p)) false k n prev (body ++ rest) g = Some res.
Proof.
  induction body as [|a body IH]; intros n prev Hp Hk Hres Hn.
  - cbn [append last_of] in *. destruct n; cbn [Re.star_loop]; now rewrite Hres.
  - destruct n as [|n]; [simpl in Hn; lia|].
    cbn [append Re.star_loop Re.run].
    rewrite (Hk "" a body eq_refl).
    rewrite Hp by (cbn [mem]; now rewrite Ascii.eqb_refl).
    cbn [Re.orelse].
    assert (Hlt : Nat.ltb (String.length (body ++ rest))
                    (String.length (String a (body ++ rest))) = true)
      by (apply Nat.ltb_lt; simpl; lia).
    rewrite Hlt. apply IH.
    + intros x Hx. apply Hp. cbn [mem]. rewrite Hx. apply orb_true_r.
    + intros b1 x b2 -> prev'. exact (Hk (String a b1) x b2 eq_refl prev').
    + exact Hres.
    + simpl in Hn. lia.
Qed.

Lemma no_close_inside (b1 b2 : string) (a : ascii) (post : string) :
  contains (b1 ++ String a b2) "|}" = false ->
  startswith (String a b2 ++ "|}" ++ post) "|}" = false.
Proof.
  intros H.
  destruct (startswith (String a b2 ++ "|}" ++ post) "|}") eqn:E; [|reflexivity].
  cbn [append startswith] in E.
  destruct (Ascii.eqb_spec "|" a) as [<-|]; [|discriminate E].
  destruct b2 as [|c b2]; [cbn in E; discriminate E|].
  cbn [append startswith andb] in E.
  destruct (Ascii.eqb_spec "}" c) as [<-|]; [|discriminate E].
  rewrite contains_app_r in H; [discriminate H|].
  cbn [contains startswith]. now rewrite !Ascii.eqb_refl, startswith_nil.
Qed.

Lemma match_table_prev (prev : option ascii) (s : string) :
  Re.match_at re_table prev s = Re.match_at re_table None s.
Proof. destruct s; reflexivity. Qed.

Lemma match_table_miss (prev : option ascii) (a : ascii) (s : string) :
  Ascii.eqb "{" a = false -> Re.match_at re_table prev (String a s) = None.
Proof.
  intros H. unfold Re.match_at, re_table. cbn [Re.seq Re.lit Re.run]. now rewrite H.
Qed.

(** The table pattern takes the shortest body: up to the first closing
    mark, line ends included. *)
Lemma match_table (prev : option ascii) (body post : string) :
  contains body "|}" = false ->
  Re.match_at re_table prev ("{|" ++ body ++ "|}" ++ post) = Some (post, Some body).
Proof.
  intros Hclose. unfold Re.match_at, re_table.
  cbn [Re.seq Re.lit Re.lazy_star Re.run append]. rewrite !Ascii.eqb_refl.
  erewrite (star_loop_lazy_split Re.any _ ("|}" ++ post)); [reflexivity| | | |].
  - reflexivity.
  - intros b1 a b2 -> prev'.
    pose proof (no_close_inside b1 b2 a post Hclose) as E.
    cbn [append startswith] in E. cbn [append].
    destruct (Ascii.eqb "|" a); [|reflexivity].
    destruct (b2 ++ String "|" (String "}" post)) as [|c t]; [reflexivity|].
    rewrite startswith_char in E.
    destruct (Ascii.eqb "}" c); [discriminate E | reflexivity].
  - cbn [append]. rewrite !Ascii.eqb_refl. now rewrite consumed_app.
  - constructor.
Qed.

(** X22.  In a text, the first table after brace-free text ends at the
    first closing mark behind its opening mark, line ends included; the
    text before it is kept, the table is replaced by its lines, and the
    scan goes on behind the closing mark. *)
Theorem convert_tables_first_table (pre body post : string) :
  mem "{" pre = false -> contains body "|}" = false ->
  convert_tables_to_markdown (pre ++ "{|" ++ body ++ "|}" ++ post)
  = pre ++ convert_table {| Re.group0 := "{|" ++ body ++ "|}"; Re.group1 := body |}
    ++ convert_tables_to_markdown post.
Proof.
  intros Hpre Hclose. unfold convert_tables_to_markdown. fold re_table.
  rewrite (sub_pre _ _ (Ascii.eqb "{") match_table_prev match_table_miss pre)
    by (intros a Ha; destruct (Ascii.eqb_spec "{" a) as [<-|]; congruence).
  f_equal.
  replace ("{|" ++ body ++ "|}" ++ post) with (("{|" ++ body ++ "|}") ++ post)
    by (now rewrite !append_assoc).
  rewrite (sub_hit _ _ match_table_prev ("{|" ++ body ++ "|}") post (Some body));
    [reflexivity | discriminate |].
  rewrite !append_assoc. exact (match_table None body post Hclose).
Qed.

Lemma join_starts (sep x : string) (l : list string) :
  startswith (join sep (x :: l)) x = true.
Proof.
  destruct l as [|y l]; cbn [join String.concat].
  - rewrite <- (append_nil_r x) at 1. apply startswith_app.
  - apply startswith_app.
Qed.

Lemma template_step_head (st : TemplateState) (line : string) :
  exists more, markdown_lines (template_step st line)
               = (markdown_lines st ++ more)%list.
Proof.
  unfold template_step. cbv zeta.
  repeat match goal with
         | |- context [if ?b then _ else _] => destruct b
         end;
    cbn [markdown_lines]; first [now eexists | exists []; now rewrite app_nil_r].
Qed.

Lemma template_fold_head (lines : list string) (st : TemplateState) :
  exists more, markdown_lines (fold_left template_step lines st)
               = (markdown_lines st ++ more)%list.
Proof.
  revert st. induction lines as [|line lines IH]; intros st.
  - exists []. now rewrite app_nil_r.
  - cbn [fold_left]. destruct (IH (template_step st line)) as [m2 ->].
    destruct (template_step_head st line) as [m1 ->].
    exists (m1 ++ m2)%list. now rewrite app_assoc.
Qed.

Lemma substring_prefix (n : nat) (s : string) :
  startswith s (substring 0 n s) = true /\ String.length (substring 0 n s) <= n.
Proof.
  revert s. induction n as [|n IH]; intros s.
  - destruct s; cbn; split; auto using startswith_nil.
  - destruct s as [|a s]; cbn [substring startswith String.length].
    + split; [reflexivity | lia].
    + destruct (IH s) as [H1 H2]. rewrite Ascii.eqb_refl, H1. split; [reflexivity | lia].
Qed.

(** X23.  The rendering of a template page always starts with the heading
    Template Documentation and a line end, whatever the text.  It writes no file and makes no directory: it only prints the
    banner and an excerpt, which is the start of the result and at most
    200 characters long. *)
Theorem convert_template_heading (text : string) (w : World) :
  let r := convert_template_to_markdown text w in
  startswith (fst r) ("# Template Documentation" ++ LF) = true /\
  same_fs w (snd r) /\
  exists excerpt,
    stdout (snd r)
    = (stdout w ++ ["Template conversion result (first 200 chars):"%string; excerpt])%list /\
    startswith (fst r) excerpt = true /\
    String.length excerpt <= 200.
Proof.
  cbv zeta. unfold convert_template_to_markdown. cbv zeta. cbn [fst snd].
  split; [|split].
  - match goal with |- context [fold_left template_step ?l ?st] =>
      destruct (template_fold_head l st) as [more Hm];
      destruct (fold_left template_step l st) as [ml ip it tp]
    end.
    cbn [markdown_lines template_params] in *. subst ml.
    destruct tp; cbn [app]; apply join_starts.
  - split; reflexivity.
  - eexists. split; [|apply substring_prefix].
    cbn [print stdout]. now rewrite <- app_assoc.
Qed.

End RenderingFacts.

Lemma convert_tables_first_table_witness :
  Convert.convert_tables_to_markdown
    ("See: " ++ "{|" ++ " Name | Age |- Ann | 7 " ++ "|}" ++ " end")
  = "See: " ++ "| Name | Age |" ++ LF ++ "|---|---|" ++ LF ++ "| Ann | 7 |" ++ " end".
Proof.
  rewrite (convert_tables_first_table "See: " " Name | Age |- Ann | 7 " " end"
             eq_refl eq_refl).
  reflexivity.
Defined.
